(** * Prometheus: tokenizer wrapper, embedding helpers and backbone assembly

    A shallow embedding of [prometheus/tokenizer.py],
    [prometheus/input_processing.py] and [prometheus/backbone.py].

    Python objects are records, dictionaries are [gmap]s, exceptions are the
    [Raise] branch of [result].  Tensors are represented by what the wiring
    code can observe of them: their identity (a number handed out when the
    tensor is allocated), their shape, and a symbolic description of the
    last initialiser that wrote to them.  The numerical kernels of the
    tensor runtime, of the subword-tokenizer library and of the state-space
    library are not part of the repository; they enter as section
    variables. *)

From Stdlib Require Import ZArith QArith Ascii String.
From stdpp Require Import base option list strings gmap pretty.

Set Warnings "-register-all".

Local Open Scope Z_scope.
Local Open Scope string_scope.
Local Open Scope list_scope.

(** ** Python exceptions and fallible computations *)

Inductive exn :=
| ValueError (msg : string)
| TypeError (msg : string)
| ImportError (msg : string)
| AttributeError (msg : string)
| RuntimeError (msg : string)
| ZeroDivisionError (msg : string)
| IndexError (msg : string).

Inductive result (A : Type) :=
| Ok (a : A)
| Raise (e : exn).
Arguments Ok {A} a.
Arguments Raise {A} e.

#[global] Instance result_ret : MRet result := λ A a, Ok a.
#[global] Instance result_bind : MBind result := λ A B f m,
  match m with
  | Ok a => f a
  | Raise e => Raise e
  end.

Definition result_map {A B} (f : A → B) (r : result A) : result B :=
  match r with
  | Ok a => Ok (f a)
  | Raise e => Raise e
  end.

Definition is_ok {A} (r : result A) : bool :=
  match r with Ok _ => true | Raise _ => false end.

(** Python values that occur inside keyword dictionaries. *)
Inductive pyval :=
| PStr (s : string)
| PInt (z : Z)
| PBool (b : bool)
| PNone.

#[global] Instance pyval_eq_dec : EqDecision pyval.
Proof. solve_decision. Defined.

(** [str(v)], as an f-string renders it. *)
Definition py_str (v : pyval) : string :=
  match v with
  | PStr s => s
  | PInt z => pretty z
  | PBool true => "True"
  | PBool false => "False"
  | PNone => "None"
  end.

(** [xs[i]] on a Python list: negative indices count from the end,
    anything else out of range raises. *)
Definition py_index {A} (xs : list A) (i : Z) : result A :=
  let n := Z.of_nat (length xs) in
  let j := if decide (i < 0) then i + n else i in
  if decide (0 <= j < n) then
    match xs !! Z.to_nat j with
    | Some x => Ok x
    | None => Raise (IndexError "list index out of range")
    end
  else Raise (IndexError "list index out of range").

(** ** tokenizer.py *)

Module Tokenizers.

(** What the wrapper reads off an [Encoding]. *)
Record Encoding := { tokens : list string; ids : list Z }.

Definition empty_encoding : Encoding := {| tokens := []; ids := [] |}.

(** A parsed [TemplateProcessing] template. *)
Inductive piece :=
| Special (name : string)
| SequenceA
| SequenceB.

Record TemplateProcessing := {
  single : list piece;
  pair : list piece;
  special_tokens : list (string * Z)
}.

(** The model of a tokenizer together with its pre-tokenizer: from a raw
    string to the sub-word tokens and their ids, and back. *)
Record BPE := {
  bpe_encode : string → Encoding;
  bpe_decode : list Z → string
}.

(** [BPE()]: an empty vocabulary and no unknown token, so nothing is
    emitted. *)
Definition BPE_new : BPE :=
  {| bpe_encode := λ _, empty_encoding; bpe_decode := λ _, "" |}.

Record Tokenizer := {
  model : BPE;
  post_processor : option TemplateProcessing
}.

Definition lookup_special (sp : list (string * Z)) (name : string)
  : option Z :=
  (λ hit, hit.2.2) <$> list_find (λ p, p.1 = name) sp.

(** One piece of a single-sequence template. A special token that has no
    id cannot occur: the builder of the template rejects it. *)
Definition render_piece (tp : TemplateProcessing) (a : Encoding)
    (p : piece) : Encoding :=
  match p with
  | Special name =>
      match lookup_special (special_tokens tp) name with
      | Some i => {| tokens := [name]; ids := [i] |}
      | None => empty_encoding
      end
  | SequenceA => a
  | SequenceB => empty_encoding
  end.

Definition concat_encodings (es : list Encoding) : Encoding :=
  {| tokens := concat (tokens <$> es); ids := concat (ids <$> es) |}.

Definition process_single (tp : TemplateProcessing) (a : Encoding)
  : Encoding :=
  concat_encodings (render_piece tp a <$> single tp).

(** [Tokenizer.encode(sequence)], special tokens added. *)
Definition encode (t : Tokenizer) (sequence : string) : Encoding :=
  let e := bpe_encode (model t) sequence in
  match post_processor t with
  | Some tp => process_single tp e
  | None => e
  end.

Definition decode (t : Tokenizer) (token_ids : list Z) : string :=
  bpe_decode (model t) token_ids.

End Tokenizers.

Module GenomeTok.
Import Tokenizers.

Section WithTrainer.

(** [Tokenizer.train_from_iterator] with a [BpeTrainer(vocab_size,
    special_tokens)] and the whitespace pre-tokenizer: the fitted model.
    The trainer belongs to the sub-word library. *)
Variable train_from_iterator : Z → list string → list string → BPE.

Record GenomeTokenizer := {
  vocab_size : Z;
  special_tokens : list string;
  chunk_size : Z;
  model_path : string;
  tokenizer : Tokenizer
}.

Definition default_special_tokens : list string :=
  ["[UNK]"; "[PAD]"; "[MASK]"; "[START]"; "[END]"; "[SNP]"; "[INS]";
   "[DEL]"].

(** [special_tokens or [...]]: [None] and the empty list both select the
    default. *)
Definition special_tokens_or_default (st : option (list string))
  : list string :=
  match st with
  | Some (t :: ts) => t :: ts
  | _ => default_special_tokens
  end.

Definition start_end_template : TemplateProcessing :=
  {| single := [Special "[START]"; SequenceA; Special "[END]"];
     pair := [Special "[START]"; SequenceA; SequenceB; Special "[END]"];
     Tokenizers.special_tokens := [("[START]", 1); ("[END]", 2)] |}.

(** [GenomeTokenizer.__init__] *)
Definition init (vocab_size : Z) (special_tokens : option (list string))
    (model_path : string) (chunk_size : Z) : GenomeTokenizer :=
  {| vocab_size := vocab_size;
     special_tokens := special_tokens_or_default special_tokens;
     chunk_size := chunk_size;
     model_path := model_path;
     tokenizer := {| model := BPE_new;
                     post_processor := Some start_end_template |} |}.

(** [GenomeTokenizer.train]; writing the fitted model to [model_path]
    leaves the object unchanged. *)
Definition train (self : GenomeTokenizer) (sequences : list string)
  : GenomeTokenizer :=
  {| vocab_size := vocab_size self;
     special_tokens := special_tokens self;
     chunk_size := chunk_size self;
     model_path := model_path self;
     tokenizer :=
       {| model := train_from_iterator (vocab_size self)
                     (special_tokens self) sequences;
          post_processor := post_processor (tokenizer self) |} |}.

(** [GenomeTokenizer.tokenize]: the dictionary [{"tokens", "ids"}]. *)
Definition tokenize (self : GenomeTokenizer) (sequence : string)
  : Encoding :=
  let encoded := encode (tokenizer self) sequence in
  {| tokens := tokens encoded; ids := ids encoded |}.

(** [GenomeTokenizer.detokenize] *)
Definition detokenize (self : GenomeTokenizer) (token_ids : list Z)
  : string :=
  decode (tokenizer self) token_ids.

(** [GenomeTokenizer.tokenize_batch] *)
Definition tokenize_batch (self : GenomeTokenizer)
    (sequences : list string) : list Encoding :=
  (λ seq, tokenize self seq) <$> sequences.

(** [GenomeTokenizer.detokenize_batch] *)
Definition detokenize_batch (self : GenomeTokenizer)
    (batch_ids : list (list Z)) : list string :=
  (λ ids, detokenize self ids) <$> batch_ids.

End WithTrainer.

(** A fitted model for target sizes that leave no room for merges (the
    target does not exceed the special tokens plus the alphabet): the
    vocabulary is the special tokens followed by the alphabet of the
    corpus in code-point order, every known character is a token of its
    own, whitespace separates words and characters outside the alphabet
    are dropped, there being no unknown token. *)
Fixpoint insert_char (c : ascii) (l : list ascii) : list ascii :=
  match l with
  | [] => [c]
  | d :: l' =>
      if decide (nat_of_ascii c < nat_of_ascii d)%nat then c :: l
      else if decide (c = d) then l
      else d :: insert_char c l'
  end.

Definition is_space (c : ascii) : bool :=
  bool_decide (c ∈ [" "%char; "009"%char; "010"%char; "013"%char]).

Definition alphabet (corpus : list string) : list ascii :=
  foldr insert_char []
    (filter (λ c, is_space c = false)
       (concat (list_ascii_of_string <$> corpus))).

Definition char_id (n_special : nat) (alpha : list ascii) (c : ascii)
  : option Z :=
  (λ hit, Z.of_nat (n_special + hit.1)) <$> list_find (λ d, d = c) alpha.

Definition char_encode (n_special : nat) (alpha : list ascii)
    (s : string) : Encoding :=
  let known :=
    omap (λ c, (λ i, (String c EmptyString, i)) <$>
                 char_id n_special alpha c)
         (list_ascii_of_string s) in
  {| tokens := fst <$> known; ids := snd <$> known |}.

Definition char_decode (n_special : nat) (alpha : list ascii)
    (token_ids : list Z) : string :=
  string_of_list_ascii
    (omap (λ i, if decide (Z.of_nat n_special <= i)
                then alpha !! (Z.to_nat i - n_special)%nat
                else None) token_ids).

Definition char_level_trainer (_ : Z) (specials : list string)
    (corpus : list string) : BPE :=
  let alpha := alphabet corpus in
  {| bpe_encode := char_encode (length specials) alpha;
     bpe_decode := char_decode (length specials) alpha |}.

End GenomeTok.

(** ** input_processing.py *)

Module InputProcessing.
Import Tokenizers GenomeTok.

(** A tensor, as far as the helpers look at it. *)
Record Tensor := { shape : list Z }.

Record nn_Embedding := { num_embeddings : Z; embedding_dim : Z }.

Record GenomicEmbeddingModel := {
  genomic_embedding_dim : option Z;
  genomic_embedding_layer : nn_Embedding
}.

(** The objects a local variable of [embed_genomic] can be bound to. *)
Inductive pyobj :=
| OTensor (t : Tensor)
| OGenomicEmbeddingModel (m : GenomicEmbeddingModel).

(** [torch.tensor] on a list of integer lists: the rows must agree in
    length. *)
Definition torch_tensor (data : list (list Z)) : result Tensor :=
  match data with
  | [] => Ok {| shape := [0] |}
  | row0 :: rows =>
      match list_find (λ r : list Z, length r ≠ length row0) rows with
      | Some (_, bad) =>
          Raise (ValueError
            ("expected sequence of length " +:+ pretty (length row0) +:+
             " at dim 1 (got " +:+ pretty (length bad) +:+ ")"))
      | None =>
          Ok {| shape := [Z.of_nat (length data);
                          Z.of_nat (length row0)] |}
      end
  end.

(** [nn.Embedding(num_embeddings, embedding_dim)]: the weight table must
    have integer, non-negative sizes. *)
Definition nn_Embedding_new (num_embeddings : Z)
    (embedding_dim : option Z) : result nn_Embedding :=
  match embedding_dim with
  | None =>
      Raise (TypeError
        "empty() received an invalid combination of arguments")
  | Some d =>
      if decide (num_embeddings < 0 ∨ d < 0) then
        Raise (RuntimeError
          "Trying to create tensor with negative dimension")
      else Ok {| num_embeddings := num_embeddings; embedding_dim := d |}
  end.

(** [GenomicEmbeddingModel.__init__] *)
Definition GenomicEmbeddingModel_new (vocab_size_genomic : Z)
    (genomic_embedding_dim : option Z) : result GenomicEmbeddingModel :=
  layer ← nn_Embedding_new vocab_size_genomic genomic_embedding_dim;
  mret {| genomic_embedding_dim := genomic_embedding_dim;
          genomic_embedding_layer := layer |}.

(** [GenomicEmbeddingModel.forward]: one row of the table per id. *)
Definition GenomicEmbeddingModel_forward (self : GenomicEmbeddingModel)
    (genomic_input_ids : Tensor) : Tensor :=
  {| shape := shape genomic_input_ids ++
              [embedding_dim (genomic_embedding_layer self)] |}.

(** [obj.shape]: tensors have one, modules do not. *)
Definition getattr_shape (o : pyobj) : result (list Z) :=
  match o with
  | OTensor t => Ok (shape t)
  | OGenomicEmbeddingModel _ =>
      Raise (AttributeError
        "'GenomicEmbeddingModel' object has no attribute 'shape'")
  end.

(** [embed_genomic]; moving the id tensor to [device] does not change
    what is modelled of it. *)
Definition embed_genomic (sequences : list string)
    (tokenizer : GenomeTokenizer) (dim : option Z) : result pyobj :=
  let tokenized_data := tokenize_batch tokenizer sequences in
  let genomic_input_ids := (λ item, ids item) <$> tokenized_data in
  genomic_input_ids ← torch_tensor genomic_input_ids;
  genomic_embeddings ←
    GenomicEmbeddingModel_new (vocab_size tokenizer) dim;
  let genomic_embeddings := OGenomicEmbeddingModel genomic_embeddings in
  _ ← getattr_shape genomic_embeddings;
  mret genomic_embeddings.

End InputProcessing.

(** ** backbone.py: tensors, modules and initialisers *)

Module Torch.

(** A parameter tensor: its identity, its shape, and the [_no_reinit]
    mark some layers put on a bias. *)
Record nn_Parameter := {
  p_id : nat;
  p_shape : list Z;
  p_no_reinit : bool
}.

(** The last in-place initialiser that wrote to a tensor.
    [ScaledKaiming r] is [kaiming_uniform_(p, a=sqrt(5))] followed by
    [p /= sqrt(r)].  A tensor absent from the store still holds what its
    constructor drew. *)
Inductive init :=
| Zeros
| Normal (std : Q)
| ScaledKaiming (radicand : Z).

Record nn_Linear := { weight : nn_Parameter; bias : option nn_Parameter }.
Record nn_Embedding := { table : nn_Parameter }.

(** A module tree.  [Linear] and [Embedding] are the two classes
    [_init_weights] tests for; every other class is an [nn_Module] with its
    registered parameters and sub-modules. *)
Inductive module :=
| Linear (l : nn_Linear)
| Embedding (e : nn_Embedding)
| nn_Module (cls : string) (params : list (string * nn_Parameter))
         (children : list (string * module)).

(** Allocation state threaded through constructors: the next free
    tensor identity and the contents written so far. *)
Record heap := { next : nat; tensors : gmap nat init }.

Definition ctor (A : Type) : Type := heap → result (A * heap).

#[global] Instance ctor_ret : MRet ctor := λ A a h, Ok (a, h).
#[global] Instance ctor_bind : MBind ctor := λ A B f m h,
  match m h with
  | Ok (a, h') => f a h'
  | Raise e => Raise e
  end.

Definition raise {A} (e : exn) : ctor A := λ _, Raise e.

(** Run a store transformer on the tensors of the heap. *)
Definition on_tensors (f : gmap nat init → result (gmap nat init))
  : ctor unit := λ h,
  match f (tensors h) with
  | Ok σ => Ok (tt, {| next := next h; tensors := σ |})
  | Raise e => Raise e
  end.

Definition negative_dimension : exn :=
  RuntimeError "Trying to create tensor with negative dimension".

(** [torch.empty(shape)] wrapped as a parameter. *)
Definition new_parameter (shape : list Z) (no_reinit : bool)
  : ctor nn_Parameter := λ h,
  if decide (Exists (λ d, d < 0) shape) then Raise negative_dimension
  else Ok ({| p_id := next h; p_shape := shape;
              p_no_reinit := no_reinit |},
           {| next := S (next h); tensors := tensors h |}).

(** [nn.Linear(in_features, out_features, bias=...)] *)
Definition nn_Linear_new (in_features out_features : Z) (with_bias : bool)
  : ctor nn_Linear :=
  w ← new_parameter [out_features; in_features] false;
  if with_bias then
    b ← new_parameter [out_features] false;
    mret {| weight := w; bias := Some b |}
  else mret {| weight := w; bias := None |}.

(** [nn.Embedding(num_embeddings, embedding_dim)] *)
Definition nn_Embedding_new (num_embeddings embedding_dim : Z)
  : ctor nn_Embedding :=
  w ← new_parameter [num_embeddings; embedding_dim] false;
  mret {| table := w |}.

(** [nn.LayerNorm(d)]: a weight and a bias. *)
Definition nn_LayerNorm_new (d : Z) : ctor module :=
  w ← new_parameter [d] false;
  b ← new_parameter [d] false;
  mret (nn_Module "LayerNorm" [("weight", w); ("bias", b)] []).

(** [RMSNorm(d)]: a weight only. *)
Definition RMSNorm_new (d : Z) : ctor module :=
  w ← new_parameter [d] false;
  mret (nn_Module "RMSNorm" [("weight", w)] []).

(** Give every parameter of a module built elsewhere an identity of its
    own: what running that module's constructor does to the heap. *)
Definition fresh (p : nn_Parameter) : ctor nn_Parameter :=
  new_parameter (p_shape p) (p_no_reinit p).

Fixpoint fresh_params (ps : list (string * nn_Parameter))
  : ctor (list (string * nn_Parameter)) :=
  match ps with
  | [] => mret []
  | (n, p) :: ps' =>
      q ← fresh p;
      qs ← fresh_params ps';
      mret ((n, q) :: qs)
  end.

Fixpoint instantiate (m : module) : ctor module :=
  match m with
  | Linear l =>
      w ← fresh (weight l);
      match bias l with
      | Some b => b' ← fresh b; mret (Linear {| weight := w; bias := Some b' |})
      | None => mret (Linear {| weight := w; bias := None |})
      end
  | Embedding e =>
      w ← fresh (table e);
      mret (Embedding {| table := w |})
  | nn_Module cls ps cs =>
      ps' ← fresh_params ps;
      cs' ← (fix go (cs : list (string * module))
               : ctor (list (string * module)) :=
               match cs with
               | [] => mret []
               | (n, c) :: cs' =>
                   c' ← instantiate c;
                   rest ← go cs';
                   mret ((n, c') :: rest)
               end) cs;
      mret (nn_Module cls ps' cs')
  end.

(** The parameters registered directly on a module. *)
Definition own_parameters (m : module) : list (string * nn_Parameter) :=
  match m with
  | Linear l =>
      ("weight", weight l) ::
      match bias l with Some b => [("bias", b)] | None => [] end
  | Embedding e => [("weight", table e)]
  | nn_Module _ ps _ => ps
  end.

Definition children (m : module) : list (string * module) :=
  match m with
  | nn_Module _ _ cs => cs
  | _ => []
  end.

(** Every parameter below a module with its dotted name, in registration
    order; [prefix] is empty or ends in a dot. *)
Fixpoint prefixed_parameters (prefix : string) (m : module)
  : list (string * nn_Parameter) :=
  ((λ np : string * nn_Parameter, (prefix +:+ np.1, np.2)) <$> own_parameters m)
  ++ match m with
     | nn_Module _ _ cs =>
         flat_map (λ nc : string * module,
                     let '(n, c) := nc in
                     prefixed_parameters (prefix +:+ n +:+ ".") c) cs
     | _ => []
     end.

(** Keep the first name of every tensor. *)
Fixpoint remove_duplicate (seen : gset nat)
    (l : list (string * nn_Parameter)) : list (string * nn_Parameter) :=
  match l with
  | [] => []
  | (n, p) :: l' =>
      if decide (p_id p ∈ seen) then remove_duplicate seen l'
      else (n, p) :: remove_duplicate ({[p_id p]} ∪ seen) l'
  end.

(** [module.named_parameters()] *)
Definition named_parameters (m : module) : list (string * nn_Parameter) :=
  remove_duplicate ∅ (prefixed_parameters "" m).

(** [module.apply(fn)]: the children first, then the module itself. *)
Fixpoint apply (fn : module → gmap nat init → result (gmap nat init))
    (m : module) (σ : gmap nat init) : result (gmap nat init) :=
  match m with
  | nn_Module _ _ cs =>
      σ' ← (fix go (cs : list (string * module)) (σ : gmap nat init)
              : result (gmap nat init) :=
              match cs with
              | [] => Ok σ
              | (_, c) :: cs' => σ1 ← apply fn c σ; go cs' σ1
              end) cs σ;
      fn m σ'
  | _ => fn m σ
  end.

(** The loop over the children inside [apply]. *)
Fixpoint apply_children
    (fn : module → gmap nat init → result (gmap nat init))
    (cs : list (string * module)) (σ : gmap nat init)
  : result (gmap nat init) :=
  match cs with
  | [] => Ok σ
  | (_, c) :: cs' => σ1 ← apply fn c σ; apply_children fn cs' σ1
  end.

(** The loop over the children inside [instantiate]. *)
Fixpoint instantiate_children (cs : list (string * module))
  : ctor (list (string * module)) :=
  match cs with
  | [] => mret []
  | (n, c) :: cs' =>
      c' ← instantiate c;
      rest ← instantiate_children cs';
      mret ((n, c') :: rest)
  end.

(** [module.parameters()] without the removal of duplicates, and
    [module.modules()]. *)
Fixpoint parameters (m : module) : list nn_Parameter :=
  (snd <$> own_parameters m)
  ++ match m with
     | nn_Module _ _ cs =>
         flat_map (λ nc : string * module, parameters nc.2) cs
     | _ => []
     end.

Fixpoint modules (m : module) : list module :=
  m :: match m with
       | nn_Module _ _ cs =>
           flat_map (λ nc : string * module, modules nc.2) cs
       | _ => []
       end.

(** The tensor identities below a module, in registration order. *)
Definition parameter_ids (m : module) : list nat :=
  p_id <$> parameters m.

(** Between two heaps exactly the tensors [ids] were allocated, in that
    order. *)
Definition allocated (h h' : heap) (ids : list nat) : Prop :=
  ids = seq (next h) (length ids) ∧ next h' = (next h + length ids)%nat.

(** [nn.init.zeros_] *)
Definition zeros_ (p : nn_Parameter) (σ : gmap nat init) : gmap nat init :=
  <[p_id p := Zeros]> σ.

(** [nn.init.normal_(p, std=std)] *)
Definition normal_ (p : nn_Parameter) (std : Q) (σ : gmap nat init)
  : result (gmap nat init) :=
  if Qlt_le_dec std 0 then
    Raise (RuntimeError "normal expects std >= 0.0")
  else Ok (<[p_id p := Normal std]> σ).

(** [nn.init.kaiming_uniform_(p, a=math.sqrt(5))] followed by
    [p /= math.sqrt(radicand)]. *)
Definition kaiming_uniform_then_divide (p : nn_Parameter) (radicand : Z)
    (σ : gmap nat init) : result (gmap nat init) :=
  if decide (length (p_shape p) < 2)%nat then
    Raise (ValueError
      "Fan in and fan out can not be computed for tensor with fewer than 2 dimensions")
  else if decide (radicand < 0) then
    Raise (ValueError "math domain error")
  else Ok (<[p_id p := ScaledKaiming radicand]> σ).

End Torch.

Module Backbone.
Import Torch.

(** The three names bound by the guarded import at the top of the file:
    [true] when bound to the kernel, [false] when bound to [None]. *)
Record triton_imports := {
  RMSNorm : bool;
  layer_norm_fn : bool;
  rms_norm_fn : bool
}.

(** [try: from ... import RMSNorm, layer_norm_fn, rms_norm_fn
     except ImportError: RMSNorm, layer_norm_fn, rms_norm_fn = None, ...] *)
Definition import_triton (import_succeeds : bool) : triton_imports :=
  if import_succeeds
  then {| RMSNorm := true; layer_norm_fn := true; rms_norm_fn := true |}
  else {| RMSNorm := false; layer_norm_fn := false; rms_norm_fn := false |}.

Inductive mixer_class := Mamba | Mamba2 | MHA.

(** [partial(cls, layer_idx=..., **cfg, **factory_kwargs)] *)
Record mixer_partial := {
  mixer_class_of : mixer_class;
  mixer_layer_idx : option Z;
  mixer_kwargs : gmap string pyval
}.

Inductive norm_class := LayerNorm | RMSNorm_class.

Record norm_partial := {
  norm_class_of : norm_class;
  norm_eps : Q;
  norm_kwargs : gmap string pyval
}.

Inductive mlp_class :=
| Identity
| GatedMLP (hidden_features out_features : Z)
           (kwargs : gmap string pyval).

(** The arguments [create_block] hands to [Block]. *)
Record Block_args := {
  dim : Z;
  mixer_cls : mixer_partial;
  mlp_cls : mlp_class;
  norm_cls : norm_partial;
  block_fused_add_norm : bool;
  block_residual_in_fp32 : bool
}.

Record Block := {
  block_args : Block_args;
  block_module : module;
  layer_idx : option Z
}.

Record MambaConfig := {
  d_model : Z;
  d_intermediate : Z;
  n_layer : Z;
  vocab_size : Z;
  ssm_cfg : option (gmap string pyval);
  attn_layer_idx : option (list Z);
  attn_cfg : option (gmap string pyval);
  rms_norm : bool;
  residual_in_fp32 : bool;
  fused_add_norm : bool;
  pad_vocab_size_multiple : Z;
  tie_embeddings : bool
}.

(** The keyword dictionary [initializer_cfg], by the keywords
    [_init_weights] accepts. *)
Record initializer_cfg := {
  cfg_n_layer : option Z;
  cfg_initializer_range : option Q;
  cfg_rescale_prenorm_residual : option bool;
  cfg_n_residuals_per_layer : option Z
}.

Definition empty_initializer_cfg : initializer_cfg :=
  {| cfg_n_layer := None; cfg_initializer_range := None;
     cfg_rescale_prenorm_residual := None;
     cfg_n_residuals_per_layer := None |}.

Record MixerModel := {
  mixer_residual_in_fp32 : bool;
  embedding : nn_Embedding;
  mixer_fused_add_norm : bool;
  layers : list Block;
  norm_f : module
}.

Record MambaModel := {
  config : MambaConfig;
  backbone : MixerModel;
  lm_head : nn_Linear
}.

Definition lift {A} (r : result A) : ctor A := λ h,
  match r with
  | Ok a => Ok (a, h)
  | Raise e => Raise e
  end.

Definition multiple_values (k : string) : exn :=
  TypeError ("got multiple values for keyword argument '" +:+ k +:+ "'").

(** Binding [**cfg] next to keywords that are already given: the first
    keyword given twice, if any. *)
Definition repeated_keyword (given : list string)
    (cfg : gmap string pyval) : option string :=
  (λ hit, hit.2) <$> list_find (λ k, is_Some (cfg !! k)) given.

Definition merge_kwargs (given : list string) (cfg extra : gmap string pyval)
  : result (gmap string pyval) :=
  match repeated_keyword given cfg with
  | Some k => Raise (multiple_values k)
  | None => Ok (cfg ∪ extra)
  end.

(** [layer_idx not in attn_layer_idx]; [None] equals no integer. *)
Definition py_not_in (layer_idx : option Z) (attn_layer_idx : list Z)
  : bool :=
  match layer_idx with
  | Some i => bool_decide (i ∉ attn_layer_idx)
  | None => true
  end.

Definition residual_weights : list string :=
  ["out_proj.weight"; "fc2.weight"].

(** The loop over [module.named_parameters()] in [_init_weights]. *)
Fixpoint rescale_residual (radicand : Z)
    (nps : list (string * nn_Parameter)) (σ : gmap nat init)
  : result (gmap nat init) :=
  match nps with
  | [] => Ok σ
  | (name, p) :: rest =>
      if decide (name ∈ residual_weights) then
        σ' ← kaiming_uniform_then_divide p radicand σ;
        rescale_residual radicand rest σ'
      else rescale_residual radicand rest σ
  end.

(** [_init_weights] *)
Definition _init_weights (n_layer : Z) (initializer_range : Q)
    (rescale_prenorm_residual : bool) (n_residuals_per_layer : Z)
    (module : module) (σ : gmap nat init) : result (gmap nat init) :=
  σ ← match module with
      | Linear l =>
          match bias l with
          | Some b => Ok (if p_no_reinit b then σ else zeros_ b σ)
          | None => Ok σ
          end
      | Embedding e => normal_ (table e) initializer_range σ
      | _ => Ok σ
      end;
  if rescale_prenorm_residual then
    rescale_residual (n_residuals_per_layer * n_layer)
      (named_parameters module) σ
  else Ok σ.

(** [partial(_init_weights, n_layer=n_layer, **initializer_cfg)], with a
    trailing [n_residuals_per_layer=k] when [extra] is given. *)
Definition partial_init_weights (n_layer : Z) (cfg : initializer_cfg)
    (extra : option Z)
  : result (module → gmap nat init → result (gmap nat init)) :=
  if decide (is_Some (cfg_n_layer cfg)) then
    Raise (multiple_values "n_layer")
  else if decide (is_Some extra ∧ is_Some (cfg_n_residuals_per_layer cfg))
  then Raise (multiple_values "n_residuals_per_layer")
  else
    Ok (_init_weights n_layer
          (default (2 # 100)%Q (cfg_initializer_range cfg))
          (default true (cfg_rescale_prenorm_residual cfg))
          (default 1
             (match extra with
              | Some k => Some k
              | None => cfg_n_residuals_per_layer cfg
              end))).

(** [vocab_size] after
    [if vocab_size % m != 0: vocab_size += m - vocab_size % m]. *)
Definition pad_vocab_size (vocab_size pad_vocab_size_multiple : Z)
  : result Z :=
  if decide (pad_vocab_size_multiple = 0) then
    Raise (ZeroDivisionError "integer modulo by zero")
  else if decide (vocab_size `mod` pad_vocab_size_multiple ≠ 0) then
    Ok (vocab_size +
        (pad_vocab_size_multiple -
         vocab_size `mod` pad_vocab_size_multiple))
  else Ok vocab_size.

Definition MixerModel_module (m : MixerModel) : module :=
  nn_Module "MixerModel" []
    [("embedding", Embedding (embedding m));
     ("layers",
      nn_Module "ModuleList" []
        (imap (λ i b, (pretty i, block_module b)) (layers m)));
     ("norm_f", norm_f m)].

Definition MambaModel_module (m : MambaModel) : module :=
  nn_Module "MambaModel" []
    [("backbone", MixerModel_module (backbone m));
     ("lm_head", Linear (lm_head m))].

(** [MambaModel.tie_weights] *)
Definition tie_weights (self : MambaModel) : MambaModel :=
  if tie_embeddings (config self) then
    {| config := config self;
       backbone := backbone self;
       lm_head := {| weight := table (embedding (backbone self));
                     bias := bias (lm_head self) |} |}
  else self.

Section Assembly.

(** The state of the guarded import when the module was loaded. *)
Variable imports : triton_imports.

(** [Block(dim, mixer_cls, mlp_cls, norm_cls=..., ...)]: the sub-modules
    and parameters the block class of the state-space library builds from
    its arguments, before they are given identities. *)
Variable Block_layout : Block_args → module.

(** [create_block] *)
Definition create_block (d_model d_intermediate : Z)
    (ssm_cfg : option (gmap string pyval))
    (attn_layer_idx : option (list Z))
    (attn_cfg : option (gmap string pyval))
    (norm_epsilon : Q) (rms_norm residual_in_fp32 fused_add_norm : bool)
    (layer_idx : option Z) (device dtype : pyval) : ctor Block :=
  let ssm_cfg := default ∅ ssm_cfg in
  let attn_layer_idx := default [] attn_layer_idx in
  let attn_cfg := default ∅ attn_cfg in
  let factory_kwargs : gmap string pyval :=
    {[ "device" := device; "dtype" := dtype ]} in
  mixer_cls ← lift (
    if py_not_in layer_idx attn_layer_idx then
      let ssm_layer := default (PStr "Mamba1") (ssm_cfg !! "layer") in
      let ssm_cfg := delete "layer" ssm_cfg in
      if decide (ssm_layer ∉ [PStr "Mamba1"; PStr "Mamba2"]) then
        Raise (ValueError ("Invalid ssm_layer: " +:+ py_str ssm_layer +:+
                           ", only support Mamba1 and Mamba2"))
      else
        kw ← merge_kwargs ["layer_idx"; "device"; "dtype"]
               ssm_cfg factory_kwargs;
        mret {| mixer_class_of :=
                  if decide (ssm_layer = PStr "Mamba2") then Mamba2
                  else Mamba;
                mixer_layer_idx := layer_idx;
                mixer_kwargs := kw |}
    else
      kw ← merge_kwargs ["layer_idx"; "device"; "dtype"]
             attn_cfg factory_kwargs;
      mret {| mixer_class_of := MHA; mixer_layer_idx := layer_idx;
              mixer_kwargs := kw |});
  norm_cls ← lift (
    if negb rms_norm then
      Ok {| norm_class_of := LayerNorm; norm_eps := norm_epsilon;
            norm_kwargs := factory_kwargs |}
    else if RMSNorm imports then
      Ok {| norm_class_of := RMSNorm_class; norm_eps := norm_epsilon;
            norm_kwargs := factory_kwargs |}
    else Raise (TypeError "the first argument must be callable"));
  let mlp_cls :=
    if decide (d_intermediate = 0) then Identity
    else GatedMLP d_intermediate d_model factory_kwargs in
  let args := {| dim := d_model; mixer_cls := mixer_cls;
                 mlp_cls := mlp_cls; norm_cls := norm_cls;
                 block_fused_add_norm := fused_add_norm;
                 block_residual_in_fp32 := residual_in_fp32 |} in
  block ← instantiate (Block_layout args);
  mret {| block_args := args; block_module := block;
          layer_idx := layer_idx |}.

(** The list comprehension
    [[create_block(..., layer_idx=i, ...) for i in range(n_layer)]]. *)
Fixpoint create_blocks (mk : Z → ctor Block) (idxs : list Z)
  : ctor (list Block) :=
  match idxs with
  | [] => mret []
  | i :: rest =>
      b ← mk i;
      bs ← create_blocks mk rest;
      mret (b :: bs)
  end.

(** [MixerModel.__init__] *)
Definition MixerModel_new (d_model n_layer d_intermediate vocab_size : Z)
    (ssm_cfg : option (gmap string pyval))
    (attn_layer_idx : option (list Z))
    (attn_cfg : option (gmap string pyval))
    (norm_epsilon : Q) (rms_norm : bool)
    (initializer_cfg : option initializer_cfg)
    (fused_add_norm residual_in_fp32 : bool) (device dtype : pyval)
  : ctor MixerModel :=
  embedding ← nn_Embedding_new vocab_size d_model;
  _ ← (if fused_add_norm then
         if negb (layer_norm_fn imports) || negb (rms_norm_fn imports)
         then raise (ImportError
                "Failed to import Triton LayerNorm / RMSNorm kernels")
         else mret tt
       else mret tt);
  layers ← create_blocks
    (λ i, create_block d_model d_intermediate ssm_cfg attn_layer_idx
            attn_cfg norm_epsilon rms_norm residual_in_fp32
            fused_add_norm (Some i) device dtype)
    (seqZ 0 n_layer);
  norm_f ← (if negb rms_norm then nn_LayerNorm_new d_model
            else if RMSNorm imports then RMSNorm_new d_model
            else raise (TypeError "'NoneType' object is not callable"));
  let self := {| mixer_residual_in_fp32 := residual_in_fp32;
                 embedding := embedding;
                 mixer_fused_add_norm := fused_add_norm;
                 layers := layers;
                 norm_f := norm_f |} in
  fn ← lift (partial_init_weights n_layer
               (default empty_initializer_cfg initializer_cfg)
               (Some (if decide (d_intermediate = 0) then 1 else 2)));
  _ ← on_tensors (apply fn (MixerModel_module self));
  mret self.

(** [MambaModel.__init__] *)
Definition MambaModel_new (config : MambaConfig)
    (initializer_cfg : option initializer_cfg) (device dtype : pyval)
  : ctor MambaModel :=
  let d_model := d_model config in
  let n_layer := n_layer config in
  vocab_size ← lift (pad_vocab_size (vocab_size config)
                       (pad_vocab_size_multiple config));
  backbone ← MixerModel_new d_model n_layer (d_intermediate config)
    vocab_size (ssm_cfg config) (attn_layer_idx config) (attn_cfg config)
    (1 # 100000)%Q (rms_norm config) initializer_cfg
    (fused_add_norm config) (residual_in_fp32 config) device dtype;
  lm_head ← nn_Linear_new d_model vocab_size false;
  let self := {| config := config; backbone := backbone;
                 lm_head := lm_head |} in
  fn ← lift (partial_init_weights n_layer
               (default empty_initializer_cfg initializer_cfg) None);
  _ ← on_tensors (apply fn (MambaModel_module self));
  mret (tie_weights self).

End Assembly.

Section Forward.

(** One position of the hidden stream and one logit; the kernels that
    compute them belong to the tensor runtime and the state-space
    library.  A batch of activations is a list of rows, one per
    sequence, each a list of positions. *)
Context {hidden logit : Type}.

Variable F_embedding :
  nn_Parameter → list (list Z) → result (list (list hidden)).
Variable Block_forward :
  Block → list (list hidden) → option (list (list hidden)) →
  list (list hidden) * option (list (list hidden)).
Variable tensor_add :
  list (list hidden) → list (list hidden) → list (list hidden).
Variable norm_forward : module → list (list hidden) → list (list hidden).
Variable fused_layer_norm :
  list (list hidden) → module → option (list (list hidden)) →
  bool → bool → list (list hidden).
Variable F_linear :
  nn_Parameter → option nn_Parameter → hidden → list logit.

Definition is_RMSNorm (m : module) : bool :=
  match m with
  | nn_Module cls _ _ => bool_decide (cls = "RMSNorm")
  | _ => false
  end.

(** [MixerModel.forward] *)
Definition MixerModel_forward (self : MixerModel)
    (input_ids : list (list Z)) : result (list (list hidden)) :=
  hidden_states ← F_embedding (table (embedding self)) input_ids;
  let '(hidden_states, residual) :=
    foldl (λ st layer, Block_forward layer st.1 st.2)
          (hidden_states, None) (layers self) in
  if negb (mixer_fused_add_norm self) then
    let residual :=
      match residual with
      | Some r => tensor_add hidden_states r
      | None => hidden_states
      end in
    Ok (norm_forward (norm_f self) residual)
  else
    Ok (fused_layer_norm hidden_states (norm_f self) residual
          (mixer_residual_in_fp32 self) (is_RMSNorm (norm_f self))).

(** [hidden_states[:, -n:]] for [n > 0]. *)
Definition last_positions (n : Z) (hidden_states : list (list hidden))
  : list (list hidden) :=
  (λ row : list hidden, drop (length row - Z.to_nat n) row)
    <$> hidden_states.

(** [MambaModel.forward]: the [logits] field of the returned tuple. *)
Definition MambaModel_forward (self : MambaModel)
    (input_ids : list (list Z)) (num_last_tokens : Z)
  : result (list (list (list logit))) :=
  hidden_states ← MixerModel_forward (backbone self) input_ids;
  let hidden_states :=
    if decide (num_last_tokens > 0)
    then last_positions num_last_tokens hidden_states
    else hidden_states in
  let lm_logits :=
    (λ row : list hidden,
       F_linear (weight (lm_head self)) (bias (lm_head self)) <$> row)
      <$> hidden_states in
  Ok lm_logits.

End Forward.

End Backbone.

(** ** Concrete collaborators

  Instances of the section variables on which the development is run:
  a block layout in the shape of the state-space library's block, and
  stand-ins for the forward kernels that respect the shapes. *)

Module Demo.
Import Torch Backbone.

Definition blank (shape : list Z) (no_reinit : bool) : nn_Parameter :=
  {| p_id := 0; p_shape := shape; p_no_reinit := no_reinit |}.

Definition linear (in_features out_features : Z) (with_bias : bool)
  : module :=
  Linear {| weight := blank [out_features; in_features] false;
            bias := if with_bias then Some (blank [out_features] false)
                    else None |}.

Definition norm_layout (n : norm_partial) (d : Z) : module :=
  match norm_class_of n with
  | LayerNorm =>
      nn_Module "LayerNorm"
        [("weight", blank [d] false); ("bias", blank [d] false)] []
  | RMSNorm_class => nn_Module "RMSNorm" [("weight", blank [d] false)] []
  end.

Definition mixer_layout (m : mixer_partial) (d : Z) : module :=
  match mixer_class_of m with
  | Mamba =>
      nn_Module "Mamba"
        [("A_log", blank [2 * d; 16] false); ("D", blank [2 * d] false)]
        [("in_proj", linear d (4 * d) false);
         ("conv1d", nn_Module "Conv1d"
                      [("weight", blank [2 * d; 1; 4] false);
                       ("bias", blank [2 * d] false)] []);
         ("x_proj", linear (2 * d) 33 false);
         ("dt_proj",
          Linear {| weight := blank [2 * d; 1] false;
                    bias := Some (blank [2 * d] true) |});
         ("out_proj", linear (2 * d) d false)]
  | Mamba2 =>
      nn_Module "Mamba2"
        [("dt_bias", blank [1] false); ("A_log", blank [1] false);
         ("D", blank [1] false)]
        [("in_proj", linear d (4 * d) false);
         ("conv1d", nn_Module "Conv1d"
                      [("weight", blank [2 * d; 1; 4] false);
                       ("bias", blank [2 * d] false)] []);
         ("norm", nn_Module "RMSNorm" [("weight", blank [2 * d] false)] []);
         ("out_proj", linear (2 * d) d false)]
  | MHA =>
      nn_Module "MHA" []
        [("in_proj", linear d (3 * d) true);
         ("out_proj", linear d d true)]
  end.

Definition Block_layout (a : Block_args) : module :=
  nn_Module "Block" []
    ([("norm", norm_layout (norm_cls a) (dim a));
      ("mixer", mixer_layout (mixer_cls a) (dim a))] ++
     match mlp_cls a with
     | Identity => []
     | GatedMLP hidden_features out_features _ =>
         [("norm2", norm_layout (norm_cls a) (dim a));
          ("mlp", nn_Module "GatedMLP" []
                    [("fc1", linear (dim a) (2 * hidden_features) false);
                     ("fc2", linear hidden_features out_features false)])]
     end).

Definition config (d_intermediate vocab_size : Z) (attn : list Z)
    (tie : bool) : MambaConfig :=
  {| d_model := 4; d_intermediate := d_intermediate; n_layer := 2;
     vocab_size := vocab_size;
     ssm_cfg := Some {[ "layer" := PStr "Mamba2" ]};
     attn_layer_idx := Some attn; attn_cfg := Some ∅;
     rms_norm := false; residual_in_fp32 := true;
     fused_add_norm := false; pad_vocab_size_multiple := 8;
     tie_embeddings := tie |}.

Definition empty_heap : heap := {| next := 0; tensors := ∅ |}.

(** Forward stand-ins: a hidden position is the token id it came from,
    a block leaves the stream as it is, and the output projection has one
    logit per row of its weight. *)
Definition F_embedding (w : nn_Parameter) (input_ids : list (list Z))
  : result (list (list Z)) :=
  if decide (Forall (Forall (λ i, 0 <= i < default 0 (head (p_shape w))))
                    input_ids)
  then Ok input_ids
  else Raise (IndexError "index out of range in self").

Definition Block_forward (_ : Block) (hs : list (list Z))
    (residual : option (list (list Z)))
  : list (list Z) * option (list (list Z)) := (hs, Some hs).

Definition F_linear (w : nn_Parameter) (_ : option nn_Parameter) (x : Z)
  : list Z :=
  replicate (Z.to_nat (default 0 (head (p_shape w)))) x.

End Demo.

(** ** tokenizer.py: saving and loading *)

Module TokenizerFiles.
Import Tokenizers GenomeTok.

Section WithLibrary.

Variable train_from_iterator : Z → list string → list string → BPE.

(** The exception [Tokenizer.from_file] raises for a path that holds no
    file. *)
Variable no_such_file : string → exn.

(** The files of saved tokenizers: a path is mapped to the tokenizer that
    [Tokenizer.save] wrote there, which is what [Tokenizer.from_file] reads
    back. *)
Definition Tokenizer_save (t : Tokenizer) (path : string)
    (files : gmap string Tokenizer) : gmap string Tokenizer :=
  <[path := t]> files.

Definition Tokenizer_from_file (path : string)
    (files : gmap string Tokenizer) : result Tokenizer :=
  match files !! path with
  | Some t => Ok t
  | None => Raise (no_such_file path)
  end.

(** [GenomeTokenizer.save_tokenizer] *)
Definition save_tokenizer (self : GenomeTokenizer)
    (files : gmap string Tokenizer) : gmap string Tokenizer :=
  Tokenizer_save (tokenizer self) (model_path self) files.

(** [GenomeTokenizer.load_tokenizer]: the handler for the missing file
    logs and raises the exception again; any other exception passes
    through. *)
Definition load_tokenizer (self : GenomeTokenizer)
    (files : gmap string Tokenizer) : result GenomeTokenizer :=
  match Tokenizer_from_file (model_path self) files with
  | Ok t =>
      Ok {| vocab_size := vocab_size self;
            special_tokens := special_tokens self;
            chunk_size := chunk_size self;
            model_path := model_path self;
            tokenizer := t |}
  | Raise e => Raise e
  end.

(** [GenomeTokenizer.train] with the file it writes. *)
Definition train_and_save (self : GenomeTokenizer) (sequences : list string)
    (files : gmap string Tokenizer)
  : GenomeTokenizer * gmap string Tokenizer :=
  let self := train train_from_iterator self sequences in
  (self, save_tokenizer self files).

End WithLibrary.

End TokenizerFiles.

(** ** input_processing.py: text *)

Module TextProcessing.
Import InputProcessing.

(** What the helpers use of a [tiktoken] encoding. *)
Record tiktoken_Encoding := {
  tt_encode : string → list Z;
  tt_decode : list Z → string;
  n_vocab : Z
}.

Record TikTokenizer := {
  model_name : string;
  encoding : tiktoken_Encoding
}.

(** [str(e)] of an exception. *)
Definition exn_str (e : exn) : string :=
  match e with
  | ValueError msg | TypeError msg | ImportError msg | AttributeError msg
  | RuntimeError msg | ZeroDivisionError msg | IndexError msg => msg
  end.

Record TextEmbeddingModel := {
  text_embedding_dim : Z;
  text_embedding_layer : nn_Embedding
}.

(** [TextEmbeddingModel.__init__] *)
Definition TextEmbeddingModel_new (vocab_size_text text_embedding_dim : Z)
  : result TextEmbeddingModel :=
  layer ← nn_Embedding_new vocab_size_text (Some text_embedding_dim);
  mret {| text_embedding_dim := text_embedding_dim;
          text_embedding_layer := layer |}.

(** [TextEmbeddingModel.forward] on a batch-first matrix of ids: every id
    must index a row of the table. *)
Definition TextEmbeddingModel_forward (self : TextEmbeddingModel)
    (text_input_ids : list (list Z)) : result Tensor :=
  let table := text_embedding_layer self in
  if decide (Forall (Forall (λ i, 0 <= i < num_embeddings table))
                    text_input_ids)
  then Ok {| shape := [Z.of_nat (length text_input_ids);
                       Z.of_nat (default 0%nat
                                   (length <$> head text_input_ids));
                       embedding_dim table] |}
  else Raise (IndexError "index out of range in self").

(** [pad_sequence(sequences, batch_first=True)]: every sequence is filled
    with zeros on the right up to the longest one. *)
Definition pad_sequence (sequences : list (list Z))
  : result (list (list Z)) :=
  match sequences with
  | [] => Raise (RuntimeError "received an empty list of sequences")
  | _ =>
      let max_len := max_list (length <$> sequences) in
      Ok ((λ s, s ++ replicate (max_len - length s) 0) <$> sequences)
  end.

Section WithRegistry.

(** [tiktoken.get_encoding] *)
Variable get_encoding : string → result tiktoken_Encoding.

(** [TikTokenizer.__init__] *)
Definition TikTokenizer_new (model_name : string) : result TikTokenizer :=
  match get_encoding model_name with
  | Ok enc => Ok {| model_name := model_name; encoding := enc |}
  | Raise e =>
      Raise (ValueError ("Failed to initialize tokenizer with model '" +:+
                         model_name +:+ "': " +:+ exn_str e))
  end.

(** [TikTokenizer.count_tokens] *)
Definition count_tokens (self : TikTokenizer) (s : string) : Z :=
  Z.of_nat (length (tt_encode (encoding self) s)).

(** [TikTokenizer.tokenize] *)
Definition TikTokenizer_tokenize (self : TikTokenizer) (s : string)
  : list Z :=
  tt_encode (encoding self) s.

(** [TikTokenizer.detokenize] *)
Definition TikTokenizer_detokenize (self : TikTokenizer) (tokens : list Z)
  : string :=
  tt_decode (encoding self) tokens.

(** [TikTokenizer.batch_encode]: [encode_batch] encodes every text. *)
Definition batch_encode (self : TikTokenizer) (text : list string)
  : list (list Z) :=
  tt_encode (encoding self) <$> text.

(** [embed_text]; the device only says where the tensor lives. *)
Definition embed_text (text : list string) (embed_dim : Z)
  : result Tensor :=
  tk ← TikTokenizer_new "o200k_base";
  let tokens := batch_encode tk text in
  tokens_tensor ← pad_sequence tokens;
  tk' ← TikTokenizer_new "o200k_base";
  let vocab_size := n_vocab (encoding tk') in
  model ← TextEmbeddingModel_new vocab_size embed_dim;
  text_embeddings ← TextEmbeddingModel_forward model tokens_tensor;
  mret text_embeddings.

End WithRegistry.

End TextProcessing.

(** ** backbone.py: inference cache *)

Module Inference.
Import Torch Backbone.

Section Cache.

(** The per-layer state and [Block.allocate_inference_cache], which belong
    to the state-space library. *)
Context {cache : Type}.
Variable Block_allocate_inference_cache :
  Block → Z → Z → pyval → gmap string pyval → cache.

(** [enumerate(xs)] *)
Definition enumerate {A} (xs : list A) : list (Z * A) :=
  imap (λ i x, (Z.of_nat i, x)) xs.

(** [MixerModel.allocate_inference_cache]: the dictionary comprehension
    over [enumerate(self.layers)]. *)
Definition MixerModel_allocate_inference_cache (self : MixerModel)
    (batch_size max_seqlen : Z) (dtype : pyval)
    (kwargs : gmap string pyval) : gmap Z cache :=
  foldl (λ d il, <[il.1 := Block_allocate_inference_cache il.2 batch_size
                             max_seqlen dtype kwargs]> d)
        ∅ (enumerate (layers self)).

(** [MambaModel.allocate_inference_cache] *)
Definition MambaModel_allocate_inference_cache (self : MambaModel)
    (batch_size max_seqlen : Z) (dtype : pyval)
    (kwargs : gmap string pyval) : gmap Z cache :=
  MixerModel_allocate_inference_cache (backbone self) batch_size max_seqlen
    dtype kwargs.

End Cache.

End Inference.

(** ** More concrete collaborators *)

Module DemoText.
Import TextProcessing.

(** A byte-level encoding: one id per character, 256 ids. *)
Definition byte_encoding : tiktoken_Encoding :=
  {| tt_encode := λ s, (λ c, Z.of_nat (nat_of_ascii c)) <$>
                         list_ascii_of_string s;
     tt_decode := λ ids, string_of_list_ascii
                           ((λ i, ascii_of_nat (Z.to_nat i)) <$> ids);
     n_vocab := 256 |}.

Definition get_encoding (name : string) : result tiktoken_Encoding :=
  if decide (name = "o200k_base") then Ok byte_encoding
  else Raise (ValueError ("Unknown encoding " +:+ name)).

Definition no_such_file (path : string) : exn :=
  RuntimeError ("No such file or directory: " +:+ path).

(** A registry without the encoding. *)
Definition no_encoding (name : string) : result tiktoken_Encoding :=
  Raise (ValueError ("Unknown encoding " +:+ name)).

(** An initialiser configuration that only switches the rescaling off,
    and one that tries to set the number of residuals per layer. *)
Definition no_rescale_cfg : Backbone.initializer_cfg :=
  {| Backbone.cfg_n_layer := None;
     Backbone.cfg_initializer_range := None;
     Backbone.cfg_rescale_prenorm_residual := Some false;
     Backbone.cfg_n_residuals_per_layer := None |}.

Definition two_residuals_cfg : Backbone.initializer_cfg :=
  {| Backbone.cfg_n_layer := None;
     Backbone.cfg_initializer_range := None;
     Backbone.cfg_rescale_prenorm_residual := None;
     Backbone.cfg_n_residuals_per_layer := Some 2 |}.

(** The configuration of the state-space library's defaults on a small
    scale: RMS norm and fused add-norm requested. *)
Definition fused_config (pad : Z) : Backbone.MambaConfig :=
  {| Backbone.d_model := 4; Backbone.d_intermediate := 0;
     Backbone.n_layer := 2; Backbone.vocab_size := 50;
     Backbone.ssm_cfg := Some ∅; Backbone.attn_layer_idx := Some [];
     Backbone.attn_cfg := Some ∅; Backbone.rms_norm := true;
     Backbone.residual_in_fp32 := true; Backbone.fused_add_norm := true;
     Backbone.pad_vocab_size_multiple := pad;
     Backbone.tie_embeddings := true |}.

(** A per-layer cache that records which layer it belongs to and for
    which batch it was sized. *)
Definition layer_cache (b : Backbone.Block) (batch_size max_seqlen : Z)
    (_ : pyval) (_ : gmap string pyval) : option Z * Z * Z :=
  (Backbone.layer_idx b, batch_size, max_seqlen).

(** A mixer with a biased input projection and an output projection. *)
Definition small_mixer : Torch.module :=
  Torch.nn_Module "Mixer" []
    [("in_proj",
      Torch.Linear
        {| Torch.weight := {| Torch.p_id := 0; Torch.p_shape := [8; 4];
                              Torch.p_no_reinit := false |};
           Torch.bias := Some {| Torch.p_id := 1; Torch.p_shape := [8];
                                 Torch.p_no_reinit := false |} |});
     ("out_proj",
      Torch.Linear
        {| Torch.weight := {| Torch.p_id := 2; Torch.p_shape := [4; 8];
                              Torch.p_no_reinit := false |};
           Torch.bias := None |})].

End DemoText.

(** * Properties *)

(** ** Tokenizer *)

Module TokenizerFacts.
Import Tokenizers GenomeTok.

Lemma py_index_fmap {A B} (f : A → B) (xs : list A) (i : Z) :
  py_index (f <$> xs) i = result_map f (py_index xs i).
Proof.
  unfold py_index. rewrite length_fmap.
  repeat case_decide; try reflexivity;
    rewrite list_lookup_fmap; destruct (xs !! _); reflexivity.
Qed.

(** C7. Batch tokenization and batch detokenization apply the single-item
    operation to every element, in order: indexing the batch result at
    [i] (Python indexing, negative indices included) is the single-item
    operation on the [i]-th input, and raises exactly when indexing the
    input does; the lengths agree. *)
Theorem batch_is_elementwise (self : GenomeTokenizer) :
  (∀ (xs : list string) (i : Z),
     py_index (tokenize_batch self xs) i
     = result_map (tokenize self) (py_index xs i)) ∧
  (∀ (ys : list (list Z)) (i : Z),
     py_index (detokenize_batch self ys) i
     = result_map (detokenize self) (py_index ys i)) ∧
  (∀ xs, length (tokenize_batch self xs) = length xs) ∧
  (∀ ys, length (detokenize_batch self ys) = length ys).
Proof.
  unfold tokenize_batch, detokenize_batch.
  repeat split; intros;
    first [apply py_index_fmap | apply length_fmap].
Qed.

Section Trained.

Variable train_from_iterator : Z → list string → list string → BPE.

(** What [tokenize] returns in terms of what the fitted model emits. *)
Lemma tokenize_trained V st path chunk corpus s :
  let tk := train train_from_iterator (init V st path chunk) corpus in
  let inner := bpe_encode (model (tokenizer tk)) s in
  tokenize tk s =
    {| tokens := "[START]" :: tokens inner ++ ["[END]"];
       ids := 1 :: ids inner ++ [2] |}.
Proof.
  cbn. unfold tokenize, encode, process_single, concat_encodings. cbn.
  rewrite !app_nil_r. reflexivity.
Qed.

(** C6, as the code has it. The token list of every tokenized string
    starts with the start marker and ends with the end marker, and the
    ids of the two markers are the fixed 1 and 2 of the post-processor.
    Every id is below the target size [V] when [V] is at least 3 and the
    fitted model emits only ids below [V] for that string (as in the
    scenario with [V = 50]); a string for which the model emits nothing,
    such as the empty string, gives exactly the two markers. *)
Theorem tokenize_markers_and_bound V st path chunk corpus s :
  let tk := train train_from_iterator (init V st path chunk) corpus in
  let inner := bpe_encode (model (tokenizer tk)) s in
  head (tokens (tokenize tk s)) = Some "[START]" ∧
  last (tokens (tokenize tk s)) = Some "[END]" ∧
  head (ids (tokenize tk s)) = Some 1 ∧
  last (ids (tokenize tk s)) = Some 2 ∧
  length (tokens (tokenize tk s)) = S (S (length (tokens inner))) ∧
  (3 <= V → Forall (λ i, i < V) (ids inner) →
   Forall (λ i, i < V) (ids (tokenize tk s))) ∧
  (inner = empty_encoding →
   tokenize tk s = {| tokens := ["[START]"; "[END]"]; ids := [1; 2] |}).
Proof.
  intros tk inner. subst tk. rewrite tokenize_trained. cbn -[last].
  subst inner. cbn -[last]. repeat split.
  - rewrite app_comm_cons. apply last_snoc.
  - rewrite app_comm_cons. apply last_snoc.
  - rewrite length_app. cbn. lia.
  - intros HV Hin. constructor; [lia|].
    apply Forall_app. split; [done|]. constructor; [lia|constructor].
  - intros ->. reflexivity.
Qed.

End Trained.

(** C6 on the scenario of the specification, with the character-level
    model standing for the fitted one. *)
Lemma tokenize_markers_and_bound_witness :
  let tk := train char_level_trainer
              (init 50 None "genomic_tokenizer.json" 1028)
              ["ATGCGTACGTTT"; "GGGGATCTCGATAATGCGGG"] in
  head (tokens (tokenize tk "ATGCGTACGTTT")) = Some "[START]" ∧
  last (tokens (tokenize tk "ATGCGTACGTTT")) = Some "[END]" ∧
  Forall (λ i, i < 50) (ids (tokenize tk "ATGCGTACGTTT")) ∧
  tokenize tk "" = {| tokens := ["[START]"; "[END]"]; ids := [1; 2] |}.
Proof.
  intros tk.
  pose proof (tokenize_markers_and_bound char_level_trainer 50 None
                "genomic_tokenizer.json" 1028
                ["ATGCGTACGTTT"; "GGGGATCTCGATAATGCGGG"] "ATGCGTACGTTT")
    as (Hh & Hl & _ & _ & _ & Hb & _).
  pose proof (tokenize_markers_and_bound char_level_trainer 50 None
                "genomic_tokenizer.json" 1028
                ["ATGCGTACGTTT"; "GGGGATCTCGATAATGCGGG"] "")
    as (_ & _ & _ & _ & _ & _ & He).
  split; [exact Hh|]. split; [exact Hl|]. split.
  - apply Hb; [lia|]. vm_compute. repeat constructor.
  - apply He. reflexivity.
Defined.

(** C6 as stated fails for small target sizes: with [vocab_size = 2] the
    end marker of the empty string already carries the id 2. *)
Lemma tokenize_bound_counterexample :
  let tk := train char_level_trainer
              (init 2 None "genomic_tokenizer.json" 1028) ["A"] in
  ids (tokenize tk "") = [1; 2] ∧
  ¬ Forall (λ i, i < vocab_size tk) (ids (tokenize tk "")).
Proof.
  cbn. split; [reflexivity|].
  intros H. apply Forall_cons in H as [_ H].
  apply Forall_cons in H as [H _]. cbn in H. lia.
Qed.

End TokenizerFacts.

(** ** Embedding helper *)

Module InputProcessingFacts.
Import Tokenizers GenomeTok InputProcessing.

(** C1, what the code does. [embed_genomic] never returns: a ragged batch
    fails in [torch.tensor], a missing or negative dimension fails in the
    constructor of the embedding table, and in every other case reading
    [.shape] of the freshly built module raises; in particular no tensor
    of shape (batch, max_len, dim) is produced. *)
Theorem embed_genomic_always_raises (sequences : list string)
    (tokenizer : GenomeTokenizer) (dim : option Z) :
  is_ok (embed_genomic sequences tokenizer dim) = false.
Proof.
  unfold embed_genomic.
  destruct (torch_tensor _) as [t|e]; [|reflexivity]. cbn.
  destruct (GenomicEmbeddingModel_new _ _) as [m|e]; reflexivity.
Qed.

(** One well-formed sequence, a fitted tokenizer and dimension 16. *)
Example embed_genomic_single_sequence :
  embed_genomic ["ATGC"]
    (train char_level_trainer (init 50 None "genomic_tokenizer.json" 1028)
           ["ATGCGTACGTTT"; "GGGGATCTCGATAATGCGGG"])
    (Some 16)
  = Raise (AttributeError
      "'GenomicEmbeddingModel' object has no attribute 'shape'").
Proof. vm_compute. reflexivity. Qed.

(** Two sequences of different lengths are not padded. *)
Example embed_genomic_ragged_batch :
  embed_genomic ["ATGC"; "AT"]
    (train char_level_trainer (init 50 None "genomic_tokenizer.json" 1028)
           ["ATGCGTACGTTT"; "GGGGATCTCGATAATGCGGG"])
    (Some 16)
  = Raise (ValueError "expected sequence of length 6 at dim 1 (got 4)").
Proof. vm_compute. reflexivity. Qed.

End InputProcessingFacts.

(** ** Modules, allocation and initialisers *)

Module TorchFacts.
Import Torch.

Lemma module_ind' (P : module → Prop) :
  (∀ l, P (Linear l)) →
  (∀ e, P (Embedding e)) →
  (∀ cls ps cs, Forall (λ nc, P nc.2) cs → P (nn_Module cls ps cs)) →
  ∀ m, P m.
Proof.
  intros HL HE HM. fix IH 1. intros [l|e|cls ps cs]; [apply HL|apply HE|].
  apply HM. induction cs as [|[n c] cs IHcs]; constructor.
  - apply IH.
  - apply IHcs.
Qed.

Lemma apply_nn_Module fn cls ps cs σ :
  apply fn (nn_Module cls ps cs) σ
  = apply_children fn cs σ ≫= fn (nn_Module cls ps cs).
Proof.
  cbn [apply]. f_equal. revert σ.
  induction cs as [|[n c] cs IH]; intros σ; [reflexivity|].
  cbn [apply_children]. destruct (apply fn c σ); cbn; [apply IH|reflexivity].
Qed.

Lemma instantiate_nn_Module cls ps cs :
  instantiate (nn_Module cls ps cs)
  = (ps' ← fresh_params ps;
     cs' ← instantiate_children cs;
     mret (nn_Module cls ps' cs')).
Proof. reflexivity. Qed.

(** *** Inversion of successful constructor runs *)

Lemma bind_ctor_Ok {A B} (c : ctor A) (f : A → ctor B) h b h' :
  (c ≫= f) h = Ok (b, h') →
  ∃ a h1, c h = Ok (a, h1) ∧ f a h1 = Ok (b, h').
Proof.
  unfold mbind, ctor_bind. destruct (c h) as [[a h1]|e]; [|discriminate].
  eauto.
Qed.

Lemma bind_result_Ok {A B} (r : result A) (f : A → result B) b :
  r ≫= f = Ok b → ∃ a, r = Ok a ∧ f a = Ok b.
Proof. destruct r as [a|e]; [eauto|discriminate]. Qed.

Lemma mret_ctor_Ok {A} (a b : A) h h' :
  (mret a : ctor A) h = Ok (b, h') → b = a ∧ h' = h.
Proof. unfold mret, ctor_ret. intros [= -> ->]. done. Qed.

Lemma on_tensors_Ok f h u h' :
  on_tensors f h = Ok (u, h') →
  ∃ σ, f (tensors h) = Ok σ ∧ h' = {| next := next h; tensors := σ |}.
Proof.
  unfold on_tensors. destruct (f (tensors h)) as [σ|e]; [|discriminate].
  intros [= _ <-]. eauto.
Qed.

Lemma new_parameter_Ok shape nr h p h' :
  new_parameter shape nr h = Ok (p, h') →
  p = {| p_id := next h; p_shape := shape; p_no_reinit := nr |} ∧
  h' = {| next := S (next h); tensors := tensors h |} ∧
  Forall (λ d, 0 <= d) shape.
Proof.
  unfold new_parameter. case_decide as Hneg; [discriminate|].
  intros [= <- <-]. repeat split.
  apply Forall_forall. intros d Hd.
  destruct (decide (0 <= d)) as [|Hlt]; [done|].
  exfalso. apply Hneg, Exists_exists. exists d. split; [done|lia].
Qed.

Lemma new_parameter_Raise shape nr h e :
  new_parameter shape nr h = Raise e → e = negative_dimension.
Proof. unfold new_parameter. case_decide; [congruence|discriminate]. Qed.

Ltac ctor_inv H :=
  lazymatch type of H with
  | (_ ≫= _) _ = Ok (_, _) =>
      let a := fresh "a" in let h := fresh "h" in
      let H1 := fresh "H" in
      apply bind_ctor_Ok in H as (a & h & H1 & H);
      ctor_inv H1; ctor_inv H
  | mret _ _ = Ok (_, _) =>
      apply mret_ctor_Ok in H as [? ?]; subst
  | new_parameter _ _ _ = Ok (_, _) =>
      let Hs := fresh "Hshape" in
      apply new_parameter_Ok in H as (? & ? & Hs); subst
  | on_tensors _ _ = Ok (_, _) =>
      let σ := fresh "σ" in
      apply on_tensors_Ok in H as (σ & H & ?); subst
  | _ => idtac
  end.

(** *** Allocation *)

Lemma allocated_nil h : allocated h h [].
Proof. split; cbn; [done|lia]. Qed.

Lemma allocated_app h h1 h2 l1 l2 :
  allocated h h1 l1 → allocated h1 h2 l2 → allocated h h2 (l1 ++ l2).
Proof.
  intros [E1 N1] [E2 N2]. split.
  - rewrite length_app, seq_app, <- N1, <- E1, <- E2. done.
  - rewrite length_app. lia.
Qed.

Lemma allocated_NoDup h h' l : allocated h h' l → NoDup l.
Proof. intros [-> _]. apply NoDup_seq. Qed.

Lemma allocated_bounds h h' l i :
  allocated h h' l → i ∈ l → (next h <= i < next h')%nat.
Proof.
  intros [E N] Hi. rewrite E in Hi. apply elem_of_seq in Hi. lia.
Qed.

Lemma new_parameter_allocated shape nr h p h' :
  new_parameter shape nr h = Ok (p, h') →
  allocated h h' [p_id p] ∧ tensors h' = tensors h ∧
  p_shape p = shape ∧ p_no_reinit p = nr.
Proof.
  intros H. ctor_inv H. repeat split; cbn. lia.
Qed.

Lemma fresh_params_allocated ps : ∀ h ps' h',
  fresh_params ps h = Ok (ps', h') →
  allocated h h' (p_id <$> (snd <$> ps')) ∧ tensors h' = tensors h ∧
  fst <$> ps' = fst <$> ps.
Proof.
  induction ps as [|[n p] ps IH]; intros h ps' h' H; cbn in H.
  - ctor_inv H. split; [apply allocated_nil|done].
  - unfold fresh in H.
    apply bind_ctor_Ok in H as (q & h1 & Hq & H).
    apply bind_ctor_Ok in H as (qs & h2 & Hqs & H).
    ctor_inv H. apply new_parameter_allocated in Hq as (Hq & Htq & _).
    apply IH in Hqs as (Ha & Ht & Hn). cbn. split; [|split].
    + change (p_id q :: ?l) with ([p_id q] ++ l)%list.
      eapply allocated_app; eauto.
    + congruence.
    + by rewrite Hn.
Qed.

Lemma instantiate_allocated m : ∀ h m' h',
  instantiate m h = Ok (m', h') →
  allocated h h' (parameter_ids m') ∧ tensors h' = tensors h.
Proof.
  induction m as [l|e|cls ps cs IH] using module_ind'; intros h m' h' H.
  - cbn in H. unfold fresh in H. apply bind_ctor_Ok in H as (w & h1 & Hw & H).
    apply new_parameter_allocated in Hw as (Hw & Htw & _).
    destruct (bias l) as [b|].
    + apply bind_ctor_Ok in H as (b' & h2 & Hb & H).
      apply new_parameter_allocated in Hb as (Hb & Htb & _).
      ctor_inv H. unfold parameter_ids. cbn. split; [|congruence].
      change [p_id w; p_id b'] with ([p_id w] ++ [p_id b'])%list.
      eapply allocated_app; eauto.
    + ctor_inv H. unfold parameter_ids. cbn. split; done.
  - cbn in H. unfold fresh in H. apply bind_ctor_Ok in H as (w & h1 & Hw & H).
    apply new_parameter_allocated in Hw as (Hw & Htw & _).
    ctor_inv H. unfold parameter_ids. cbn. split; done.
  - rewrite instantiate_nn_Module in H.
    apply bind_ctor_Ok in H as (ps' & h1 & Hps & H).
    apply bind_ctor_Ok in H as (cs' & h2 & Hcs & H).
    apply mret_ctor_Ok in H as [-> ->].
    apply fresh_params_allocated in Hps as (Hps & Htp & _).
    assert (allocated h1 h2 (p_id <$> flat_map (λ nc, parameters nc.2) cs')
            ∧ tensors h2 = tensors h1) as [Hc Htc].
    { clear Hps Htp. revert h1 cs' h2 Hcs.
      induction IH as [|[n c] cs Hc _ IHcs]; intros h1 cs' h' Hcs;
        cbn in Hcs.
      - ctor_inv Hcs. split; [apply allocated_nil|done].
      - apply bind_ctor_Ok in Hcs as (c' & h2 & Hi & Hcs).
        apply bind_ctor_Ok in Hcs as (rest & h3 & Hr & Hcs).
        ctor_inv Hcs. apply Hc in Hi as [Hi Hti].
        apply IHcs in Hr as [Hr Htr]. cbn. rewrite fmap_app. split.
        + eapply allocated_app; eauto.
        + congruence. }
    unfold parameter_ids. cbn. rewrite fmap_app. split.
    + eapply allocated_app; eauto.
    + congruence.
Qed.

Lemma fresh_params_Raise ps : ∀ h e,
  fresh_params ps h = Raise e → e = negative_dimension.
Proof.
  induction ps as [|[n p] ps IH]; intros h e H; cbn in H; [discriminate|].
  unfold mbind, ctor_bind, fresh in H.
  destruct (new_parameter _ _ h) as [[q h1]|e1] eqn:E.
  - destruct (fresh_params ps h1) as [[qs h2]|e2] eqn:E2.
    + discriminate.
    + injection H as <-. eauto.
  - injection H as <-. eapply new_parameter_Raise; eauto.
Qed.

Lemma instantiate_Raise m : ∀ h e,
  instantiate m h = Raise e → e = negative_dimension.
Proof.
  induction m as [l|e0|cls ps cs IH] using module_ind'; intros h e H.
  - cbn in H. unfold mbind, ctor_bind, fresh in H.
    destruct (new_parameter _ _ h) as [[w h1]|e1] eqn:E.
    + destruct (bias l) as [b|]; [|discriminate].
      destruct (new_parameter _ _ h1) as [[b' h2]|e2] eqn:E2;
        [discriminate|].
      injection H as <-. eapply new_parameter_Raise; eauto.
    + injection H as <-. eapply new_parameter_Raise; eauto.
  - cbn in H. unfold mbind, ctor_bind, fresh in H.
    destruct (new_parameter _ _ h) as [[w h1]|e1] eqn:E; [discriminate|].
    injection H as <-. eapply new_parameter_Raise; eauto.
  - rewrite instantiate_nn_Module in H. unfold mbind, ctor_bind in H.
    destruct (fresh_params ps h) as [[ps' h1]|e1] eqn:E.
    2:{ injection H as <-. eapply fresh_params_Raise; eauto. }
    destruct (instantiate_children cs h1) as [[cs' h2]|e2] eqn:E2;
      [discriminate|].
    injection H as <-. clear E. revert h1 e2 E2.
    induction IH as [|[n c] cs Hc _ IHcs]; intros h1 e2 E2; cbn in E2;
      [discriminate|].
    unfold mbind, ctor_bind in E2.
    destruct (instantiate c h1) as [[c' h3]|e3] eqn:E3.
    + destruct (instantiate_children cs h3) as [[r h4]|e4] eqn:E4;
        [discriminate|].
      injection E2 as <-. eauto.
    + injection E2 as <-. eauto.
Qed.

(** *** Names and identities of parameters *)

Lemma remove_duplicate_elem_of l : ∀ seen x,
  x ∈ remove_duplicate seen l → x ∈ l.
Proof.
  induction l as [|[n p] l IH]; intros seen x Hx; cbn in Hx; [done|].
  case_decide.
  - right. eauto.
  - apply elem_of_cons in Hx as [->|Hx]; [left|right; eauto].
Qed.

Lemma prefixed_parameters_snd m : ∀ prefix,
  snd <$> prefixed_parameters prefix m = parameters m.
Proof.
  induction m as [l|e|cls ps cs IH] using module_ind'; intros prefix.
  - cbn. destruct (bias l); reflexivity.
  - reflexivity.
  - cbn [prefixed_parameters parameters own_parameters].
    rewrite fmap_app, <- list_fmap_compose. f_equal.
    induction IH as [|[n c] cs Hc _ IHcs]; [reflexivity|].
    cbn. rewrite fmap_app, Hc, IHcs. reflexivity.
Qed.

Lemma prefixed_parameters_nn_Module prefix cls ps cs :
  prefixed_parameters prefix (nn_Module cls ps cs)
  = ((λ np : string * nn_Parameter, (prefix +:+ np.1, np.2)) <$> ps)
    ++ flat_map (λ nc : string * module,
                   prefixed_parameters (prefix +:+ nc.1 +:+ ".") nc.2) cs.
Proof.
  cbn [prefixed_parameters own_parameters]. f_equal.
  induction cs as [|[n c] cs IH]; [reflexivity|]. cbn. by rewrite IH.
Qed.

Lemma named_parameters_parameters m n p :
  (n, p) ∈ named_parameters m → p ∈ parameters m.
Proof.
  intros H. apply remove_duplicate_elem_of in H.
  rewrite <- (prefixed_parameters_snd m "").
  apply list_elem_of_fmap. exists (n, p). done.
Qed.

Lemma modules_parameters m : ∀ M p,
  M ∈ modules m → p ∈ parameters M → p ∈ parameters m.
Proof.
  induction m as [l|e|cls ps cs IH] using module_ind'; intros M p HM Hp.
  - cbn in HM. apply list_elem_of_singleton in HM as ->. done.
  - cbn in HM. apply list_elem_of_singleton in HM as ->. done.
  - cbn [modules] in HM. apply elem_of_cons in HM as [->|HM]; [done|].
    cbn [parameters]. apply elem_of_app. right.
    apply list_elem_of_In, in_flat_map in HM as ([n c] & Hc & HM).
    apply list_elem_of_In, in_flat_map. exists (n, c). split; [done|].
    apply list_elem_of_In. rewrite Forall_forall in IH.
    apply list_elem_of_In in Hc, HM.
    exact (IH (n, c) Hc M p HM Hp).
Qed.

Lemma append_assoc (s1 s2 s3 : string) :
  (s1 +:+ s2) +:+ s3 = s1 +:+ (s2 +:+ s3).
Proof.
  induction s1 as [|a s1 IH]; [reflexivity|].
  change (String a ((s1 +:+ s2) +:+ s3) = String a (s1 +:+ s2 +:+ s3)).
  by rewrite IH.
Qed.

(** Every dotted name below a module starts with the prefix it was
    collected under. *)
Lemma prefixed_parameters_prefix m : ∀ prefix n p,
  (n, p) ∈ prefixed_parameters prefix m → ∃ s, n = prefix +:+ s.
Proof.
  induction m as [l|e|cls ps cs IH] using module_ind'; intros prefix n p H.
  - cbn [prefixed_parameters] in H. rewrite app_nil_r in H.
    apply list_elem_of_fmap in H as ([s q] & [= -> ->] & _). eauto.
  - cbn [prefixed_parameters] in H. rewrite app_nil_r in H.
    apply list_elem_of_fmap in H as ([s q] & [= -> ->] & _). eauto.
  - cbn [prefixed_parameters] in H. apply elem_of_app in H as [H|H].
    + apply list_elem_of_fmap in H as ([s q] & [= -> ->] & _). eauto.
    + apply list_elem_of_In, in_flat_map in H as ([k c] & Hc & H).
      rewrite Forall_forall in IH.
      apply list_elem_of_In in H, Hc.
      apply (IH (k, c) Hc) in H as [s ->].
      exists ((k +:+ ".") +:+ s). apply append_assoc.
Qed.

End TorchFacts.

(** ** Weight initialisation *)

Module InitFacts.
Import Torch Backbone TorchFacts.

Lemma kaiming_Ok p r σ σ' :
  kaiming_uniform_then_divide p r σ = Ok σ' →
  σ' = <[p_id p := ScaledKaiming r]> σ.
Proof.
  unfold kaiming_uniform_then_divide. repeat case_decide; congruence.
Qed.

(** The rescaling loop writes [ScaledKaiming r] to every parameter with a
    residual name, leaves tensors outside the list alone, and never
    undoes a write of the same value. *)
Lemma rescale_residual_spec r nps : ∀ σ σ',
  rescale_residual r nps σ = Ok σ' →
  (∀ q, q ∉ (λ np, p_id np.2) <$> nps → σ' !! q = σ !! q) ∧
  (∀ q, σ !! q = Some (ScaledKaiming r) →
        σ' !! q = Some (ScaledKaiming r)) ∧
  (∀ n p, (n, p) ∈ nps → n ∈ residual_weights →
          σ' !! p_id p = Some (ScaledKaiming r)).
Proof.
  induction nps as [|[n p] nps IH]; intros σ σ' H; cbn in H.
  - injection H as <-. repeat split; try done.
    intros n p Hin. by apply elem_of_nil in Hin.
  - case_decide as Hn.
    + apply bind_result_Ok in H as (σ1 & Hk & H).
      apply kaiming_Ok in Hk as ->. apply IH in H as (Hf & Hp & Ht).
      repeat split.
      * intros q Hq. rewrite fmap_cons in Hq.
        apply not_elem_of_cons in Hq as [Hne Hq].
        rewrite (Hf q Hq). by apply lookup_insert_ne.
      * intros q Hq. apply Hp.
        destruct (decide (p_id p = q)) as [<-|Hne].
        -- apply lookup_insert_eq.
        -- by rewrite lookup_insert_ne.
      * intros n' p' Hin Hn'. apply elem_of_cons in Hin as [[= -> ->]|Hin].
        -- apply Hp, lookup_insert_eq.
        -- eauto.
    + apply IH in H as (Hf & Hp & Ht). repeat split.
      * intros q Hq. rewrite fmap_cons in Hq.
        apply not_elem_of_cons in Hq as [_ Hq]. eauto.
      * done.
      * intros n' p' Hin Hn'. apply elem_of_cons in Hin as [[= -> ->]|Hin].
        -- done.
        -- eauto.
Qed.

Lemma named_parameters_ids m q :
  q ∈ (λ np : string * nn_Parameter, p_id np.2) <$> named_parameters m →
  q ∈ parameter_ids m.
Proof.
  intros H. apply list_elem_of_fmap in H as ([n p] & -> & H).
  apply list_elem_of_fmap. exists p. split; [done|].
  eapply named_parameters_parameters; eauto.
Qed.

Section OneCall.

Variables (n_layer : Z) (initializer_range : Q)
          (rescale_prenorm_residual : bool) (n_residuals_per_layer : Z).

Local Abbreviation fn := (_init_weights n_layer initializer_range
                        rescale_prenorm_residual n_residuals_per_layer).
Local Abbreviation K := (ScaledKaiming (n_residuals_per_layer * n_layer)).

(** One call writes only to tensors of the module it is called on. *)
Lemma init_weights_frame M σ σ' q :
  fn M σ = Ok σ' → q ∉ parameter_ids M → σ' !! q = σ !! q.
Proof.
  unfold _init_weights. intros H Hq.
  apply bind_result_Ok in H as (σ1 & H1 & H).
  assert (σ1 !! q = σ !! q) as <-.
  { destruct M as [l|e|cls ps cs].
    - unfold parameter_ids in Hq. cbn in Hq.
      destruct (bias l) as [b|]; injection H1 as <-; [|done].
      destruct (p_no_reinit b); [done|]. unfold zeros_.
      apply lookup_insert_ne. cbn in Hq. set_solver.
    - unfold normal_ in H1. destruct (Qlt_le_dec _ _); [discriminate|].
      injection H1 as <-. apply lookup_insert_ne.
      unfold parameter_ids in Hq. cbn in Hq. set_solver.
    - by injection H1 as <-. }
  destruct rescale_prenorm_residual; [|by injection H as <-].
  apply rescale_residual_spec in H as (Hf & _ & _). apply Hf.
  intros Hin. by apply Hq, named_parameters_ids.
Qed.

(** One call on a container never undoes an earlier residual write. *)
Lemma init_weights_keeps cls ps cs σ σ' q :
  fn (nn_Module cls ps cs) σ = Ok σ' → σ !! q = Some K → σ' !! q = Some K.
Proof.
  unfold _init_weights. cbn. intros H Hq.
  destruct rescale_prenorm_residual; [|by injection H as <-].
  apply rescale_residual_spec in H as (_ & Hk & _). by apply Hk.
Qed.

(** With rescaling enabled, one call leaves every residual-named
    parameter of the module rescaled. *)
Lemma init_weights_residual M σ σ' n p :
  rescale_prenorm_residual = true →
  fn M σ = Ok σ' → (n, p) ∈ named_parameters M → n ∈ residual_weights →
  σ' !! p_id p = Some K.
Proof.
  unfold _init_weights. intros -> H Hin Hn.
  apply bind_result_Ok in H as (σ1 & _ & H).
  apply rescale_residual_spec in H as (_ & _ & Ht). eauto.
Qed.

(** After [module.apply] of the initialiser on a tree whose tensors are
    pairwise distinct, every parameter that some module of the tree
    knows under a residual name holds the rescaled Kaiming value, and
    tensors outside the tree are untouched. *)
Lemma apply_init_weights m : ∀ σ σ',
  rescale_prenorm_residual = true →
  NoDup (parameter_ids m) →
  apply fn m σ = Ok σ' →
  (∀ q, q ∉ parameter_ids m → σ' !! q = σ !! q) ∧
  (∀ M n p, M ∈ modules m → (n, p) ∈ named_parameters M →
            n ∈ residual_weights → σ' !! p_id p = Some K).
Proof.
  induction m as [l|e|cls ps cs IH] using module_ind';
    intros σ σ' Hr Hnd H.
  - change (fn (Linear l) σ = Ok σ') in H. split.
    + intros q Hq. eapply init_weights_frame; eauto.
    + intros M n p HM. cbn in HM. apply list_elem_of_singleton in HM as ->.
      eapply init_weights_residual; eauto.
  - change (fn (Embedding e) σ = Ok σ') in H. split.
    + intros q Hq. eapply init_weights_frame; eauto.
    + intros M n p HM. cbn in HM. apply list_elem_of_singleton in HM as ->.
      eapply init_weights_residual; eauto.
  - rewrite apply_nn_Module in H.
    apply bind_result_Ok in H as (σ1 & Hcs & H).
    assert (NoDup (p_id <$> flat_map (λ nc, parameters nc.2) cs)) as Hndc.
    { unfold parameter_ids in Hnd. cbn [parameters] in Hnd.
      rewrite fmap_app in Hnd. by apply NoDup_app in Hnd as (_ & _ & ?). }
    assert ((∀ q, q ∉ p_id <$> flat_map (λ nc, parameters nc.2) cs →
                  σ1 !! q = σ !! q) ∧
            (∀ nc M n p, nc ∈ cs → M ∈ modules nc.2 →
               (n, p) ∈ named_parameters M → n ∈ residual_weights →
               σ1 !! p_id p = Some K)) as [Hframe Hkids].
    { clear H Hnd. revert σ σ1 Hcs Hndc.
      induction IH as [|[k c] cs Hc _ IHcs]; intros σ σ1 Hcs Hndc;
        cbn in Hcs.
      - injection Hcs as <-. split; [done|].
        intros nc M n p Hin. by apply elem_of_nil in Hin.
      - apply bind_result_Ok in Hcs as (σ2 & Hc1 & Hcs).
        cbn [flat_map] in Hndc. rewrite fmap_app in Hndc.
        apply NoDup_app in Hndc as (Hnd1 & Hdisj & Hnd2).
        destruct (Hc σ σ2 Hr Hnd1 Hc1) as [Hf1 Ht1].
        destruct (IHcs σ2 σ1 Hcs Hnd2) as [Hf2 Ht2]. split.
        + intros q Hq. cbn [flat_map] in Hq. rewrite fmap_app in Hq.
          apply not_elem_of_app in Hq as [Hq1 Hq2].
          rewrite (Hf2 q Hq2). by apply Hf1.
        + intros nc M n p Hin HM Hp Hn.
          apply elem_of_cons in Hin as [->|Hin]; [|eauto].
          cbn in HM. rewrite Hf2; [eauto|].
          apply Hdisj. apply list_elem_of_fmap. exists p. split; [done|].
          eapply modules_parameters; [exact HM|].
          eapply named_parameters_parameters; eauto. }
    split.
    + intros q Hq. rewrite (init_weights_frame _ _ _ _ H Hq).
      apply Hframe. intros Hin. apply Hq.
      unfold parameter_ids. cbn [parameters]. rewrite fmap_app.
      apply elem_of_app. by right.
    + intros M n p HM Hp Hn. cbn [modules] in HM.
      apply elem_of_cons in HM as [->|HM].
      * eapply init_weights_residual; eauto.
      * apply list_elem_of_In, in_flat_map in HM as (nc & Hnc & HM).
        apply list_elem_of_In in Hnc, HM.
        eapply init_weights_keeps; [exact H|]. eauto.
Qed.

End OneCall.

End InitFacts.

(** ** Assembly of the backbone *)

Module BackboneFacts.
Import Torch Backbone TorchFacts InitFacts.

Lemma lift_Ok {A} (r : result A) h a h' :
  lift r h = Ok (a, h') → r = Ok a ∧ h' = h.
Proof. destruct r; cbn; [intros [= -> ->]; done|discriminate]. Qed.

Lemma merge_kwargs_Raise given cfg extra e :
  merge_kwargs given cfg extra = Raise e → ∃ k, e = multiple_values k.
Proof.
  unfold merge_kwargs. destruct (repeated_keyword _ _); [|discriminate].
  intros [= <-]. eauto.
Qed.

Lemma layers_parameters (bs : list Block) : ∀ (f : nat → string),
  flat_map (λ nc : string * module, parameters nc.2)
           (imap (λ i b, (f i, block_module b)) bs)
  = flat_map (λ b, parameters (block_module b)) bs.
Proof.
  induction bs as [|b bs IH]; intros f; [reflexivity|].
  cbn. f_equal. apply (IH (f ∘ S)).
Qed.

Lemma MixerModel_module_ids (m : MixerModel) :
  parameter_ids (MixerModel_module m)
  = (p_id (table (embedding m))
     :: (p_id <$> flat_map (λ b, parameters (block_module b)) (layers m)))
    ++ parameter_ids (norm_f m).
Proof.
  unfold parameter_ids, MixerModel_module. cbn.
  rewrite layers_parameters, !app_nil_r, fmap_app. reflexivity.
Qed.

Lemma MambaModel_module_ids (m : MambaModel) :
  parameter_ids (MambaModel_module m)
  = parameter_ids (MixerModel_module (backbone m))
    ++ parameter_ids (Linear (lm_head m)).
Proof.
  unfold parameter_ids at 1. unfold MambaModel_module.
  cbn [parameters own_parameters flat_map fmap list_fmap app snd].
  rewrite app_nil_r, fmap_app. reflexivity.
Qed.

Section Assembly.

Variable imports : triton_imports.
Variable Block_layout : Block_args → module.

Implicit Types (ssm_cfg attn_cfg : option (gmap string pyval))
               (attn_layer_idx : option (list Z)).

(** What a successful [create_block] did. *)
Lemma create_block_Ok d_model d_intermediate ssm_cfg attn_layer_idx attn_cfg
    eps rms res fused idx dev dt h b h' :
  create_block imports Block_layout d_model d_intermediate ssm_cfg
    attn_layer_idx attn_cfg eps rms res fused idx dev dt h = Ok (b, h') →
  layer_idx b = idx ∧
  allocated h h' (parameter_ids (block_module b)) ∧
  tensors h' = tensors h ∧
  let cls := mixer_class_of (mixer_cls (block_args b)) in
  let layer := default ∅ ssm_cfg !! "layer" in
  (py_not_in idx (default [] attn_layer_idx) = false → cls = MHA) ∧
  (py_not_in idx (default [] attn_layer_idx) = true →
     (layer = Some (PStr "Mamba2") ∧ cls = Mamba2) ∨
     ((layer = Some (PStr "Mamba1") ∨ layer = None) ∧ cls = Mamba)).
Proof.
  unfold create_block. intros H.
  apply bind_ctor_Ok in H as (mixer & h1 & Hm & H).
  apply bind_ctor_Ok in H as (norm & h2 & Hn & H).
  apply bind_ctor_Ok in H as (blk & h3 & Hb & H).
  apply mret_ctor_Ok in H as [-> ->].
  apply lift_Ok in Hm as [Hm ->]. apply lift_Ok in Hn as [Hn ->].
  apply instantiate_allocated in Hb as [Hb Ht]. cbn.
  split; [done|]. split; [done|]. split; [done|]. split.
  - intros Hin. rewrite Hin in Hm.
    apply bind_result_Ok in Hm as (kw & _ & [= <-]). reflexivity.
  - intros Hin. rewrite Hin in Hm.
    case_decide as Hbad; [discriminate|].
    apply bind_result_Ok in Hm as (kw & _ & [= <-]). cbn.
    destruct (default ∅ ssm_cfg !! "layer") as [v|] eqn:E; cbn in *.
    + case_decide as H2.
      * subst v. by left.
      * right. split; [|done]. left. f_equal.
        destruct (decide (v = PStr "Mamba1")) as [->|H1]; [done|].
        apply elem_of_cons in Hbad as [->|Hbad]; [done|].
        by apply list_elem_of_singleton in Hbad as ->.
    + right. case_decide; [discriminate|]. split; [by right|done].
Qed.

Lemma bind_ctor_Raise {A B} (c : ctor A) (f : A → ctor B) h e :
  (c ≫= f) h = Raise e →
  c h = Raise e ∨ ∃ a h1, c h = Ok (a, h1) ∧ f a h1 = Raise e.
Proof.
  unfold mbind, ctor_bind. destruct (c h) as [[a h1]|e1]; [eauto|].
  intros [= <-]. by left.
Qed.

Lemma lift_Raise {A} (r : result A) h e : lift r h = Raise e → r = Raise e.
Proof. destruct r; cbn; [discriminate|congruence]. Qed.

(** C8. For a layer outside the attention list, a [layer] entry of the
    state-space configuration other than "Mamba1" and "Mamba2" makes
    [create_block] raise a value error whose message carries the entry and
    the two names; with an accepted entry, or none, no value error is
    raised at all. *)
Theorem create_block_invalid_ssm_layer d_model d_intermediate ssm_cfg
    attn_layer_idx attn_cfg eps rms res fused idx dev dt h :
  py_not_in idx (default [] attn_layer_idx) = true →
  let layer := default ∅ ssm_cfg !! "layer" in
  (∀ v, layer = Some v → v ≠ PStr "Mamba1" → v ≠ PStr "Mamba2" →
     create_block imports Block_layout d_model d_intermediate ssm_cfg
       attn_layer_idx attn_cfg eps rms res fused idx dev dt h
     = Raise (ValueError ("Invalid ssm_layer: " +:+ py_str v +:+
                          ", only support Mamba1 and Mamba2"))) ∧
  (layer = None ∨ layer = Some (PStr "Mamba1") ∨
   layer = Some (PStr "Mamba2") →
   ∀ msg,
     create_block imports Block_layout d_model d_intermediate ssm_cfg
       attn_layer_idx attn_cfg eps rms res fused idx dev dt h
     ≠ Raise (ValueError msg)).
Proof.
  intros Hin layer. subst layer. split.
  - intros v Hv H1 H2. unfold create_block. rewrite Hin, Hv. cbn.
    destruct (decide (v ∉ [PStr "Mamba1"; PStr "Mamba2"])) as [|Hbad];
      [reflexivity|].
    exfalso. apply Hbad. intros Hel.
    apply elem_of_cons in Hel as [->|Hel]; [done|].
    by apply list_elem_of_singleton in Hel as ->.
  - intros Hok msg H. unfold create_block in H. rewrite Hin in H.
    apply bind_ctor_Raise in H as [H|(mixer & h1 & _ & H)].
    { apply lift_Raise in H. case_decide as Hbad.
      - apply Hbad. destruct Hok as [->|[->| ->]]; cbn; set_solver.
      - unfold mbind, result_bind in H.
        destruct (merge_kwargs _ _ _) as [kw|e] eqn:E; [discriminate|].
        apply merge_kwargs_Raise in E as [k ->]. discriminate. }
    apply bind_ctor_Raise in H as [H|(norm & h2 & _ & H)].
    { apply lift_Raise in H. destruct (negb rms); [discriminate|].
      destruct (RMSNorm imports); discriminate. }
    apply bind_ctor_Raise in H as [H|(blk & h3 & _ & H)].
    { apply instantiate_Raise in H. discriminate. }
    discriminate.
Qed.

Lemma create_blocks_Ok (P : Z → Block → Prop) (mk : Z → ctor Block) idxs :
  (∀ i h b h', mk i h = Ok (b, h') →
     allocated h h' (parameter_ids (block_module b)) ∧
     tensors h' = tensors h ∧ P i b) →
  ∀ h bs h', create_blocks mk idxs h = Ok (bs, h') →
    allocated h h'
      (p_id <$> flat_map (λ b, parameters (block_module b)) bs) ∧
    tensors h' = tensors h ∧ Forall2 P idxs bs.
Proof.
  intros Hmk. induction idxs as [|i idxs IH]; intros h bs h' H; cbn in H.
  - apply mret_ctor_Ok in H as [-> ->].
    split; [apply allocated_nil|]. split; [done|constructor].
  - apply bind_ctor_Ok in H as (b & h1 & Hb & H).
    apply bind_ctor_Ok in H as (rest & h2 & Hr & H).
    apply mret_ctor_Ok in H as [-> ->].
    apply Hmk in Hb as (Ha & Ht & HP). apply IH in Hr as (Har & Htr & HPr).
    cbn. rewrite fmap_app. split; [|split].
    + eapply allocated_app; eauto.
    + congruence.
    + by constructor.
Qed.

(** C9. With [fused_add_norm] requested and one of the two fused kernels
    bound to [None], constructing a [MixerModel] never yields a model; once
    the embedding table could be allocated (non-negative sizes) the
    exception is the import error. *)
Theorem fused_add_norm_requires_kernels d_model n_layer d_intermediate
    vocab_size ssm_cfg attn_layer_idx attn_cfg eps rms icfg res dev dt h :
  layer_norm_fn imports = false ∨ rms_norm_fn imports = false →
  is_ok (MixerModel_new imports Block_layout d_model n_layer d_intermediate
           vocab_size ssm_cfg attn_layer_idx attn_cfg eps rms icfg
           true res dev dt h) = false ∧
  (0 <= vocab_size → 0 <= d_model →
   MixerModel_new imports Block_layout d_model n_layer d_intermediate
     vocab_size ssm_cfg attn_layer_idx attn_cfg eps rms icfg
     true res dev dt h
   = Raise (ImportError
       "Failed to import Triton LayerNorm / RMSNorm kernels")).
Proof.
  intros Hnone.
  assert (negb (layer_norm_fn imports) || negb (rms_norm_fn imports) = true)
    as Hcheck.
  { destruct Hnone as [-> | ->]; [done|]. apply orb_true_r. }
  unfold MixerModel_new. split.
  - unfold mbind at 1, ctor_bind at 1.
    destruct (nn_Embedding_new vocab_size d_model h) as [[e h1]|e];
      [|reflexivity].
    rewrite Hcheck. reflexivity.
  - intros Hv Hd. unfold mbind at 1, ctor_bind at 1.
    unfold nn_Embedding_new, new_parameter, mbind at 1, ctor_bind at 1.
    case_decide as Hneg.
    + exfalso. apply Exists_exists in Hneg as (d & Hin & Hlt).
      apply elem_of_cons in Hin as [->|Hin]; [lia|].
      apply list_elem_of_singleton in Hin as ->. lia.
    + cbn. rewrite Hcheck. reflexivity.
Qed.

Lemma allocated_next h h1 h2 l :
  allocated h h1 l → next h2 = next h1 → allocated h h2 l.
Proof. intros [E N] Hn. split; [done|congruence]. Qed.

Lemma norm_f_allocated rms d h m h' :
  (if negb rms then nn_LayerNorm_new d
   else if RMSNorm imports then RMSNorm_new d
   else raise (TypeError "'NoneType' object is not callable")) h
  = Ok (m, h') →
  allocated h h' (parameter_ids m) ∧ tensors h' = tensors h.
Proof.
  destruct (negb rms); [|destruct (RMSNorm imports)];
    unfold nn_LayerNorm_new, RMSNorm_new; intros H.
  - apply bind_ctor_Ok in H as (w & h1 & Hw & H).
    apply bind_ctor_Ok in H as (b & h2 & Hb & H).
    apply mret_ctor_Ok in H as [-> ->].
    apply new_parameter_allocated in Hw as (Hw & Htw & _).
    apply new_parameter_allocated in Hb as (Hb & Htb & _).
    split; [|congruence]. unfold parameter_ids. cbn.
    change [p_id w; p_id b] with ([p_id w] ++ [p_id b]).
    eapply allocated_app; eauto.
  - apply bind_ctor_Ok in H as (w & h1 & Hw & H).
    apply mret_ctor_Ok in H as [-> ->].
    apply new_parameter_allocated in Hw as (Hw & Htw & _). done.
  - discriminate.
Qed.

(** What a successful [MixerModel.__init__] did. *)
Lemma MixerModel_new_Ok d_model n_layer d_intermediate vocab_size ssm_cfg
    attn_layer_idx attn_cfg eps rms icfg fused res dev dt h m h' :
  MixerModel_new imports Block_layout d_model n_layer d_intermediate
    vocab_size ssm_cfg attn_layer_idx attn_cfg eps rms icfg fused res
    dev dt h = Ok (m, h') →
  table (embedding m)
    = {| p_id := next h; p_shape := [vocab_size; d_model];
         p_no_reinit := false |} ∧
  (0 <= vocab_size ∧ 0 <= d_model) ∧
  (mixer_fused_add_norm m = fused ∧ mixer_residual_in_fp32 m = res) ∧
  allocated h h' (parameter_ids (MixerModel_module m)) ∧
  Forall2 (λ i b, ∃ h1 h2,
             create_block imports Block_layout d_model d_intermediate
               ssm_cfg attn_layer_idx attn_cfg eps rms res fused (Some i)
               dev dt h1 = Ok (b, h2))
          (seqZ 0 n_layer) (layers m) ∧
  (fused = true →
   layer_norm_fn imports = true ∧ rms_norm_fn imports = true) ∧
  cfg_n_residuals_per_layer (default empty_initializer_cfg icfg) = None.
Proof.
  unfold MixerModel_new. intros H.
  apply bind_ctor_Ok in H as (emb & h1 & Hemb & H).
  apply bind_ctor_Ok in H as (u & h2 & Hfused & H).
  apply bind_ctor_Ok in H as (bs & h3 & Hbs & H).
  apply bind_ctor_Ok in H as (nf & h4 & Hnf & H).
  apply bind_ctor_Ok in H as (fn & h5 & Hfn & H).
  apply bind_ctor_Ok in H as (u' & h6 & Happ & H).
  apply mret_ctor_Ok in H as [-> ->].
  unfold nn_Embedding_new in Hemb.
  apply bind_ctor_Ok in Hemb as (w & h0 & Hw & Hemb).
  apply mret_ctor_Ok in Hemb as [-> ->].
  apply new_parameter_Ok in Hw as (-> & -> & Hshape).
  assert (h2 = {| next := S (next h); tensors := tensors h |} ∧
          (fused = true →
           layer_norm_fn imports = true ∧ rms_norm_fn imports = true))
    as [-> Hk].
  { destruct fused.
    - destruct (layer_norm_fn imports), (rms_norm_fn imports);
        cbn in Hfused; try discriminate.
      apply mret_ctor_Ok in Hfused as [_ ->]. done.
    - apply mret_ctor_Ok in Hfused as [_ ->]. done. }
  apply (create_blocks_Ok (λ i b, ∃ h1 h2,
             create_block imports Block_layout d_model d_intermediate
               ssm_cfg attn_layer_idx attn_cfg eps rms res fused (Some i)
               dev dt h1 = Ok (b, h2))) in Hbs as (Hbs & Htbs & Hall).
  2:{ intros i ha b hb Hb. pose proof Hb as Hb'.
      apply create_block_Ok in Hb' as (_ & Ha & Ht & _). eauto. }
  apply norm_f_allocated in Hnf as [Hnf Htnf].
  apply lift_Ok in Hfn as [Hfn ->].
  apply on_tensors_Ok in Happ as (σ & Happ & ->).
  cbn [embedding table layers norm_f mixer_fused_add_norm
       mixer_residual_in_fp32].
  split; [done|]. split.
  { apply Forall_cons in Hshape as [? Hshape].
    apply Forall_cons in Hshape as [? _]. done. }
  split; [done|]. split.
  { rewrite MixerModel_module_ids.
    cbn [embedding table layers norm_f p_id].
    eapply allocated_next; [|reflexivity]. cbn [next].
    eapply allocated_app; [|exact Hnf].
    change (?x :: ?l) with ([x] ++ l).
    eapply allocated_app; [|exact Hbs]. split; cbn; [done|lia]. }
  split; [done|]. split; [done|].
  unfold partial_init_weights in Hfn.
  case_decide; [discriminate|]. case_decide as Hdup; [discriminate|].
  destruct (cfg_n_residuals_per_layer _); [|done].
  exfalso. apply Hdup. split; eauto.
Qed.

(** C4. In a constructed [MixerModel] with [n_layer] layers, the block at
    every index [i] of [0..n_layer-1] was created for layer [i]; its mixer
    is the attention mixer exactly when [i] is in the attention-layer list,
    and otherwise the state-space mixer: [Mamba2] when the [layer] entry of
    the state-space configuration is "Mamba2", [Mamba] when it is "Mamba1"
    or absent. *)
Theorem layer_mixer_selection d_model n_layer d_intermediate vocab_size
    ssm_cfg attn_layer_idx attn_cfg eps rms icfg fused res dev dt h m h' :
  MixerModel_new imports Block_layout d_model n_layer d_intermediate
    vocab_size ssm_cfg attn_layer_idx attn_cfg eps rms icfg fused res
    dev dt h = Ok (m, h') →
  length (layers m) = Z.to_nat n_layer ∧
  ∀ i, 0 <= i < n_layer →
    ∃ b, layers m !! Z.to_nat i = Some b ∧ layer_idx b = Some i ∧
      let cls := mixer_class_of (mixer_cls (block_args b)) in
      let layer := default ∅ ssm_cfg !! "layer" in
      (cls = MHA ↔ i ∈ default [] attn_layer_idx) ∧
      (i ∉ default [] attn_layer_idx →
         (layer = Some (PStr "Mamba2") → cls = Mamba2) ∧
         (layer = Some (PStr "Mamba1") ∨ layer = None → cls = Mamba)).
Proof.
  intros H. apply MixerModel_new_Ok in H as (_ & _ & _ & _ & Hall & _).
  split.
  { apply Forall2_length in Hall. rewrite <- Hall. apply length_seqZ. }
  intros i Hi.
  assert (seqZ 0 n_layer !! Z.to_nat i = Some i) as Hlook.
  { rewrite lookup_seqZ. split; lia. }
  destruct (Forall2_lookup_l _ _ _ _ _ Hall Hlook) as (b & Hb & h1 & h2 & Hc).
  exists b. split; [done|].
  apply create_block_Ok in Hc as (Hidx & _ & _ & Hattn & Hssm).
  split; [done|]. cbn zeta in *. unfold py_not_in in *.
  destruct (decide (i ∈ default [] attn_layer_idx)) as [Hin|Hout].
  - rewrite bool_decide_eq_false_2 in Hattn by (intros Hn; by apply Hn).
    split; [split; auto|]. intros Hn. by destruct Hn.
  - rewrite bool_decide_eq_true_2 in Hssm by done.
    destruct (Hssm eq_refl) as [[Hl Hcls]|[Hl Hcls]]; rewrite Hcls.
    + split; [split; [discriminate|done]|].
      intros _. split; [done|]. rewrite Hl. intros [?|?]; discriminate.
    + split; [split; [discriminate|done]|].
      intros _. split; [|done]. intros Hl2. rewrite Hl2 in Hl.
      destruct Hl; discriminate.
Qed.

Lemma pad_vocab_size_spec v m V :
  pad_vocab_size v m = Ok V →
  (m | V) ∧ (v `mod` m = 0 → V = v) ∧
  (0 < m → v <= V < v + m ∧ (v `mod` m ≠ 0 → v < V)).
Proof.
  unfold pad_vocab_size. case_decide as Hm; [discriminate|].
  pose proof (Z.div_mod v m Hm) as Hdm.
  case_decide as Hr; intros [= <-].
  - split; [exists (v `div` m + 1); lia|]. split; [done|].
    intros Hpos. pose proof (Z.mod_pos_bound v m Hpos). lia.
  - split; [exists (v `div` m); lia|]. split; [done|].
    intros Hpos. pose proof (Z.mod_pos_bound v m Hpos). lia.
Qed.

Lemma backbone_tie_weights (self : MambaModel) :
  backbone (tie_weights self) = backbone self ∧
  config (tie_weights self) = config self ∧
  bias (lm_head (tie_weights self)) = bias (lm_head self) ∧
  weight (lm_head (tie_weights self))
  = if tie_embeddings (config self)
    then table (embedding (backbone self)) else weight (lm_head self).
Proof. unfold tie_weights. destruct (tie_embeddings _); done. Qed.

(** What a successful [MambaModel.__init__] did: [self] is the model just
    before the final [tie_weights]. *)
Lemma MambaModel_new_Ok cfg icfg dev dt h m h' :
  MambaModel_new imports Block_layout cfg icfg dev dt h = Ok (m, h') →
  ∃ V self σ fn,
    pad_vocab_size (vocab_size cfg) (pad_vocab_size_multiple cfg) = Ok V ∧
    m = tie_weights self ∧ config self = cfg ∧
    p_shape (table (embedding (backbone self))) = [V; d_model cfg] ∧
    p_shape (weight (lm_head self)) = [V; d_model cfg] ∧
    bias (lm_head self) = None ∧
    (p_id (table (embedding (backbone self)))
     < p_id (weight (lm_head self)))%nat ∧
    0 <= V ∧
    allocated h h' (parameter_ids (MambaModel_module self)) ∧
    cfg_n_residuals_per_layer (default empty_initializer_cfg icfg) = None ∧
    partial_init_weights (n_layer cfg)
      (default empty_initializer_cfg icfg) None = Ok fn ∧
    apply fn (MambaModel_module self) σ = Ok (tensors h').
Proof.
  unfold MambaModel_new. intros H.
  apply bind_ctor_Ok in H as (V & h1 & HV & H).
  apply bind_ctor_Ok in H as (bb & h2 & Hbb & H).
  apply bind_ctor_Ok in H as (lm & h3 & Hlm & H).
  apply bind_ctor_Ok in H as (fn & h4 & Hfn & H).
  apply bind_ctor_Ok in H as (u & h5 & Happ & H).
  apply mret_ctor_Ok in H as [-> ->].
  apply lift_Ok in HV as [HV ->]. apply lift_Ok in Hfn as [Hfn ->].
  apply on_tensors_Ok in Happ as (σ' & Happ & ->).
  apply MixerModel_new_Ok in Hbb as (Htab & [HV0 _] & _ & Hbb & _ & _ & Hk).
  unfold nn_Linear_new in Hlm.
  apply bind_ctor_Ok in Hlm as (w & h0 & Hw & Hlm).
  apply mret_ctor_Ok in Hlm as [-> ->].
  apply new_parameter_allocated in Hw as (Hw & Htw & Hsw & _).
  exists V, {| config := cfg; backbone := bb;
               lm_head := {| weight := w; bias := None |} |},
         (tensors h0), fn.
  cbn [config backbone lm_head weight bias].
  split; [done|]. split; [done|]. split; [done|].
  split; [by rewrite Htab|]. split; [done|]. split; [done|]. split.
  { destruct Hw as [Hw _]. cbn in Hw. injection Hw as ->.
    apply (allocated_bounds _ _ _ _ Hbb).
    rewrite MixerModel_module_ids. left. }
  split; [done|]. split.
  { rewrite MambaModel_module_ids. cbn [backbone lm_head].
    eapply allocated_next; [|reflexivity]. cbn [next].
    eapply allocated_app; eauto. }
  done.
Qed.

(** C3. The embedding table and the output projection of a constructed
    [MambaModel] both have [V] rows, where [V] is a multiple of
    [pad_vocab_size_multiple] and equals the configured [vocab_size] when
    that is already a multiple; for a positive padding multiple [V] is the
    configured size rounded up: at least [vocab_size], less than one
    multiple above it, and strictly above it when it is not a multiple. *)
Theorem vocab_size_padding cfg icfg dev dt h m h' :
  MambaModel_new imports Block_layout cfg icfg dev dt h = Ok (m, h') →
  ∃ V,
    p_shape (table (embedding (backbone m))) = [V; d_model cfg] ∧
    p_shape (weight (lm_head m)) = [V; d_model cfg] ∧
    (pad_vocab_size_multiple cfg | V) ∧
    (vocab_size cfg `mod` pad_vocab_size_multiple cfg = 0 →
     V = vocab_size cfg) ∧
    (0 < pad_vocab_size_multiple cfg →
     vocab_size cfg <= V < vocab_size cfg + pad_vocab_size_multiple cfg ∧
     (vocab_size cfg `mod` pad_vocab_size_multiple cfg ≠ 0 →
      vocab_size cfg < V)).
Proof.
  intros H.
  apply MambaModel_new_Ok in H
    as (V & self & σ & fn & HV & -> & Hcfg & Hemb & Hlm & _).
  destruct (backbone_tie_weights self) as (-> & _ & _ & ->).
  exists V. split; [done|]. split.
  { destruct (tie_embeddings _); done. }
  by apply pad_vocab_size_spec.
Qed.

(** C5. With [tie_embeddings] set, the output projection of a constructed
    [MambaModel] holds the very tensor of the embedding table (the same
    identity, hence the same storage), and a later [tie_weights] leaves it
    so; with the flag cleared the two tensors have different identities
    and [tie_weights] changes nothing. *)
Theorem weight_tying cfg icfg dev dt h m h' :
  MambaModel_new imports Block_layout cfg icfg dev dt h = Ok (m, h') →
  (tie_embeddings cfg = true →
     weight (lm_head m) = table (embedding (backbone m)) ∧
     p_id (weight (lm_head m)) = p_id (table (embedding (backbone m))) ∧
     weight (lm_head (tie_weights m))
     = table (embedding (backbone (tie_weights m)))) ∧
  (tie_embeddings cfg = false →
     p_id (weight (lm_head m)) ≠ p_id (table (embedding (backbone m))) ∧
     tie_weights m = m).
Proof.
  intros H.
  apply MambaModel_new_Ok in H
    as (V & self & σ & fn & _ & -> & Hcfg & _ & _ & _ & Hlt & _).
  unfold tie_weights. rewrite Hcfg. split; intros Ht; rewrite Ht; cbn.
  - rewrite Ht. cbn. done.
  - rewrite Hcfg, Ht. split; [lia|done].
Qed.

Lemma not_residual_backbone s : "backbone." +:+ s ∉ residual_weights.
Proof.
  intros H. apply elem_of_cons in H as [H|H]; [discriminate|].
  apply list_elem_of_singleton in H. discriminate.
Qed.

Lemma not_residual_lm_head s : "lm_head." +:+ s ∉ residual_weights.
Proof.
  intros H. apply elem_of_cons in H as [H|H]; [discriminate|].
  apply list_elem_of_singleton in H. discriminate.
Qed.

(** No residual name is visible from the root of a [MambaModel]: every
    name there starts with the name of one of its two children. *)
Lemma root_has_no_residual_name (self : MambaModel) n p :
  (n, p) ∈ named_parameters (MambaModel_module self) →
  n ∉ residual_weights.
Proof.
  intros H. apply remove_duplicate_elem_of in H.
  unfold MambaModel_module in H.
  rewrite prefixed_parameters_nn_Module in H.
  cbn [fmap list_fmap flat_map app fst snd] in H.
  rewrite app_nil_r in H. apply elem_of_app in H as [H|H].
  - apply prefixed_parameters_prefix in H as [s ->].
    apply not_residual_backbone.
  - apply prefixed_parameters_prefix in H as [s ->].
    apply not_residual_lm_head.
Qed.

(** C2, what the code does. After construction with rescaling left
    enabled, every parameter that a module of the model knows as
    [out_proj.weight] or [fc2.weight] was last written by the Kaiming
    initialiser followed by a division by [sqrt(1 * n_layer)], whatever
    [d_intermediate] is: the pass over the whole model that ends
    [MambaModel.__init__] uses the default of one residual per layer. *)
Theorem residual_rescaling_after_construction cfg icfg dev dt h m h' :
  MambaModel_new imports Block_layout cfg icfg dev dt h = Ok (m, h') →
  default true
    (cfg_rescale_prenorm_residual (default empty_initializer_cfg icfg))
  = true →
  ∀ M n p, M ∈ modules (MambaModel_module m) →
    (n, p) ∈ named_parameters M → n ∈ residual_weights →
    tensors h' !! p_id p = Some (ScaledKaiming (1 * n_layer cfg)).
Proof.
  intros H Hr M n p HM Hp Hn.
  apply MambaModel_new_Ok in H
    as (V & self & σ & fn & _ & -> & Hcfg & _ & _ & Hb & _ & _ & Halloc &
        Hk & Hfn & Happ).
  unfold partial_init_weights in Hfn.
  case_decide; [discriminate|]. case_decide; [discriminate|].
  injection Hfn as <-. rewrite Hk, Hr in Happ. cbn [default] in Happ.
  apply apply_init_weights in Happ as [_ Hres];
    [|done|by eapply allocated_NoDup].
  assert (M ∈ modules (MambaModel_module self) ∨
          M = MambaModel_module (tie_weights self) ∨
          M = Linear (lm_head (tie_weights self))) as [HM'|[->| ->]].
  { unfold tie_weights in *. destruct (tie_embeddings (config self));
      [|by left].
    unfold MambaModel_module in HM. cbn [modules flat_map snd] in HM.
    cbn [backbone lm_head] in HM. rewrite app_nil_r in HM.
    apply elem_of_cons in HM as [->|HM]; [right; by left|].
    apply elem_of_app in HM as [HM|HM].
    - left. unfold MambaModel_module. cbn [modules flat_map snd].
      right. apply elem_of_app. by left.
    - right. right. cbn in HM. by apply list_elem_of_singleton in HM. }
  - eauto.
  - by apply root_has_no_residual_name in Hp.
  - destruct (backbone_tie_weights self) as (_ & _ & Hbias & _).
    unfold named_parameters in Hp. cbn in Hp.
    rewrite Hbias, Hb in Hp. cbn in Hp.
    case_decide; [by apply elem_of_nil in Hp|].
    apply list_elem_of_singleton in Hp as [= -> _].
    apply elem_of_cons in Hn as [Hn|Hn]; [discriminate|].
    apply list_elem_of_singleton in Hn. discriminate.
Qed.

End Assembly.

Section Forward.

Variable imports : triton_imports.
Variable Block_layout : Block_args → module.

Context {hidden logit : Type}.

Variable F_embedding :
  nn_Parameter → list (list Z) → result (list (list hidden)).
Variable Block_forward :
  Block → list (list hidden) → option (list (list hidden)) →
  list (list hidden) * option (list (list hidden)).
Variable tensor_add :
  list (list hidden) → list (list hidden) → list (list hidden).
Variable norm_forward : module → list (list hidden) → list (list hidden).
Variable fused_layer_norm :
  list (list hidden) → module → option (list (list hidden)) →
  bool → bool → list (list hidden).
Variable F_linear : nn_Parameter → option nn_Parameter → hidden → list logit.

(** The linear map of the tensor runtime yields one output feature per row
    of its weight. *)
Hypothesis F_linear_out_features : ∀ w b x,
  length (F_linear w b x) = Z.to_nat (default 0 (head (p_shape w))).

(** C10. Whenever the forward pass of a constructed [MambaModel] returns,
    every logit vector has as many entries as the padded vocabulary size
    [V] (the configured size rounded to the padding multiple, which exceeds
    the configured size when that is not a multiple of a positive padding
    multiple); the logits are the output projection of the hidden states of
    the backbone, position by position, and with [num_last_tokens > 0] only
    the last [num_last_tokens] positions of every sequence are projected. *)
Theorem forward_logits_shape cfg icfg dev dt h m h' input_ids
    num_last_tokens logits :
  MambaModel_new imports Block_layout cfg icfg dev dt h = Ok (m, h') →
  MambaModel_forward F_embedding Block_forward tensor_add norm_forward
    fused_layer_norm F_linear m input_ids num_last_tokens = Ok logits →
  ∃ V hidden_states,
    pad_vocab_size (vocab_size cfg) (pad_vocab_size_multiple cfg) = Ok V ∧
    MixerModel_forward F_embedding Block_forward tensor_add norm_forward
      fused_layer_norm (backbone m) input_ids = Ok hidden_states ∧
    Forall (Forall (λ v, Z.of_nat (length v) = V)) logits ∧
    length logits = length hidden_states ∧
    (num_last_tokens > 0 →
     Forall2 (λ row out,
                out = F_linear (weight (lm_head m)) (bias (lm_head m)) <$>
                        drop (length row - Z.to_nat num_last_tokens) row ∧
                length out = (length row `min` Z.to_nat num_last_tokens)%nat)
             hidden_states logits) ∧
    (num_last_tokens <= 0 →
     Forall2 (λ row out,
                out = F_linear (weight (lm_head m)) (bias (lm_head m)) <$>
                        row)
             hidden_states logits) ∧
    (0 < pad_vocab_size_multiple cfg →
     vocab_size cfg `mod` pad_vocab_size_multiple cfg ≠ 0 →
     vocab_size cfg < V).
Proof.
  intros Hnew Hfwd.
  apply MambaModel_new_Ok in Hnew
    as (V & self & σ & fn & HV & -> & Hcfg & Hemb & Hlm & _ & _ & HV0 & _).
  unfold MambaModel_forward in Hfwd.
  apply bind_result_Ok in Hfwd as (hs & Hhs & Hfwd).
  injection Hfwd as <-. exists V, hs. split; [done|]. split; [done|].
  assert (default 0 (head (p_shape (weight (lm_head (tie_weights self)))))
          = V) as Hout.
  { destruct (backbone_tie_weights self) as (_ & _ & _ & ->).
    destruct (tie_embeddings _); [by rewrite Hemb|by rewrite Hlm]. }
  split.
  { apply Forall_fmap, Forall_forall. intros row _.
    apply Forall_fmap, Forall_forall. intros x _. cbn.
    rewrite F_linear_out_features, Hout. lia. }
  split.
  { rewrite length_fmap. case_decide; [|done].
    unfold last_positions. by rewrite length_fmap. }
  split; [|split].
  - intros Hn. case_decide; [|lia]. unfold last_positions.
    rewrite <- list_fmap_compose. apply Forall2_fmap_r, Forall_Forall2_diag.
    apply Forall_forall. intros row _. cbn. split; [done|].
    rewrite length_fmap, length_drop. lia.
  - intros Hn. case_decide; [lia|].
    apply Forall2_fmap_r, Forall_Forall2_diag.
    apply Forall_forall. intros row _. done.
  - intros Hpad Hmod.
    destruct (pad_vocab_size_spec _ _ _ HV) as (_ & _ & Hup).
    destruct (Hup Hpad) as [_ Hlt]. by apply Hlt.
Qed.

End Forward.

End BackboneFacts.

(** ** The theorems on concrete models *)

Module Scenarios.
Import Torch Backbone TorchFacts BackboneFacts.

(** C8 on a block for layer 0 whose configuration asks for "Mamba3". *)
Lemma create_block_invalid_ssm_layer_witness :
  create_block (import_triton false) Demo.Block_layout 4 0
    (Some {[ "layer" := PStr "Mamba3" ]}) (Some [1]) None
    (1 # 100000)%Q false true false (Some 0) PNone PNone Demo.empty_heap
  = Raise (ValueError
      "Invalid ssm_layer: Mamba3, only support Mamba1 and Mamba2").
Proof.
  refine (proj1 (create_block_invalid_ssm_layer (import_triton false)
            Demo.Block_layout 4 0 (Some {[ "layer" := PStr "Mamba3" ]})
            (Some [1]) None (1 # 100000)%Q false true false (Some 0)
            PNone PNone Demo.empty_heap _) (PStr "Mamba3") _ _ _).
  - vm_compute. reflexivity.
  - vm_compute. reflexivity.
  - discriminate.
  - discriminate.
Defined.

(** C9 with the kernels missing and [fused_add_norm] requested. *)
Lemma fused_add_norm_requires_kernels_witness :
  MixerModel_new (import_triton false) Demo.Block_layout 4 2 0 56
    None None None (1 # 100000)%Q false None true true PNone PNone
    Demo.empty_heap
  = Raise (ImportError
      "Failed to import Triton LayerNorm / RMSNorm kernels").
Proof.
  refine (proj2 (fused_add_norm_requires_kernels (import_triton false)
            Demo.Block_layout 4 2 0 56 None None None (1 # 100000)%Q
            false None true PNone PNone Demo.empty_heap _) _ _).
  - left. reflexivity.
  - lia.
  - lia.
Defined.

(** C4 on a two-layer backbone with attention at layer 1 and "Mamba2"
    elsewhere. *)
Lemma layer_mixer_selection_witness :
  ∃ m h',
    MixerModel_new (import_triton false) Demo.Block_layout 4 2 0 56
      (Some {[ "layer" := PStr "Mamba2" ]}) (Some [1]) None
      (1 # 100000)%Q false None false true PNone PNone Demo.empty_heap
    = Ok (m, h') ∧
    (∃ b, layers m !! 0%nat = Some b ∧
          mixer_class_of (mixer_cls (block_args b)) = Mamba2) ∧
    (∃ b, layers m !! 1%nat = Some b ∧
          mixer_class_of (mixer_cls (block_args b)) = MHA).
Proof.
  destruct (MixerModel_new (import_triton false) Demo.Block_layout 4 2 0 56
      (Some {[ "layer" := PStr "Mamba2" ]}) (Some [1]) None
      (1 # 100000)%Q false None false true PNone PNone Demo.empty_heap)
    as [[m h']|e] eqn:E; [|vm_compute in E; discriminate].
  exists m, h'. split; [reflexivity|].
  destruct (layer_mixer_selection _ _ _ _ _ _ _ _ _ _ _ _ _ _ _ _ _ _ _ E)
    as [_ Hsel].
  split.
  - destruct (Hsel 0 ltac:(lia)) as (b & Hb & _ & _ & Hssm).
    exists b. split; [exact Hb|]. apply Hssm.
    + intros Hin. apply list_elem_of_singleton in Hin. discriminate.
    + reflexivity.
  - destruct (Hsel 1 ltac:(lia)) as (b & Hb & _ & Hattn & _).
    exists b. split; [exact Hb|]. apply Hattn. left.
Defined.

(** C3 with a vocabulary of 50 padded to multiples of 8. *)
Lemma vocab_size_padding_witness :
  ∃ m h',
    MambaModel_new (import_triton false) Demo.Block_layout
      (Demo.config 0 50 [] true) None PNone PNone Demo.empty_heap
    = Ok (m, h') ∧
    p_shape (table (embedding (backbone m))) = [56; 4] ∧
    p_shape (weight (lm_head m)) = [56; 4].
Proof.
  destruct (MambaModel_new (import_triton false) Demo.Block_layout
      (Demo.config 0 50 [] true) None PNone PNone Demo.empty_heap)
    as [[m h']|e] eqn:E; [|vm_compute in E; discriminate].
  exists m, h'. split; [reflexivity|].
  destruct (vocab_size_padding _ _ (Demo.config 0 50 [] true) _ _ _ _ _ _
              E) as (V & He & Hl & [k Hk] & _ & Hup).
  destruct (Hup ltac:(cbn; lia)) as [Hb _].
  cbn in He, Hl, Hk, Hb. assert (V = 56) as -> by lia.
  split; [exact He|exact Hl].
Defined.

(** C5 on a tied and on an untied model. *)
Lemma weight_tying_witness :
  (∃ m h',
     MambaModel_new (import_triton false) Demo.Block_layout
       (Demo.config 0 50 [] true) None PNone PNone Demo.empty_heap
     = Ok (m, h') ∧
     weight (lm_head m) = table (embedding (backbone m))) ∧
  (∃ m h',
     MambaModel_new (import_triton false) Demo.Block_layout
       (Demo.config 0 50 [] false) None PNone PNone Demo.empty_heap
     = Ok (m, h') ∧
     p_id (weight (lm_head m)) ≠ p_id (table (embedding (backbone m)))).
Proof.
  split.
  - destruct (MambaModel_new (import_triton false) Demo.Block_layout
        (Demo.config 0 50 [] true) None PNone PNone Demo.empty_heap)
      as [[m h']|e] eqn:E; [|vm_compute in E; discriminate].
    exists m, h'. split; [reflexivity|].
    apply (weight_tying _ _ _ _ _ _ _ _ _ E). reflexivity.
  - destruct (MambaModel_new (import_triton false) Demo.Block_layout
        (Demo.config 0 50 [] false) None PNone PNone Demo.empty_heap)
      as [[m h']|e] eqn:E; [|vm_compute in E; discriminate].
    exists m, h'. split; [reflexivity|].
    apply (weight_tying _ _ _ _ _ _ _ _ _ E). reflexivity.
Defined.

(** C2 on a two-layer model with an MLP in every block
    ([d_intermediate = 8]): the radicand is [1 * 2]. *)
Lemma residual_rescaling_after_construction_witness :
  ∃ m h',
    MambaModel_new (import_triton false) Demo.Block_layout
      (Demo.config 8 50 [1] true) None PNone PNone Demo.empty_heap
    = Ok (m, h') ∧
    ∀ M n p, M ∈ modules (MambaModel_module m) →
      (n, p) ∈ named_parameters M → n ∈ residual_weights →
      tensors h' !! p_id p = Some (ScaledKaiming (1 * 2)).
Proof.
  destruct (MambaModel_new (import_triton false) Demo.Block_layout
      (Demo.config 8 50 [1] true) None PNone PNone Demo.empty_heap)
    as [[m h']|e] eqn:E; [|vm_compute in E; discriminate].
  exists m, h'. split; [reflexivity|].
  apply (residual_rescaling_after_construction _ _ _ _ _ _ _ _ _ E).
  reflexivity.
Defined.

(** The same model, evaluated: the tensors written with the residual
    rescaling are the two [out_proj.weight] and the two [fc2.weight], and
    each carries the radicand 2 = 1 * n_layer, not 4 = 2 * n_layer. *)
Example residual_rescaling_with_mlp :
  match MambaModel_new (import_triton false) Demo.Block_layout
          (Demo.config 8 50 [1] true) None PNone PNone Demo.empty_heap with
  | Ok (m, h') =>
      filter (λ np, np.1 ∈ ["mixer.out_proj.weight"; "mlp.fc2.weight"])
        (flat_map (λ b, (λ np, (np.1, tensors h' !! p_id np.2)) <$>
                          named_parameters (block_module b))
                  (layers (backbone m)))
  | Raise _ => []
  end
  = [("mixer.out_proj.weight", Some (ScaledKaiming 2));
     ("mlp.fc2.weight", Some (ScaledKaiming 2));
     ("mixer.out_proj.weight", Some (ScaledKaiming 2));
     ("mlp.fc2.weight", Some (ScaledKaiming 2))].
Proof. vm_compute. reflexivity. Qed.

(** C10 on a batch of two sequences of three tokens, keeping the last two
    positions. *)
Lemma forward_logits_shape_witness :
  ∃ m h' logits,
    MambaModel_new (import_triton false) Demo.Block_layout
      (Demo.config 0 50 [] true) None PNone PNone Demo.empty_heap
    = Ok (m, h') ∧
    MambaModel_forward Demo.F_embedding Demo.Block_forward (λ a _, a)
      (λ _ a, a) (λ a _ _ _ _, a) Demo.F_linear m
      [[1; 2; 3]; [4; 5; 6]] 2 = Ok logits ∧
    Forall (Forall (λ v, Z.of_nat (length v) = 56)) logits.
Proof.
  destruct (MambaModel_new (import_triton false) Demo.Block_layout
      (Demo.config 0 50 [] true) None PNone PNone Demo.empty_heap)
    as [[m h']|e] eqn:E; [|vm_compute in E; discriminate].
  destruct (MambaModel_forward Demo.F_embedding Demo.Block_forward
      (λ a _, a) (λ _ a, a) (λ a _ _ _ _, a) Demo.F_linear m
      [[1; 2; 3]; [4; 5; 6]] 2) as [logits|e] eqn:F.
  2:{ exfalso. vm_compute in E. injection E as <- <-.
      vm_compute in F. discriminate. }
  exists m, h', logits. split; [reflexivity|]. split; [exact F|].
  destruct (forward_logits_shape (import_triton false) Demo.Block_layout
              Demo.F_embedding Demo.Block_forward (λ a _, a) (λ _ a, a)
              (λ a _ _ _ _, a) Demo.F_linear
              (λ w b x, length_replicate _ _)
              _ _ _ _ _ _ _ _ _ _ E F)
    as (V & hs & HV & _ & Hshape & _).
  vm_compute in HV. injection HV as <-. exact Hshape.
Defined.

End Scenarios.

(** ** Saved tokenizers *)

Module TokenizerFileFacts.
Import Tokenizers GenomeTok TokenizerFiles.

Section WithLibrary.

Variable train_from_iterator : Z → list string → list string → BPE.
Variable no_such_file : string → exn.

(** X1. Training writes the fitted tokenizer to [model_path]; any tokenizer
    object with the same [model_path] that then loads it, whatever its own
    state and whatever else the files hold, tokenizes and detokenizes
    exactly as the trained object does, while keeping its own
    [vocab_size] attribute. *)
Theorem load_after_train (self other : GenomeTokenizer)
    (sequences : list string) (files : gmap string Tokenizer) :
  model_path other = model_path self →
  let trained := (train_and_save train_from_iterator self sequences files).1 in
  let files' := (train_and_save train_from_iterator self sequences files).2 in
  ∃ loaded,
    load_tokenizer no_such_file other files' = Ok loaded ∧
    (∀ s, tokenize loaded s = tokenize trained s) ∧
    (∀ ids, detokenize loaded ids = detokenize trained ids) ∧
    vocab_size loaded = vocab_size other.
Proof.
  intros Hpath. cbn zeta. unfold train_and_save, load_tokenizer,
    Tokenizer_from_file, save_tokenizer, Tokenizer_save. cbn [fst snd].
  rewrite Hpath.
  change (model_path (train train_from_iterator self sequences))
    with (model_path self).
  rewrite lookup_insert_eq. eexists. split; [reflexivity|].
  repeat split.
Qed.

(** Loading from a path at which nothing was saved raises the
    exception of the library unchanged, and loading succeeds exactly when
    a tokenizer was saved at [model_path]. *)
Theorem load_missing_file (self : GenomeTokenizer)
    (files : gmap string Tokenizer) :
  (files !! model_path self = None →
   load_tokenizer no_such_file self files
   = Raise (no_such_file (model_path self))) ∧
  (is_ok (load_tokenizer no_such_file self files) = true ↔
   is_Some (files !! model_path self)).
Proof.
  unfold load_tokenizer, Tokenizer_from_file.
  destruct (files !! model_path self) as [t|]; cbn.
  - split; [discriminate|]. split; eauto.
  - split; [done|]. split; [discriminate|]. intros [t Ht]. discriminate.
Qed.

End WithLibrary.

(** X1 on a tokenizer trained for 50 entries and a fresh object for the
    same path. *)
Lemma load_after_train_witness :
  ∃ loaded,
    load_tokenizer DemoText.no_such_file
      (init 7 None "genomic_tokenizer.json" 1028)
      (train_and_save char_level_trainer
         (init 50 None "genomic_tokenizer.json" 1028) ["ATGC"] ∅).2
    = Ok loaded ∧
    ids (tokenize loaded "GATTACA") = [1; 10; 8; 11; 11; 8; 9; 8; 2] ∧
    vocab_size loaded = 7.
Proof.
  destruct (load_after_train char_level_trainer DemoText.no_such_file
              (init 50 None "genomic_tokenizer.json" 1028)
              (init 7 None "genomic_tokenizer.json" 1028) ["ATGC"] ∅
              eq_refl) as (loaded & Hload & Htok & _ & Hv).
  exists loaded. split; [exact Hload|]. split; [|exact Hv].
  rewrite Htok. vm_compute. reflexivity.
Defined.

(** Loading from an empty directory. *)
Lemma load_missing_file_witness :
  load_tokenizer DemoText.no_such_file
    (init 50 None "genomic_tokenizer.json" 1028) ∅
  = Raise (RuntimeError
      "No such file or directory: genomic_tokenizer.json").
Proof.
  apply (proj1 (load_missing_file DemoText.no_such_file
                  (init 50 None "genomic_tokenizer.json" 1028) ∅)).
  reflexivity.
Defined.

End TokenizerFileFacts.

(** ** Text embedding *)

Module TextFacts.
Import InputProcessing TextProcessing.

Lemma max_list_ge (l : list nat) (n : nat) : n ∈ l → (n <= max_list l)%nat.
Proof. apply max_list_elem_of_le. Qed.

Lemma pad_row_length (max_len : nat) (s : list Z) :
  (length s <= max_len)%nat →
  length (s ++ replicate (max_len - length s) 0) = max_len.
Proof. intros H. rewrite length_app, length_replicate. lia. Qed.

(** The rows [pad_sequence] returns for a non-empty batch. *)
Lemma pad_sequence_rows (sequences : list (list Z)) :
  sequences ≠ [] →
  ∃ rows, pad_sequence sequences = Ok rows ∧
    length rows = length sequences ∧
    Forall (λ r, length r = max_list (length <$> sequences)) rows ∧
    ∀ lo hi, Forall (Forall (λ i, lo <= i < hi)) sequences →
             lo <= 0 < hi → Forall (Forall (λ i, lo <= i < hi)) rows.
Proof.
  intros Hne. unfold pad_sequence.
  destruct sequences as [|s0 rest]; [done|]. eexists. split; [reflexivity|].
  set (seqs := s0 :: rest). split; [apply length_fmap|]. split.
  - apply Forall_fmap, Forall_forall. intros s Hs.
    apply (pad_row_length (max_list (length <$> seqs)) s).
    apply max_list_ge, list_elem_of_fmap. eauto.
  - intros lo hi Hall H0. apply Forall_fmap.
    eapply Forall_impl; [exact Hall|]. intros s Hs.
    apply Forall_app. split; [done|].
    apply Forall_forall. intros z Hz. apply elem_of_replicate in Hz as [-> _].
    done.
Qed.

Section WithRegistry.

Variable get_encoding : string → result tiktoken_Encoding.


(** X3. [embed_text] fails with a value error naming the encoding and
    carrying the cause when the encoding cannot be loaded, and with the
    padding routine's runtime error on an empty list of texts; in neither
    case is an embedding table built. *)
Theorem embed_text_failures (text : list string) (embed_dim : Z) :
  (∀ e, get_encoding "o200k_base" = Raise e →
     embed_text get_encoding text embed_dim
     = Raise (ValueError
         ("Failed to initialize tokenizer with model 'o200k_base': " +:+
          exn_str e))) ∧
  (∀ enc, get_encoding "o200k_base" = Ok enc →
     embed_text get_encoding [] embed_dim
     = Raise (RuntimeError "received an empty list of sequences")).
Proof.
  unfold embed_text, TikTokenizer_new. split.
  - intros e ->. reflexivity.
  - intros enc ->. reflexivity.
Qed.

End WithRegistry.


End TextFacts.

(** ** More on weight initialisation *)

Module InitMore.
Import Torch Backbone TorchFacts InitFacts.

Local Abbreviation write_all W τ :=
  (foldl (λ (s : gmap nat init) (kv : nat * init), <[kv.1 := kv.2]> s) τ W).

(** The store after a list of writes: a key that is written ends with a
    value that does not depend on the store the writes started from, and
    every other key keeps its value. *)
Lemma write_all_lookup (W : list (nat * init)) : ∀ (τ1 τ2 : gmap nat init) k,
  (k ∈ W.*1 → write_all W τ1 !! k = write_all W τ2 !! k) ∧
  (k ∉ W.*1 → write_all W τ1 !! k = τ1 !! k).
Proof.
  induction W as [|[k' v] W IH] using rev_ind; intros τ1 τ2 k.
  - split; [intros H; by apply elem_of_nil in H|done].
  - rewrite !foldl_app, fmap_app. cbn. split.
    + intros Hk. destruct (decide (k' = k)) as [->|Hne].
      * by rewrite !lookup_insert_eq.
      * rewrite !lookup_insert_ne by done. apply IH.
        apply elem_of_app in Hk as [Hk|Hk]; [done|].
        apply list_elem_of_singleton in Hk. congruence.
    + intros Hk. apply not_elem_of_app in Hk as [Hk1 Hk2].
      rewrite lookup_insert_ne.
      * by apply IH.
      * intros ->. apply Hk2. left.
Qed.

Lemma write_all_twice (W : list (nat * init)) (τ : gmap nat init) :
  write_all W (write_all W τ) = write_all W τ.
Proof.
  apply map_eq. intros k. destruct (decide (k ∈ W.*1)) as [Hin|Hout].
  - destruct (write_all_lookup W (write_all W τ) τ k) as [H _]. by apply H.
  - destruct (write_all_lookup W (write_all W τ) τ k) as [_ H]. by apply H.
Qed.

Lemma rescale_residual_none r nps σ :
  (∀ n p, (n, p) ∈ nps → n ∉ residual_weights) →
  rescale_residual r nps σ = Ok σ.
Proof.
  induction nps as [|[n p] nps IH]; intros Hno; [reflexivity|]. cbn.
  case_decide as Hn.
  - exfalso. apply (Hno n p); [left|done].
  - apply IH. intros n' p' Hin. apply (Hno n' p'). by right.
Qed.

(** The rescaling loop writes only to residual-named parameters. *)
Lemma rescale_residual_only r nps : ∀ σ σ' q,
  rescale_residual r nps σ = Ok σ' →
  (∀ n p, (n, p) ∈ nps → n ∈ residual_weights → p_id p ≠ q) →
  σ' !! q = σ !! q.
Proof.
  induction nps as [|[n p] nps IH]; intros σ σ' q H Hq; cbn in H.
  - by injection H as <-.
  - case_decide as Hn.
    + apply bind_result_Ok in H as (σ1 & Hk & H).
      apply kaiming_Ok in Hk as ->.
      rewrite (IH _ _ q H)
        by (intros n' p' Hin Hn'; apply (Hq n' p'); [by right|done]).
      apply lookup_insert_ne. apply (Hq n p); [left|done].
    + apply (IH _ _ q H). intros n' p' Hin Hn'.
      apply (Hq n' p'); [by right|done].
Qed.

Lemma rescale_residual_writes r nps : ∀ σ σ',
  rescale_residual r nps σ = Ok σ' →
  ∃ W, ∀ τ, rescale_residual r nps τ = Ok (write_all W τ).
Proof.
  induction nps as [|[n p] nps IH]; intros σ σ' H; cbn in H.
  - exists []. reflexivity.
  - case_decide as Hn.
    + apply bind_result_Ok in H as (σ1 & Hk & H).
      destruct (IH _ _ H) as [W HW].
      exists ((p_id p, ScaledKaiming r) :: W). intros τ. cbn.
      rewrite decide_True by done.
      unfold kaiming_uniform_then_divide in *.
      repeat case_decide; try discriminate. cbn. apply HW.
    + destruct (IH _ _ H) as [W HW]. exists W. intros τ. cbn.
      rewrite decide_False by done. apply HW.
Qed.

Section OneInitialiser.

Variables (n_layer : Z) (initializer_range : Q)
          (rescale_prenorm_residual : bool) (n_residuals_per_layer : Z).

Local Abbreviation fn := (_init_weights n_layer initializer_range
                            rescale_prenorm_residual n_residuals_per_layer).

Lemma init_weights_writes M σ σ' :
  fn M σ = Ok σ' → ∃ W, ∀ τ, fn M τ = Ok (write_all W τ).
Proof.
  unfold _init_weights. intros H.
  apply bind_result_Ok in H as (σ1 & H1 & H).
  assert (∃ W1, ∀ τ,
            match M with
            | Linear l =>
                match bias l with
                | Some b => Ok (if p_no_reinit b then τ else zeros_ b τ)
                | None => Ok τ
                end
            | Embedding e => normal_ (table e) initializer_range τ
            | nn_Module _ _ _ => Ok τ
            end = Ok (write_all W1 τ)) as [W1 HW1].
  { destruct M as [l|e|cls ps cs].
    - destruct (bias l) as [b|]; [|by exists []].
      destruct (p_no_reinit b); [by exists []|].
      by exists [(p_id b, Zeros)].
    - unfold normal_ in *. destruct (Qlt_le_dec _ _); [discriminate|].
      by exists [(p_id (table e), Normal initializer_range)].
    - by exists []. }
  destruct rescale_prenorm_residual.
  - apply rescale_residual_writes in H as [W2 HW2].
    exists (W1 ++ W2). intros τ. rewrite HW1. cbn [mbind result_bind].
    rewrite HW2, foldl_app. reflexivity.
  - exists W1. intros τ. rewrite HW1. reflexivity.
Qed.

(** What [module.apply] of the initialiser writes does not depend on the
    store it starts from. *)
Lemma apply_writes m : ∀ σ σ',
  apply fn m σ = Ok σ' → ∃ W, ∀ τ, apply fn m τ = Ok (write_all W τ).
Proof.
  induction m as [l|e|cls ps cs IH] using module_ind'; intros σ σ' H.
  - change (fn (Linear l) σ = Ok σ') in H.
    apply init_weights_writes in H as [W HW]. exists W. exact HW.
  - change (fn (Embedding e) σ = Ok σ') in H.
    apply init_weights_writes in H as [W HW]. exists W. exact HW.
  - rewrite apply_nn_Module in H.
    apply bind_result_Ok in H as (σ1 & Hcs & H).
    assert (∃ W1, ∀ τ, apply_children fn cs τ = Ok (write_all W1 τ))
      as [W1 HW1].
    { clear H. revert σ σ1 Hcs.
      induction IH as [|[k c] cs Hc _ IHcs]; intros σ σ1 Hcs; cbn in Hcs.
      - by exists [].
      - apply bind_result_Ok in Hcs as (σ2 & Hc1 & Hcs).
        destruct (Hc _ _ Hc1) as [Wc HWc].
        destruct (IHcs _ _ Hcs) as [Wr HWr].
        exists (Wc ++ Wr). intros τ. cbn [apply_children]. rewrite HWc.
        cbn [mbind result_bind]. rewrite HWr, foldl_app. reflexivity. }
    apply init_weights_writes in H as [W2 HW2].
    exists (W1 ++ W2). intros τ. rewrite apply_nn_Module, HW1.
    cbn [mbind result_bind]. rewrite HW2, foldl_app. reflexivity.
Qed.

(** X4. Initialising again changes nothing: when [module.apply] of
    [_init_weights] succeeds on a module tree, applying it once more to the
    resulting tensors succeeds and leaves every tensor as it is; in
    particular the residual weights are not scaled down a second time. *)
Theorem init_weights_idempotent m σ σ' :
  apply fn m σ = Ok σ' → apply fn m σ' = Ok σ'.
Proof.
  intros H. destruct (apply_writes m σ σ' H) as [W HW].
  rewrite HW in H. injection H as <-. rewrite HW. f_equal.
  apply write_all_twice.
Qed.

(** [module.apply] of the initialiser writes to no tensor outside the
    module tree. *)
Lemma apply_frame m : ∀ σ σ' q,
  apply fn m σ = Ok σ' → q ∉ parameter_ids m → σ' !! q = σ !! q.
Proof.
  induction m as [l|e|cls ps cs IH] using module_ind'; intros σ σ' q H Hq.
  - change (fn (Linear l) σ = Ok σ') in H.
    eapply init_weights_frame; eauto.
  - change (fn (Embedding e) σ = Ok σ') in H.
    eapply init_weights_frame; eauto.
  - rewrite apply_nn_Module in H.
    apply bind_result_Ok in H as (σ1 & Hcs & H).
    rewrite (init_weights_frame _ _ _ _ _ _ _ _ H Hq).
    assert (q ∉ p_id <$> flat_map (λ nc, parameters nc.2) cs) as Hqc.
    { intros Hin. apply Hq. unfold parameter_ids. cbn [parameters].
      rewrite fmap_app. apply elem_of_app. by right. }
    clear H Hq. revert σ σ1 Hcs.
    induction IH as [|[k c] cs Hc _ IHcs]; intros σ σ1 Hcs; cbn in Hcs.
    + by injection Hcs as <-.
    + apply bind_result_Ok in Hcs as (σ2 & Hc1 & Hcs).
      cbn [flat_map] in Hqc. rewrite fmap_app in Hqc.
      apply not_elem_of_app in Hqc as [Hq1 Hq2].
      rewrite (IHcs Hq2 _ _ Hcs). by apply (Hc _ _ q Hc1).
Qed.

End OneInitialiser.

(** *** What one call does to a leaf *)

Ltac peel_name H :=
  repeat match type of H with
         | (?s +:+ _) = _ =>
             destruct s as [|? s]; cbn in H; [discriminate H|];
             first [discriminate H | injection H as _ H]
         end.

Lemma bias_name_not_residual s : s +:+ "bias" ∉ residual_weights.
Proof.
  intros H. apply elem_of_cons in H as [H|H].
  - peel_name H.
  - apply list_elem_of_singleton in H. peel_name H.
Qed.

Lemma Linear_names l n p :
  (n, p) ∈ named_parameters (Linear l) → n = "weight" ∨ n = "bias".
Proof.
  intros Hin. apply remove_duplicate_elem_of in Hin.
  cbn in Hin. apply elem_of_cons in Hin as [[= -> _]|Hin]; [by left|].
  destruct (bias l); cbn in Hin.
  - apply list_elem_of_singleton in Hin as [= -> _]. by right.
  - by apply elem_of_nil in Hin.
Qed.

Lemma Embedding_names e n p :
  (n, p) ∈ named_parameters (Embedding e) → n = "weight".
Proof.
  intros Hin. apply remove_duplicate_elem_of in Hin.
  cbn in Hin. by apply list_elem_of_singleton in Hin as [= -> _].
Qed.

Lemma weight_bias_not_residual n :
  n = "weight" ∨ n = "bias" → n ∉ residual_weights.
Proof.
  intros [-> | ->] H; apply elem_of_cons in H as [H|H]; try discriminate;
    apply list_elem_of_singleton in H; discriminate.
Qed.

Section Leaves.

Variables (n_layer : Z) (initializer_range : Q)
          (rescale_prenorm_residual : bool) (n_residuals_per_layer : Z).

Local Abbreviation fn := (_init_weights n_layer initializer_range
                            rescale_prenorm_residual n_residuals_per_layer).

(** On a linear layer: the bias is zeroed unless it is exempt, nothing
    else is written. *)
Lemma init_weights_Linear l σ σ' :
  fn (Linear l) σ = Ok σ' →
  σ' = match bias l with
       | Some b => if p_no_reinit b then σ else zeros_ b σ
       | None => σ
       end.
Proof.
  unfold _init_weights. intros H.
  apply bind_result_Ok in H as (σ1 & H1 & H).
  assert (σ' = σ1) as ->.
  { destruct rescale_prenorm_residual; [|by injection H as <-].
    rewrite rescale_residual_none in H; [by injection H as <-|].
    intros n p Hin. by apply weight_bias_not_residual, (Linear_names l n p). }
  destruct (bias l); by injection H1 as <-.
Qed.

(** On an embedding: the table is drawn from the normal distribution. *)
Lemma init_weights_Embedding e σ σ' :
  fn (Embedding e) σ = Ok σ' →
  σ' = <[p_id (table e) := Normal initializer_range]> σ.
Proof.
  unfold _init_weights. intros H.
  apply bind_result_Ok in H as (σ1 & H1 & H).
  assert (σ' = σ1) as ->.
  { destruct rescale_prenorm_residual; [|by injection H as <-].
    rewrite rescale_residual_none in H; [by injection H as <-|].
    intros n p Hin. apply weight_bias_not_residual. left.
    by apply (Embedding_names e n p). }
  unfold normal_ in H1. destruct (Qlt_le_dec _ _); [discriminate|].
  by injection H1 as <-.
Qed.

(** On a container none of whose parameters has a residual name: nothing
    is written. *)
Lemma init_weights_container cls ps cs σ σ' :
  (∀ n p, (n, p) ∈ named_parameters (nn_Module cls ps cs) →
          n ∉ residual_weights) →
  fn (nn_Module cls ps cs) σ = Ok σ' → σ' = σ.
Proof.
  unfold _init_weights. cbn [mbind result_bind]. intros Hno H.
  destruct rescale_prenorm_residual; [|by injection H as <-].
  rewrite rescale_residual_none in H by done. by injection H as <-.
Qed.

Lemma apply_children_frame cs : ∀ σ σ' q,
  apply_children fn cs σ = Ok σ' →
  q ∉ p_id <$> flat_map (λ nc, parameters nc.2) cs →
  σ' !! q = σ !! q.
Proof.
  induction cs as [|[k c] cs IH]; intros σ σ' q H Hq; cbn in H.
  - by injection H as <-.
  - apply bind_result_Ok in H as (σ1 & Hc & H).
    cbn [flat_map] in Hq. rewrite fmap_app in Hq.
    apply not_elem_of_app in Hq as [Hq1 Hq2].
    rewrite (IH _ _ q H Hq2).
    exact (apply_frame _ _ _ _ c _ _ q Hc Hq1).
Qed.

End Leaves.

(** *** Biases of linear layers *)

Lemma prefixed_parameters_elem prefix m n p :
  (n, p) ∈ prefixed_parameters prefix m → p ∈ parameters m.
Proof.
  intros H. rewrite <- (prefixed_parameters_snd m prefix).
  apply list_elem_of_fmap. by exists (n, p).
Qed.

Lemma bias_in_parameters m l b :
  Linear l ∈ modules m → bias l = Some b → b ∈ parameters m.
Proof.
  intros Hl Hb. apply (modules_parameters m (Linear l)); [done|].
  cbn. rewrite Hb. right. left.
Qed.

(** In a tree whose tensors are pairwise distinct, every name under which
    the bias of a linear layer is listed ends in "bias". *)
Lemma bias_names m : ∀ prefix n p l b,
  NoDup (parameter_ids m) →
  Linear l ∈ modules m → bias l = Some b →
  (n, p) ∈ prefixed_parameters prefix m → p_id p = p_id b →
  ∃ s, n = s +:+ "bias".
Proof.
  induction m as [l0|e|cls ps cs IH] using module_ind';
    intros prefix n p l b Hnd Hl Hb Hin Hid.
  - cbn in Hl. apply list_elem_of_singleton in Hl as [= ->].
    unfold parameter_ids in Hnd. cbn in Hnd, Hin. rewrite Hb in Hnd, Hin.
    cbn in Hnd, Hin.
    apply elem_of_cons in Hin as [[= -> ->]|Hin].
    + exfalso. apply NoDup_cons in Hnd as [Hnd _]. apply Hnd.
      rewrite Hid. left.
    + apply list_elem_of_singleton in Hin as [= -> ->]. eauto.
  - cbn in Hl. apply list_elem_of_singleton in Hl. discriminate.
  - cbn [modules] in Hl. apply elem_of_cons in Hl as [Hl|Hl]; [discriminate|].
    unfold parameter_ids in Hnd. cbn [parameters own_parameters] in Hnd.
    rewrite fmap_app in Hnd. apply NoDup_app in Hnd as (_ & Hdisj & Hnd).
    rewrite prefixed_parameters_nn_Module in Hin.
    assert (p_id b ∈ p_id <$> flat_map (λ nc, parameters nc.2) cs) as Hbin.
    { apply list_elem_of_fmap. exists b. split; [done|].
      apply list_elem_of_In, in_flat_map in Hl as (nc & Hnc & Hl).
      apply list_elem_of_In, in_flat_map. exists nc. split; [done|].
      apply list_elem_of_In. apply list_elem_of_In in Hl.
      by apply (bias_in_parameters nc.2 l b). }
    apply elem_of_app in Hin as [Hin|Hin].
    { exfalso. apply (Hdisj (p_id b)); [|done].
      apply list_elem_of_fmap in Hin as ([k q] & [= -> ->] & Hin).
      rewrite <- Hid. apply list_elem_of_fmap. exists q. split; [done|].
      apply list_elem_of_fmap. by exists (k, q). }
    clear Hdisj Hbin. revert Hnd Hl Hin.
    induction IH as [|[k c] cs Hc _ IHcs]; intros Hnd Hl Hin.
    { by apply elem_of_nil in Hl. }
    cbn [flat_map] in Hnd, Hl, Hin. rewrite fmap_app in Hnd.
    apply NoDup_app in Hnd as (Hnd1 & Hdisj & Hnd2).
    apply elem_of_app in Hl as [Hl|Hl]; apply elem_of_app in Hin as [Hin|Hin].
    + eapply (Hc _ n p l b); eauto.
    + exfalso. apply (Hdisj (p_id b)).
      * apply list_elem_of_fmap. exists b. split; [done|].
        by apply (bias_in_parameters c l b).
      * rewrite <- Hid. apply list_elem_of_fmap. exists p. split; [done|].
        apply list_elem_of_In, in_flat_map in Hin as ([k' c'] & Hc' & Hin).
        apply list_elem_of_In, in_flat_map. exists (k', c'). split; [done|].
        apply list_elem_of_In. apply list_elem_of_In in Hin.
        by apply prefixed_parameters_elem in Hin.
    + exfalso. apply (Hdisj (p_id p)).
      * apply list_elem_of_fmap. exists p. split; [done|].
        by apply prefixed_parameters_elem in Hin.
      * rewrite Hid. apply list_elem_of_fmap. exists b. split; [done|].
        apply list_elem_of_In, in_flat_map in Hl as (nc & Hnc & Hl).
        apply list_elem_of_In, in_flat_map. exists nc. split; [done|].
        apply list_elem_of_In. apply list_elem_of_In in Hl.
        by apply (bias_in_parameters nc.2 l b).
    + by apply IHcs.
Qed.

Section Biases.

Variables (n_layer : Z) (initializer_range : Q)
          (rescale_prenorm_residual : bool) (n_residuals_per_layer : Z).

Local Abbreviation fn := (_init_weights n_layer initializer_range
                            rescale_prenorm_residual n_residuals_per_layer).

(** After [module.apply] of the initialiser on a tree whose tensors are
    pairwise distinct, the bias of every linear layer is zero, unless it is
    marked [_no_reinit], in which case it is as it was. *)
Lemma apply_biases m : ∀ σ σ' l b,
  NoDup (parameter_ids m) →
  apply fn m σ = Ok σ' →
  Linear l ∈ modules m → bias l = Some b →
  σ' !! p_id b = if p_no_reinit b then σ !! p_id b else Some Zeros.
Proof.
  induction m as [l0|e|cls ps cs IH] using module_ind';
    intros σ σ' l b Hnd H Hl Hb.
  - cbn in Hl. apply list_elem_of_singleton in Hl as [= ->].
    change (fn (Linear l0) σ = Ok σ') in H.
    apply init_weights_Linear in H as ->. rewrite Hb.
    destruct (p_no_reinit b); [done|]. apply lookup_insert_eq.
  - cbn in Hl. apply list_elem_of_singleton in Hl. discriminate.
  - cbn [modules] in Hl. apply elem_of_cons in Hl as [Hl|Hl]; [discriminate|].
    rewrite apply_nn_Module in H.
    apply bind_result_Ok in H as (σ1 & Hcs & H).
    assert (σ' !! p_id b = σ1 !! p_id b) as ->.
    { unfold _init_weights in H. cbn [mbind result_bind] in H.
      destruct rescale_prenorm_residual; [|by injection H as <-].
      apply (rescale_residual_only _ _ _ _ _ H). intros n p Hin Hres Hid.
      apply remove_duplicate_elem_of in Hin.
      destruct (bias_names (nn_Module cls ps cs) "" n p l b Hnd) as [s ->];
        try done.
      - cbn [modules]. by right.
      - by apply bias_name_not_residual in Hres. }
    clear H. unfold parameter_ids in Hnd.
    cbn [parameters own_parameters] in Hnd. rewrite fmap_app in Hnd.
    apply NoDup_app in Hnd as (_ & _ & Hnd).
    revert σ σ1 Hcs Hnd Hl.
    induction IH as [|[k c] cs Hc _ IHcs]; intros σ σ1 Hcs Hnd Hl.
    { by apply elem_of_nil in Hl. }
    cbn in Hcs. apply bind_result_Ok in Hcs as (σ2 & Hc1 & Hcs).
    cbn [flat_map] in Hnd, Hl. rewrite fmap_app in Hnd.
    apply NoDup_app in Hnd as (Hnd1 & Hdisj & Hnd2).
    apply elem_of_app in Hl as [Hl|Hl].
    + rewrite (apply_children_frame _ _ _ _ cs _ _ (p_id b) Hcs).
      * by apply (Hc σ σ2 l b).
      * apply Hdisj, list_elem_of_fmap. exists b. split; [done|].
        by apply (bias_in_parameters c l b).
    + rewrite (IHcs σ2 σ1 Hcs Hnd2 Hl).
      destruct (p_no_reinit b); [|done].
      apply (apply_frame _ _ _ _ c _ _ _ Hc1). intros Hin.
      apply (Hdisj _ Hin), list_elem_of_fmap. exists b. split; [done|].
      apply list_elem_of_In, in_flat_map in Hl as (nc & Hnc & Hl).
      apply list_elem_of_In, in_flat_map. exists nc. split; [done|].
      apply list_elem_of_In. apply list_elem_of_In in Hl.
      by apply (bias_in_parameters nc.2 l b).
Qed.

End Biases.

(** *** Without rescaling *)

Section WithoutRescaling.

Variables (n_layer : Z) (initializer_range : Q) (n_residuals_per_layer : Z).

Local Abbreviation fn := (_init_weights n_layer initializer_range
                            false n_residuals_per_layer).

Local Abbreviation plain σ σ' :=
  (∀ q : nat, σ' !! q = σ !! q ∨ σ' !! q = Some Zeros ∨
              σ' !! q = Some (Normal initializer_range)).

Lemma plain_trans (σ σ1 σ2 : gmap nat init) :
  plain σ σ1 → plain σ1 σ2 → plain σ σ2.
Proof.
  intros H1 H2 q. destruct (H2 q) as [->|H]; [apply H1|by right].
Qed.

Lemma init_weights_plain M σ σ' : fn M σ = Ok σ' → plain σ σ'.
Proof.
  unfold _init_weights. intros H q.
  apply bind_result_Ok in H as (σ1 & H1 & [= <-]).
  destruct M as [l|e|cls ps cs].
  - destruct (bias l) as [b|]; injection H1 as <-; [|by left].
    destruct (p_no_reinit b); [by left|]. unfold zeros_.
    destruct (decide (p_id b = q)) as [<-|Hne].
    + right. left. apply lookup_insert_eq.
    + left. by apply lookup_insert_ne.
  - unfold normal_ in H1. destruct (Qlt_le_dec _ _); [discriminate|].
    injection H1 as <-. destruct (decide (p_id (table e) = q)) as [<-|Hne].
    + right. right. apply lookup_insert_eq.
    + left. by apply lookup_insert_ne.
  - injection H1 as <-. by left.
Qed.

(** With rescaling switched off, [module.apply] of the initialiser writes
    nothing but zeros and normal draws. *)
Lemma apply_plain m : ∀ σ σ', apply fn m σ = Ok σ' → plain σ σ'.
Proof.
  induction m as [l|e|cls ps cs IH] using module_ind'; intros σ σ' H.
  - exact (init_weights_plain (Linear l) _ _ H).
  - exact (init_weights_plain (Embedding e) _ _ H).
  - rewrite apply_nn_Module in H.
    apply bind_result_Ok in H as (σ1 & Hcs & H).
    apply (plain_trans σ σ1 σ'); [|exact (init_weights_plain _ _ _ H)].
    clear H. revert σ σ1 Hcs.
    induction IH as [|[k c] cs Hc _ IHcs]; intros σ σ1 Hcs; cbn in Hcs.
    + injection Hcs as <-. intros q. by left.
    + apply bind_result_Ok in Hcs as (σ2 & Hc1 & Hcs).
      apply (plain_trans σ σ2 σ1); eauto.
Qed.

End WithoutRescaling.

(** X4 on a mixer with an input and an output projection. *)
Lemma init_weights_idempotent_witness :
  ∃ σ, apply (_init_weights 2 (2 # 100)%Q true 1) DemoText.small_mixer ∅
       = Ok σ ∧
       apply (_init_weights 2 (2 # 100)%Q true 1) DemoText.small_mixer σ
       = Ok σ ∧
       σ !! 2%nat = Some (ScaledKaiming 2).
Proof.
  destruct (apply (_init_weights 2 (2 # 100)%Q true 1)
              DemoText.small_mixer ∅) as [σ|e] eqn:E;
    [|vm_compute in E; discriminate].
  exists σ. split; [reflexivity|]. split.
  - exact (init_weights_idempotent _ _ _ _ _ _ _ E).
  - vm_compute in E. injection E as <-. reflexivity.
Defined.

End InitMore.

(** ** More on the assembly *)

Module AssemblyMore.
Import Torch Backbone TorchFacts InitFacts BackboneFacts InitMore.

Lemma partial_init_weights_Ok n_layer cfg extra fn :
  partial_init_weights n_layer cfg extra = Ok fn →
  cfg_n_layer cfg = None ∧
  (is_Some extra → cfg_n_residuals_per_layer cfg = None) ∧
  fn = _init_weights n_layer
         (default (2 # 100)%Q (cfg_initializer_range cfg))
         (default true (cfg_rescale_prenorm_residual cfg))
         (default 1 (match extra with
                     | Some k => Some k
                     | None => cfg_n_residuals_per_layer cfg
                     end)).
Proof.
  unfold partial_init_weights. case_decide as H1; [discriminate|].
  case_decide as H2; [discriminate|]. intros [= <-]. split.
  - destruct (cfg_n_layer cfg); [|done]. exfalso. apply H1. eauto.
  - split; [|done]. intros He.
    destruct (cfg_n_residuals_per_layer cfg); [|done].
    exfalso. apply H2. split; eauto.
Qed.

Lemma not_residual_embedding s : "embedding." +:+ s ∉ residual_weights.
Proof.
  intros H. apply elem_of_cons in H as [H|H]; [discriminate|].
  apply list_elem_of_singleton in H. discriminate.
Qed.

Lemma not_residual_layers s : "layers." +:+ s ∉ residual_weights.
Proof.
  intros H. apply elem_of_cons in H as [H|H]; [discriminate|].
  apply list_elem_of_singleton in H. discriminate.
Qed.

Lemma not_residual_norm_f s : "norm_f." +:+ s ∉ residual_weights.
Proof.
  intros H. apply elem_of_cons in H as [H|H]; [discriminate|].
  apply list_elem_of_singleton in H. discriminate.
Qed.

(** No residual name is visible from the root of a [MixerModel]. *)
Lemma backbone_has_no_residual_name (b : MixerModel) n p :
  (n, p) ∈ named_parameters (MixerModel_module b) → n ∉ residual_weights.
Proof.
  intros H. apply remove_duplicate_elem_of in H.
  unfold MixerModel_module in H.
  rewrite prefixed_parameters_nn_Module in H.
  cbn [fmap list_fmap flat_map app fst snd] in H.
  rewrite app_nil_r in H. apply elem_of_app in H as [H|H].
  { apply prefixed_parameters_prefix in H as [s ->].
    apply not_residual_embedding. }
  apply elem_of_app in H as [H|H].
  - apply prefixed_parameters_prefix in H as [s ->].
    apply not_residual_layers.
  - apply prefixed_parameters_prefix in H as [s ->].
    apply not_residual_norm_f.
Qed.

Section Passes.

Variables (n_layer : Z) (initializer_range : Q)
          (rescale_prenorm_residual : bool) (n_residuals_per_layer : Z).

Local Abbreviation fn := (_init_weights n_layer initializer_range
                            rescale_prenorm_residual n_residuals_per_layer).

(** The pass over a [MixerModel]: the embedding, the layers, the final
    norm; the model itself adds nothing. *)
Lemma apply_MixerModel_module (b : MixerModel) σ σ' :
  apply fn (MixerModel_module b) σ = Ok σ' →
  ∃ σ1,
    apply fn
      (nn_Module "ModuleList" []
         (imap (λ i blk, (pretty i, block_module blk)) (layers b)))
      (<[p_id (table (embedding b)) := Normal initializer_range]> σ)
    = Ok σ1 ∧
    apply fn (norm_f b) σ1 = Ok σ'.
Proof.
  intros H. unfold MixerModel_module in H. rewrite apply_nn_Module in H.
  apply bind_result_Ok in H as (σ3 & Hcs & H).
  apply init_weights_container in H as ->.
  2:{ intros n p. apply (backbone_has_no_residual_name b). }
  cbn [apply_children] in Hcs.
  apply bind_result_Ok in Hcs as (s1 & He & Hcs).
  apply bind_result_Ok in Hcs as (s2 & Hl & Hcs).
  apply bind_result_Ok in Hcs as (s3 & Hn & [= <-]).
  change (fn (Embedding (embedding b)) σ = Ok s1) in He.
  apply init_weights_Embedding in He as ->. eauto.
Qed.

(** The pass over a [MambaModel] whose output projection has no bias is
    the pass over its backbone. *)
Lemma apply_MambaModel_module (self : MambaModel) σ σ' :
  bias (lm_head self) = None →
  apply fn (MambaModel_module self) σ = Ok σ' →
  apply fn (MixerModel_module (backbone self)) σ = Ok σ'.
Proof.
  intros Hb H. unfold MambaModel_module in H. rewrite apply_nn_Module in H.
  apply bind_result_Ok in H as (σ2 & Hcs & H).
  apply init_weights_container in H as ->.
  2:{ intros n p. apply (root_has_no_residual_name self). }
  cbn [apply_children] in Hcs.
  apply bind_result_Ok in Hcs as (s1 & Hbb & Hcs).
  apply bind_result_Ok in Hcs as (s2 & Hl & [= <-]).
  change (fn (Linear (lm_head self)) s1 = Ok s2) in Hl.
  apply init_weights_Linear in Hl. rewrite Hb in Hl. by subst.
Qed.

End Passes.

Section Assembly.

Variable imports : triton_imports.
Variable Block_layout : Block_args → module.

Implicit Types (ssm_cfg attn_cfg : option (gmap string pyval))
               (attn_layer_idx : option (list Z)).

(** The initialisation pass that ends [MixerModel.__init__]. *)
Lemma MixerModel_new_apply d_model n_layer d_intermediate vocab_size ssm_cfg
    attn_layer_idx attn_cfg eps rms icfg fused res dev dt h m h' :
  MixerModel_new imports Block_layout d_model n_layer d_intermediate
    vocab_size ssm_cfg attn_layer_idx attn_cfg eps rms icfg fused res
    dev dt h = Ok (m, h') →
  ∃ fn,
    partial_init_weights n_layer (default empty_initializer_cfg icfg)
      (Some (if decide (d_intermediate = 0) then 1 else 2)) = Ok fn ∧
    apply fn (MixerModel_module m) (tensors h) = Ok (tensors h').
Proof.
  unfold MixerModel_new. intros H.
  apply bind_ctor_Ok in H as (emb & h1 & Hemb & H).
  apply bind_ctor_Ok in H as (u & h2 & Hfused & H).
  apply bind_ctor_Ok in H as (bs & h3 & Hbs & H).
  apply bind_ctor_Ok in H as (nf & h4 & Hnf & H).
  apply bind_ctor_Ok in H as (fn & h5 & Hfn & H).
  apply bind_ctor_Ok in H as (u' & h6 & Happ & H).
  apply mret_ctor_Ok in H as [-> ->].
  unfold nn_Embedding_new in Hemb.
  apply bind_ctor_Ok in Hemb as (w & h0 & Hw & Hemb).
  apply mret_ctor_Ok in Hemb as [-> ->].
  apply new_parameter_allocated in Hw as (_ & Htw & _).
  assert (tensors h2 = tensors h0) as Ht2.
  { destruct fused.
    - destruct (negb _ || negb _); [discriminate|].
      by apply mret_ctor_Ok in Hfused as [_ ->].
    - by apply mret_ctor_Ok in Hfused as [_ ->]. }
  apply (create_blocks_Ok (λ _ _, True)) in Hbs as (_ & Htbs & _).
  2:{ intros i ha b hb Hb.
      apply create_block_Ok in Hb as (_ & Ha & Ht & _). eauto. }
  apply norm_f_allocated in Hnf as [_ Htnf].
  apply lift_Ok in Hfn as [Hfn ->].
  apply on_tensors_Ok in Happ as (σ & Happ & ->).
  exists fn. split; [done|]. cbn [tensors].
  rewrite <- Htw, <- Ht2, <- Htbs, <- Htnf. exact Happ.
Qed.

(** The two initialisation passes of [MambaModel.__init__]: the one that
    ends the construction of the backbone, and the one over the whole
    model; [self] is the model before [tie_weights]. *)
Lemma MambaModel_new_passes cfg icfg dev dt h m h' :
  MambaModel_new imports Block_layout cfg icfg dev dt h = Ok (m, h') →
  ∃ self fn_in fn_out σ1,
    m = tie_weights self ∧ config self = cfg ∧
    bias (lm_head self) = None ∧
    allocated h h' (parameter_ids (MambaModel_module self)) ∧
    partial_init_weights (n_layer cfg) (default empty_initializer_cfg icfg)
      (Some (if decide (d_intermediate cfg = 0) then 1 else 2))
    = Ok fn_in ∧
    apply fn_in (MixerModel_module (backbone self)) (tensors h) = Ok σ1 ∧
    partial_init_weights (n_layer cfg) (default empty_initializer_cfg icfg)
      None = Ok fn_out ∧
    apply fn_out (MambaModel_module self) σ1 = Ok (tensors h').
Proof.
  unfold MambaModel_new. intros H.
  apply bind_ctor_Ok in H as (V & h1 & HV & H).
  apply bind_ctor_Ok in H as (bb & h2 & Hbb & H).
  apply bind_ctor_Ok in H as (lm & h3 & Hlm & H).
  apply bind_ctor_Ok in H as (fn & h4 & Hfn & H).
  apply bind_ctor_Ok in H as (u & h5 & Happ & H).
  apply mret_ctor_Ok in H as [-> ->].
  apply lift_Ok in HV as [HV ->]. apply lift_Ok in Hfn as [Hfn ->].
  apply on_tensors_Ok in Happ as (σ' & Happ & ->).
  pose proof Hbb as Hbb'.
  apply MixerModel_new_apply in Hbb' as (fn_in & Hfn_in & Happ_in).
  apply MixerModel_new_Ok in Hbb as (_ & _ & _ & Hbb & _).
  unfold nn_Linear_new in Hlm.
  apply bind_ctor_Ok in Hlm as (w & h0 & Hw & Hlm).
  apply mret_ctor_Ok in Hlm as [-> ->].
  apply new_parameter_allocated in Hw as (Hw & Htw & _).
  exists {| config := cfg; backbone := bb;
            lm_head := {| weight := w; bias := None |} |},
         fn_in, fn, (tensors h2).
  cbn [config backbone lm_head weight bias].
  split; [done|]. split; [done|]. split; [done|]. split.
  { rewrite MambaModel_module_ids. cbn [backbone lm_head].
    eapply allocated_next; [|reflexivity]. cbn [next].
    eapply allocated_app; eauto. }
  split; [done|]. split; [done|]. split; [done|].
  rewrite <- Htw. exact Happ.
Qed.

Lemma layers_module_ids (bs : list Block) :
  parameter_ids
    (nn_Module "ModuleList" []
       (imap (λ i blk, (pretty i, block_module blk)) bs))
  = p_id <$> flat_map (λ b, parameters (block_module b)) bs.
Proof.
  unfold parameter_ids. cbn [parameters own_parameters fmap list_fmap app].
  by rewrite layers_parameters.
Qed.

(** After the pass over a backbone with pairwise distinct tensors, the
    embedding table holds the normal draw. *)
Lemma apply_backbone_embedding n_layer std rescale k (b : MixerModel) σ σ' :
  NoDup (parameter_ids (MixerModel_module b)) →
  apply (_init_weights n_layer std rescale k) (MixerModel_module b) σ
  = Ok σ' →
  σ' !! p_id (table (embedding b)) = Some (Normal std).
Proof.
  intros Hnd H. rewrite MixerModel_module_ids in Hnd.
  cbn [app] in Hnd. apply NoDup_cons in Hnd as [Hemb _].
  apply not_elem_of_app in Hemb as [Hl Hn].
  apply apply_MixerModel_module in H as (σ1 & Hlayers & Hnorm).
  rewrite (apply_frame _ _ _ _ _ _ _ _ Hnorm Hn).
  rewrite (apply_frame _ _ _ _ _ _ _ _ Hlayers)
    by (by rewrite layers_module_ids).
  apply lookup_insert_eq.
Qed.

(** X5. After construction the embedding table holds draws from the
    normal distribution with standard deviation [initializer_range] (0.02
    unless the initialiser configuration says otherwise), whatever the
    layers are; a tied output projection is that same tensor and so holds
    them too. *)
Theorem embedding_initialisation cfg icfg dev dt h m h' :
  MambaModel_new imports Block_layout cfg icfg dev dt h = Ok (m, h') →
  let std := default (2 # 100)%Q
               (cfg_initializer_range
                  (default empty_initializer_cfg icfg)) in
  tensors h' !! p_id (table (embedding (backbone m))) = Some (Normal std) ∧
  (tie_embeddings cfg = true →
   tensors h' !! p_id (weight (lm_head m)) = Some (Normal std)).
Proof.
  intros H std.
  apply MambaModel_new_passes in H
    as (self & fn_in & fn_out & σ1 & -> & Hcfg & Hb & Halloc & _ & _ &
        Hout & Happ).
  apply partial_init_weights_Ok in Hout as (_ & _ & ->).
  apply apply_MambaModel_module in Happ; [|done].
  apply allocated_NoDup in Halloc. rewrite MambaModel_module_ids in Halloc.
  apply NoDup_app in Halloc as (Hnd & _ & _).
  pose proof (apply_backbone_embedding _ _ _ _ _ _ _ Hnd Happ) as Hemb.
  destruct (backbone_tie_weights self) as (-> & _ & _ & ->).
  split; [exact Hemb|]. rewrite Hcfg. intros ->. exact Hemb.
Qed.

(** X6. The weight of an untied output projection is written by neither
    initialisation pass: after construction it still holds what
    [nn.Linear] drew for it (the store at its identity is as before the
    construction). *)
Theorem untied_lm_head_keeps_default cfg icfg dev dt h m h' :
  MambaModel_new imports Block_layout cfg icfg dev dt h = Ok (m, h') →
  tie_embeddings cfg = false →
  tensors h' !! p_id (weight (lm_head m))
  = tensors h !! p_id (weight (lm_head m)).
Proof.
  intros H Htie.
  apply MambaModel_new_passes in H
    as (self & fn_in & fn_out & σ1 & -> & Hcfg & Hb & Halloc & Hin & Happ_in
        & Hout & Happ).
  apply partial_init_weights_Ok in Hout as (_ & _ & ->).
  apply partial_init_weights_Ok in Hin as (_ & _ & ->).
  apply apply_MambaModel_module in Happ; [|done].
  apply allocated_NoDup in Halloc. rewrite MambaModel_module_ids in Halloc.
  apply NoDup_app in Halloc as (_ & Hdisj & _).
  destruct (backbone_tie_weights self) as (_ & _ & _ & ->).
  rewrite Hcfg, Htie.
  assert (p_id (weight (lm_head self))
          ∉ parameter_ids (MixerModel_module (backbone self))) as Hout.
  { intros Hin. apply (Hdisj _ Hin). unfold parameter_ids. cbn. left. }
  rewrite (apply_frame _ _ _ _ _ _ _ _ Happ Hout).
  exact (apply_frame _ _ _ _ _ _ _ _ Happ_in Hout).
Qed.

(** X7. After construction the bias of every linear layer of the model is
    zero, unless the layer marked it [_no_reinit], in which case neither
    pass has written to it. *)
Theorem linear_biases_after_construction cfg icfg dev dt h m h' :
  MambaModel_new imports Block_layout cfg icfg dev dt h = Ok (m, h') →
  ∀ l b, Linear l ∈ modules (MambaModel_module m) → bias l = Some b →
    tensors h' !! p_id b
    = if p_no_reinit b then tensors h !! p_id b else Some Zeros.
Proof.
  intros H l b Hl Hbias.
  apply MambaModel_new_passes in H
    as (self & fn_in & fn_out & σ1 & -> & Hcfg & Hb & Halloc & Hin & Happ_in
        & Hout & Happ).
  apply partial_init_weights_Ok in Hout as (_ & _ & ->).
  apply partial_init_weights_Ok in Hin as (_ & _ & ->).
  apply apply_MambaModel_module in Happ; [|done].
  apply allocated_NoDup in Halloc. rewrite MambaModel_module_ids in Halloc.
  apply NoDup_app in Halloc as (Hnd & _ & _).
  assert (Linear l ∈ modules (MixerModel_module (backbone self))) as Hlb.
  { destruct (backbone_tie_weights self) as (Hbb & _ & Hbias' & _).
    unfold MambaModel_module in Hl. cbn [modules flat_map snd] in Hl.
    rewrite Hbb, app_nil_r in Hl.
    apply elem_of_cons in Hl as [Hl|Hl]; [discriminate|].
    apply elem_of_app in Hl as [Hl|Hl]; [done|].
    cbn in Hl. apply list_elem_of_singleton in Hl as [= ->].
    rewrite Hbias', Hb in Hbias. discriminate. }
  rewrite (apply_biases _ _ _ _ _ _ _ l b Hnd Happ Hlb Hbias).
  destruct (p_no_reinit b) eqn:Hnr; [|done].
  rewrite (apply_biases _ _ _ _ _ _ _ l b Hnd Happ_in Hlb Hbias).
  by rewrite Hnr.
Qed.

(** X8. With [rescale_prenorm_residual] switched off in the initialiser
    configuration, construction rescales nothing: a tensor that holds
    rescaled Kaiming values afterwards held them before. *)
Theorem no_rescaling_when_disabled cfg icfg dev dt h m h' :
  MambaModel_new imports Block_layout cfg icfg dev dt h = Ok (m, h') →
  cfg_rescale_prenorm_residual (default empty_initializer_cfg icfg)
  = Some false →
  ∀ q r, tensors h' !! q = Some (ScaledKaiming r) →
         tensors h !! q = Some (ScaledKaiming r).
Proof.
  intros H Hoff q r Hq.
  apply MambaModel_new_passes in H
    as (self & fn_in & fn_out & σ1 & _ & _ & _ & _ & Hin & Happ_in
        & Hout & Happ).
  apply partial_init_weights_Ok in Hout as (_ & _ & ->).
  apply partial_init_weights_Ok in Hin as (_ & _ & ->).
  rewrite Hoff in Happ, Happ_in. cbn [default] in Happ, Happ_in.
  destruct (apply_plain _ _ _ _ _ _ Happ q) as [Hs|[Hs|Hs]];
    rewrite Hs in Hq; try discriminate.
  destruct (apply_plain _ _ _ _ _ _ Happ_in q) as [Ht|[Ht|Ht]];
    rewrite Ht in Hq; try discriminate.
  exact Hq.
Qed.

(** *** Keywords handed to the mixer *)

Lemma repeated_keyword_None given (cfg : gmap string pyval) :
  repeated_keyword given cfg = None → ∀ k, k ∈ given → cfg !! k = None.
Proof.
  unfold repeated_keyword. intros H k Hk.
  apply fmap_None, list_find_None in H.
  rewrite Forall_forall in H. specialize (H k Hk).
  destruct (cfg !! k); [|done]. exfalso. apply H. eauto.
Qed.

Lemma repeated_keyword_Some given (cfg : gmap string pyval) k :
  k ∈ given → is_Some (cfg !! k) →
  ∃ k', repeated_keyword given cfg = Some k' ∧ k' ∈ given ∧
        is_Some (cfg !! k').
Proof.
  intros Hk Hs. unfold repeated_keyword.
  destruct (list_find (λ k, is_Some (cfg !! k)) given) as [[i k']|] eqn:E.
  - apply list_find_Some in E as (Hi & HP & _). exists k'.
    split; [done|]. split; [|done]. by apply list_elem_of_lookup_2 in Hi.
  - apply list_find_None in E. rewrite Forall_forall in E.
    by destruct (E k Hk).
Qed.

Lemma merge_kwargs_Ok (cfg : gmap string pyval) dev dt kw :
  merge_kwargs ["layer_idx"; "device"; "dtype"] cfg
    {[ "device" := dev; "dtype" := dt ]} = Ok kw →
  kw !! "device" = Some dev ∧ kw !! "dtype" = Some dt ∧
  kw !! "layer_idx" = None ∧
  ∀ k, k ≠ "device" → k ≠ "dtype" → kw !! k = cfg !! k.
Proof.
  unfold merge_kwargs.
  destruct (repeated_keyword _ cfg) as [k|] eqn:E; [discriminate|].
  intros [= <-].
  pose proof (repeated_keyword_None _ _ E) as Hnone.
  assert (cfg !! "layer_idx" = None) as Hl by (apply Hnone; set_solver).
  assert (cfg !! "device" = None) as Hd by (apply Hnone; set_solver).
  assert (cfg !! "dtype" = None) as Ht by (apply Hnone; set_solver).
  repeat split.
  - rewrite lookup_union_r by done. by simplify_map_eq.
  - rewrite lookup_union_r by done. by simplify_map_eq.
  - rewrite lookup_union_l by (by simplify_map_eq). done.
  - intros k Hk1 Hk2. rewrite lookup_union_l; [done|]. by simplify_map_eq.
Qed.

(** X9. What the mixer of a created block is constructed with: the layer
    index, the device and the dtype, and every entry of the configuration
    of its kind unchanged - for a state-space layer all of [ssm_cfg] except
    the [layer] entry, which is consumed and never passed on; for an
    attention layer all of [attn_cfg]. *)
Theorem create_block_keywords d_model d_intermediate ssm_cfg attn_layer_idx
    attn_cfg eps rms res fused idx dev dt h b h' :
  create_block imports Block_layout d_model d_intermediate ssm_cfg
    attn_layer_idx attn_cfg eps rms res fused idx dev dt h = Ok (b, h') →
  let kw := mixer_kwargs (mixer_cls (block_args b)) in
  mixer_layer_idx (mixer_cls (block_args b)) = idx ∧
  kw !! "device" = Some dev ∧ kw !! "dtype" = Some dt ∧
  (py_not_in idx (default [] attn_layer_idx) = true →
   kw !! "layer" = None ∧
   ∀ k, k ≠ "layer" → k ≠ "device" → k ≠ "dtype" →
        kw !! k = default ∅ ssm_cfg !! k) ∧
  (py_not_in idx (default [] attn_layer_idx) = false →
   ∀ k, k ≠ "device" → k ≠ "dtype" → kw !! k = default ∅ attn_cfg !! k).
Proof.
  unfold create_block. intros H.
  apply bind_ctor_Ok in H as (mixer & h1 & Hm & H).
  apply bind_ctor_Ok in H as (norm & h2 & Hn & H).
  apply bind_ctor_Ok in H as (blk & h3 & Hb & H).
  apply mret_ctor_Ok in H as [-> ->]. apply lift_Ok in Hm as [Hm ->].
  cbn [block_args mixer_cls].
  destruct (py_not_in idx (default [] attn_layer_idx)).
  - destruct (decide (default (PStr "Mamba1")
                         (default ∅ ssm_cfg !! "layer")
                       ∉ [PStr "Mamba1"; PStr "Mamba2"])) as [|Hbad];
      [discriminate Hm|].
    apply bind_result_Ok in Hm as (kw & Hkw & [= <-]).
    apply merge_kwargs_Ok in Hkw as (Hd & Ht & _ & Hrest).
    cbn. split; [done|]. split; [done|]. split; [done|].
    split; [|discriminate]. intros _. split.
    + rewrite Hrest by done. apply lookup_delete_eq.
    + intros k Hk1 Hk2 Hk3. rewrite Hrest by done.
      by apply lookup_delete_ne.
  - apply bind_result_Ok in Hm as (kw & Hkw & [= <-]).
    apply merge_kwargs_Ok in Hkw as (Hd & Ht & _ & Hrest).
    cbn. split; [done|]. split; [done|]. split; [done|].
    split; [discriminate|]. intros _. exact Hrest.
Qed.

(** X10. A configuration that itself carries one of the keywords
    [create_block] supplies ([layer_idx], [device], [dtype]) makes
    [create_block] fail with the type error of a keyword given twice: for a
    state-space layer with an accepted [layer] entry when [ssm_cfg] carries
    it, for an attention layer when [attn_cfg] does. *)
Theorem create_block_repeated_keyword d_model d_intermediate ssm_cfg
    attn_layer_idx attn_cfg eps rms res fused idx dev dt h k :
  k ∈ ["layer_idx"; "device"; "dtype"] →
  (py_not_in idx (default [] attn_layer_idx) = true →
   default (PStr "Mamba1") (default ∅ ssm_cfg !! "layer")
     ∈ [PStr "Mamba1"; PStr "Mamba2"] →
   is_Some (default ∅ ssm_cfg !! k) →
   ∃ k', k' ∈ ["layer_idx"; "device"; "dtype"] ∧
     is_Some (default ∅ ssm_cfg !! k') ∧
     create_block imports Block_layout d_model d_intermediate ssm_cfg
       attn_layer_idx attn_cfg eps rms res fused idx dev dt h
     = Raise (multiple_values k')) ∧
  (py_not_in idx (default [] attn_layer_idx) = false →
   is_Some (default ∅ attn_cfg !! k) →
   ∃ k', k' ∈ ["layer_idx"; "device"; "dtype"] ∧
     is_Some (default ∅ attn_cfg !! k') ∧
     create_block imports Block_layout d_model d_intermediate ssm_cfg
       attn_layer_idx attn_cfg eps rms res fused idx dev dt h
     = Raise (multiple_values k')).
Proof.
  intros Hk. split.
  - intros Hin Hok Hs.
    assert (k ≠ "layer") as Hne.
    { intros ->. repeat (apply elem_of_cons in Hk as [Hk|Hk];
                         [discriminate|]). by apply elem_of_nil in Hk. }
    destruct (repeated_keyword_Some ["layer_idx"; "device"; "dtype"]
                (delete "layer" (default ∅ ssm_cfg)) k Hk)
      as (k' & Hrep & Hk' & Hs').
    { by rewrite lookup_delete_ne. }
    exists k'. split; [done|]. split.
    { destruct (decide (k' = "layer")) as [->|Hne'].
      - rewrite lookup_delete_eq in Hs'. by destruct Hs'.
      - by rewrite lookup_delete_ne in Hs'. }
    unfold create_block. rewrite Hin.
    destruct (decide (default (PStr "Mamba1")
                         (default ∅ ssm_cfg !! "layer")
                       ∉ [PStr "Mamba1"; PStr "Mamba2"])) as [Hbad|_];
      [by destruct Hbad|].
    unfold merge_kwargs. rewrite Hrep. reflexivity.
  - intros Hin Hs.
    destruct (repeated_keyword_Some ["layer_idx"; "device"; "dtype"]
                (default ∅ attn_cfg) k Hk Hs) as (k' & Hrep & Hk' & Hs').
    exists k'. split; [done|]. split; [done|].
    unfold create_block. rewrite Hin.
    unfold merge_kwargs. rewrite Hrep. reflexivity.
Qed.

(** *** Blocks of a constructed backbone *)

Lemma create_block_args d_model d_intermediate ssm_cfg attn_layer_idx
    attn_cfg eps rms res fused idx dev dt h b h' :
  create_block imports Block_layout d_model d_intermediate ssm_cfg
    attn_layer_idx attn_cfg eps rms res fused idx dev dt h = Ok (b, h') →
  dim (block_args b) = d_model ∧
  mlp_cls (block_args b)
  = (if decide (d_intermediate = 0) then Identity
     else GatedMLP d_intermediate d_model
            {[ "device" := dev; "dtype" := dt ]}) ∧
  norm_class_of (norm_cls (block_args b))
  = (if rms then RMSNorm_class else LayerNorm) ∧
  norm_eps (norm_cls (block_args b)) = eps ∧
  (rms = true → RMSNorm imports = true) ∧
  block_fused_add_norm (block_args b) = fused ∧
  block_residual_in_fp32 (block_args b) = res ∧
  instantiate (Block_layout (block_args b)) h = Ok (block_module b, h').
Proof.
  unfold create_block. intros H.
  apply bind_ctor_Ok in H as (mixer & h1 & Hm & H).
  apply bind_ctor_Ok in H as (norm & h2 & Hn & H).
  apply bind_ctor_Ok in H as (blk & h3 & Hb & H).
  apply mret_ctor_Ok in H as [-> ->].
  apply lift_Ok in Hm as [Hm ->]. apply lift_Ok in Hn as [Hn ->].
  cbn [block_args block_module dim mlp_cls norm_cls block_fused_add_norm
       block_residual_in_fp32].
  split; [done|]. split; [done|].
  destruct rms; cbn in Hn.
  - destruct (RMSNorm imports); [|discriminate]. injection Hn as <-.
    cbn. repeat split; done.
  - injection Hn as <-. cbn. repeat split; done.
Qed.

(** X11. Every block of a constructed [MixerModel] is built for width
    [d_model], with the flags of the model, with the RMS norm exactly when
    [rms_norm] is set, and with no MLP exactly when [d_intermediate] is 0 -
    otherwise with a gated MLP of [d_intermediate] hidden and [d_model]
    output features. *)
Theorem blocks_follow_configuration d_model n_layer d_intermediate
    vocab_size ssm_cfg attn_layer_idx attn_cfg eps rms icfg fused res dev dt
    h m h' :
  MixerModel_new imports Block_layout d_model n_layer d_intermediate
    vocab_size ssm_cfg attn_layer_idx attn_cfg eps rms icfg fused res
    dev dt h = Ok (m, h') →
  ∀ b, b ∈ layers m →
    dim (block_args b) = d_model ∧
    (mlp_cls (block_args b) = Identity ↔ d_intermediate = 0) ∧
    (d_intermediate ≠ 0 →
     ∃ kw, mlp_cls (block_args b) = GatedMLP d_intermediate d_model kw) ∧
    (norm_class_of (norm_cls (block_args b)) = RMSNorm_class ↔ rms = true) ∧
    norm_eps (norm_cls (block_args b)) = eps ∧
    block_fused_add_norm (block_args b) = fused ∧
    block_residual_in_fp32 (block_args b) = res.
Proof.
  intros H b Hb.
  apply MixerModel_new_Ok in H as (_ & _ & _ & _ & Hall & _).
  apply list_elem_of_lookup in Hb as [i Hi].
  destruct (Forall2_lookup_r _ _ _ _ _ Hall Hi) as (j & _ & h1 & h2 & Hc).
  apply create_block_args in Hc
    as (Hdim & Hmlp & Hnorm & Heps & _ & Hf & Hr & _).
  split; [done|]. rewrite Hmlp, Hnorm.
  split; [|split; [|split; [|done]]].
  - case_decide; split; done.
  - intros Hne. rewrite decide_False by done. eauto.
  - destruct rms; split; done.
Qed.

(** X12. With [rms_norm] requested and the RMS norm class missing from the
    guarded import, neither a [MixerModel] nor a [MambaModel] is ever
    constructed, fused path or not. *)
Theorem rms_norm_requires_import :
  RMSNorm imports = false →
  (∀ d_model n_layer d_intermediate vocab_size ssm_cfg attn_layer_idx
     attn_cfg eps icfg fused res dev dt h,
     is_ok (MixerModel_new imports Block_layout d_model n_layer
              d_intermediate vocab_size ssm_cfg attn_layer_idx attn_cfg eps
              true icfg fused res dev dt h) = false) ∧
  (∀ cfg icfg dev dt h,
     rms_norm cfg = true →
     is_ok (MambaModel_new imports Block_layout cfg icfg dev dt h) = false).
Proof.
  intros Himp.
  assert (∀ d_model n_layer d_intermediate vocab_size ssm_cfg attn_layer_idx
            attn_cfg eps icfg fused res dev dt h,
            is_ok (MixerModel_new imports Block_layout d_model n_layer
                     d_intermediate vocab_size ssm_cfg attn_layer_idx
                     attn_cfg eps true icfg fused res dev dt h) = false)
    as Hmixer.
  { intros. destruct (MixerModel_new _ _ _ _ _ _ _ _ _ _ _ _ _ _ _ _ _)
      as [[m h']|e] eqn:E; [|reflexivity].
    exfalso. unfold MixerModel_new in E.
    apply bind_ctor_Ok in E as (emb & h1 & _ & E).
    apply bind_ctor_Ok in E as (u & h2 & _ & E).
    apply bind_ctor_Ok in E as (bs & h3 & _ & E).
    apply bind_ctor_Ok in E as (nf & h4 & Hnf & _).
    cbn in Hnf. rewrite Himp in Hnf. discriminate. }
  split; [exact Hmixer|].
  intros cfg icfg dev dt h Hrms.
  destruct (MambaModel_new _ _ _ _ _ _ _) as [[m h']|e] eqn:E;
    [|reflexivity].
  exfalso. unfold MambaModel_new in E.
  apply bind_ctor_Ok in E as (V & h1 & _ & E).
  apply bind_ctor_Ok in E as (bb & h2 & Hbb & _).
  rewrite Hrms in Hbb.
  specialize (Hmixer (d_model cfg) (n_layer cfg) (d_intermediate cfg) V
                (ssm_cfg cfg) (attn_layer_idx cfg) (attn_cfg cfg)
                (1 # 100000)%Q icfg (fused_add_norm cfg)
                (residual_in_fp32 cfg) dev dt h1).
  rewrite Hbb in Hmixer. discriminate.
Qed.

(** X13. A padding multiple of zero makes [MambaModel.__init__] fail with
    a division-by-zero error before anything is allocated. *)
Theorem zero_padding_multiple cfg icfg dev dt h :
  pad_vocab_size_multiple cfg = 0 →
  ∃ msg, MambaModel_new imports Block_layout cfg icfg dev dt h
         = Raise (ZeroDivisionError msg).
Proof.
  intros Hz. unfold MambaModel_new, pad_vocab_size. rewrite Hz.
  eexists. reflexivity.
Qed.

Lemma bind_ctor_Ok_eq {A B} (c : ctor A) (f : A → ctor B) h a h1 :
  c h = Ok (a, h1) → (c ≫= f) h = f a h1.
Proof. unfold mbind, ctor_bind. by intros ->. Qed.

Lemma bind_ctor_Raise_eq {A B} (c : ctor A) (f : A → ctor B) h e :
  c h = Raise e → (c ≫= f) h = Raise e.
Proof. unfold mbind, ctor_bind. by intros ->. Qed.

Lemma nn_Embedding_new_nonneg n d h :
  0 <= n → 0 <= d →
  nn_Embedding_new n d h
  = Ok ({| table := {| p_id := next h; p_shape := [n; d];
                       p_no_reinit := false |} |},
        {| next := S (next h); tensors := tensors h |}).
Proof.
  intros Hn Hd. unfold nn_Embedding_new, new_parameter, mbind, ctor_bind.
  case_decide as Hneg; [|reflexivity].
  exfalso. apply Exists_exists in Hneg as (x & Hin & Hlt).
  apply elem_of_cons in Hin as [->|Hin]; [lia|].
  apply list_elem_of_singleton in Hin as ->. lia.
Qed.

(** X14. [MambaModel.__init__] passes the failure of the fused check on:
    with [fused_add_norm] set in the configuration, a kernel missing, and
    sizes for which the embedding table can be allocated, it raises the
    import error. *)
Theorem MambaModel_fused_add_norm_requires_kernels cfg icfg dev dt h V :
  fused_add_norm cfg = true →
  layer_norm_fn imports = false ∨ rms_norm_fn imports = false →
  pad_vocab_size (vocab_size cfg) (pad_vocab_size_multiple cfg) = Ok V →
  0 <= V → 0 <= d_model cfg →
  MambaModel_new imports Block_layout cfg icfg dev dt h
  = Raise (ImportError
      "Failed to import Triton LayerNorm / RMSNorm kernels").
Proof.
  intros Hf Hnone HV HV0 Hd.
  assert (negb (layer_norm_fn imports) || negb (rms_norm_fn imports) = true)
    as Hcheck.
  { destruct Hnone as [-> | ->]; [done|]. apply orb_true_r. }
  unfold MambaModel_new. rewrite HV, Hf.
  erewrite bind_ctor_Ok_eq by reflexivity.
  apply bind_ctor_Raise_eq. unfold MixerModel_new.
  erewrite bind_ctor_Ok_eq by (by apply nn_Embedding_new_nonneg).
  rewrite Hcheck. reflexivity.
Qed.

(** X15. The number of layers and the number of residuals per layer cannot
    be set through the initialiser configuration: an [initializer_cfg]
    that carries [n_layer] or [n_residuals_per_layer] collides with the
    keywords the constructors pass themselves, and no model is
    constructed. *)
Theorem initializer_cfg_reserved_keywords icfg :
  is_Some (cfg_n_layer (default empty_initializer_cfg icfg)) ∨
  is_Some (cfg_n_residuals_per_layer (default empty_initializer_cfg icfg)) →
  (∀ d_model n_layer d_intermediate vocab_size ssm_cfg attn_layer_idx
     attn_cfg eps rms fused res dev dt h,
     is_ok (MixerModel_new imports Block_layout d_model n_layer
              d_intermediate vocab_size ssm_cfg attn_layer_idx attn_cfg eps
              rms icfg fused res dev dt h) = false) ∧
  (∀ cfg dev dt h,
     is_ok (MambaModel_new imports Block_layout cfg icfg dev dt h) = false).
Proof.
  intros Hres.
  assert (∀ n k fn, partial_init_weights n
                      (default empty_initializer_cfg icfg) (Some k)
                    = Ok fn → False) as Hno.
  { intros n k fn Hfn.
    apply partial_init_weights_Ok in Hfn as (Hn & Hk & _).
    destruct Hres as [[x Hx]|[x Hx]].
    - rewrite Hn in Hx. discriminate.
    - rewrite Hk in Hx by eauto. discriminate. }
  split.
  - intros. destruct (MixerModel_new _ _ _ _ _ _ _ _ _ _ _ _ _ _ _ _ _)
      as [[m h']|e] eqn:E; [|reflexivity].
    apply MixerModel_new_apply in E as (fn & Hfn & _).
    by apply Hno in Hfn.
  - intros. destruct (MambaModel_new _ _ _ _ _ _ _) as [[m h']|e] eqn:E;
      [|reflexivity].
    apply MambaModel_new_passes in E
      as (self & fn_in & fn_out & σ1 & _ & _ & _ & _ & Hfn & _).
    by apply Hno in Hfn.
Qed.

End Assembly.

(** X16. The vocabulary is padded to the least multiple: a padded size is
    left alone when padded again, and for a positive padding multiple no
    multiple at or above the configured size is smaller than it. *)
Theorem pad_vocab_size_least v m V :
  pad_vocab_size v m = Ok V →
  pad_vocab_size V m = Ok V ∧
  (0 < m → ∀ W, (m | W) → v <= W → V <= W).
Proof.
  intros H. pose proof (pad_vocab_size_spec _ _ _ H) as ([a Ha] & _ & Hup).
  split.
  - unfold pad_vocab_size in *. case_decide as Hm; [discriminate|].
    rewrite decide_False; [done|]. intros Hne. apply Hne.
    rewrite Ha. apply Z.mod_mul. done.
  - intros Hpos W [c Hc] HW. destruct (Hup Hpos) as [[_ Hlt] _].
    destruct (Z.le_gt_cases a c) as [Hle|Hgt].
    + pose proof (Z.mul_le_mono_nonneg_r a c m ltac:(lia) Hle). lia.
    + pose proof (Z.mul_le_mono_nonneg_r (c + 1) a m ltac:(lia) ltac:(lia)).
      lia.
Qed.

End AssemblyMore.

(** ** More on the forward pass and the inference cache *)

Module ForwardMore.
Import Torch Backbone Inference.

Section Forward.

Context {hidden logit : Type}.

Variable F_embedding :
  nn_Parameter → list (list Z) → result (list (list hidden)).
Variable Block_forward :
  Block → list (list hidden) → option (list (list hidden)) →
  list (list hidden) * option (list (list hidden)).
Variable tensor_add :
  list (list hidden) → list (list hidden) → list (list hidden).
Variable norm_forward : module → list (list hidden) → list (list hidden).
Variable fused_layer_norm :
  list (list hidden) → module → option (list (list hidden)) →
  bool → bool → list (list hidden).
Variable F_linear : nn_Parameter → option nn_Parameter → hidden → list logit.

(** X17. [num_last_tokens] only ever shortens: when it is zero or
    negative, or at least as large as every sequence of the batch, the
    forward pass projects every position of the hidden states - it neither
    fails nor pads. *)
Theorem num_last_tokens_out_of_range (self : MambaModel)
    (input_ids : list (list Z)) (num_last_tokens : Z)
    (hidden_states : list (list hidden)) :
  MixerModel_forward F_embedding Block_forward tensor_add norm_forward
    fused_layer_norm (backbone self) input_ids = Ok hidden_states →
  num_last_tokens <= 0 ∨
  Forall (λ row, Z.of_nat (length row) <= num_last_tokens) hidden_states →
  MambaModel_forward F_embedding Block_forward tensor_add norm_forward
    fused_layer_norm F_linear self input_ids num_last_tokens
  = Ok ((λ row : list hidden,
           F_linear (weight (lm_head self)) (bias (lm_head self)) <$> row)
          <$> hidden_states).
Proof.
  intros Hhs Hn. unfold MambaModel_forward. rewrite Hhs.
  cbn [mbind result_bind]. f_equal. case_decide as Hpos; [|reflexivity].
  destruct Hn as [Hn|Hn]; [lia|].
  unfold last_positions. rewrite <- list_fmap_compose.
  apply Forall_fmap_ext. eapply Forall_impl; [exact Hn|].
  intros row Hrow. cbn in Hrow |- *.
  replace (length row - Z.to_nat num_last_tokens)%nat with 0%nat by lia.
  reflexivity.
Qed.

End Forward.

Section Cache.

Context {cache : Type}.
Variable Block_allocate_inference_cache :
  Block → Z → Z → pyval → gmap string pyval → cache.

Lemma foldl_insert_imap {A V} (g : A → V) (l : list A) :
  ∀ (k : nat) (d0 : gmap Z V) (j : Z),
  foldl (λ (d : gmap Z V) (il : Z * A), <[il.1 := g il.2]> d) d0
        (imap (λ i x, (Z.of_nat (k + i), x)) l) !! j
  = if decide (Z.of_nat k <= j < Z.of_nat (k + length l))
    then g <$> l !! (Z.to_nat j - k)%nat
    else d0 !! j.
Proof.
  induction l as [|x l IH]; intros k d0 j.
  - cbn. rewrite decide_False by lia. reflexivity.
  - cbn [imap foldl fst snd].
    rewrite (imap_ext _ (λ i y, (Z.of_nat (S k + i), y)))
      by (intros i y _; cbn; f_equal; lia).
    rewrite IH. cbn [length].
    destruct (decide (Z.of_nat k = j)) as [<-|Hne].
    + rewrite decide_False by lia. rewrite decide_True by lia.
      replace (k + 0)%nat with k by lia. rewrite lookup_insert_eq.
      replace (Z.to_nat (Z.of_nat k) - k)%nat with 0%nat by lia.
      reflexivity.
    + destruct (decide (Z.of_nat (S k) <= j < Z.of_nat (S k + length l)))
        as [Hin|Hout].
      * rewrite decide_True by lia.
        replace (Z.to_nat j - k)%nat with (S (Z.to_nat j - S k)) by lia.
        reflexivity.
      * rewrite decide_False by lia. apply lookup_insert_ne.
        replace (k + 0)%nat with k by lia. done.
Qed.

(** X18. The inference cache of a model has exactly one entry per layer,
    stored under the index of the layer: the entry at [i] is what layer
    [i] allocates for the given batch size, length, dtype and keywords, and
    there is no entry at any other key. *)
Theorem inference_cache_entries (self : MambaModel)
    (batch_size max_seqlen : Z) (dtype : pyval)
    (kwargs : gmap string pyval) (i : Z) :
  MambaModel_allocate_inference_cache Block_allocate_inference_cache self
    batch_size max_seqlen dtype kwargs !! i
  = if decide (0 <= i)
    then (λ layer, Block_allocate_inference_cache layer batch_size
                     max_seqlen dtype kwargs)
           <$> layers (backbone self) !! Z.to_nat i
    else None.
Proof.
  unfold MambaModel_allocate_inference_cache,
    MixerModel_allocate_inference_cache, enumerate.
  pose proof (foldl_insert_imap
                (λ layer, Block_allocate_inference_cache layer batch_size
                            max_seqlen dtype kwargs)
                (layers (backbone self)) 0 ∅ i) as H.
  cbn [Nat.add] in H. rewrite H. clear H.
  rewrite Nat.sub_0_r. case_decide as Hin; case_decide as Hpos;
    try reflexivity; try lia.
  symmetry. rewrite lookup_ge_None_2 by lia. reflexivity.
Qed.

End Cache.

End ForwardMore.

(** ** The further theorems on concrete models *)

Module ScenariosMore.
Import Torch Backbone Inference TorchFacts BackboneFacts InitMore
       AssemblyMore ForwardMore.

(** X3 without the encoding, and on an empty list of texts. *)
Lemma embed_text_failures_witness :
  TextProcessing.embed_text DemoText.no_encoding ["hello"] 16
  = Raise (ValueError
      "Failed to initialize tokenizer with model 'o200k_base': Unknown encoding o200k_base") ∧
  TextProcessing.embed_text DemoText.get_encoding [] 16
  = Raise (RuntimeError "received an empty list of sequences").
Proof.
  split.
  - apply (proj1 (TextFacts.embed_text_failures DemoText.no_encoding
                    ["hello"] 16) (ValueError "Unknown encoding o200k_base")).
    reflexivity.
  - apply (proj2 (TextFacts.embed_text_failures DemoText.get_encoding
                    [] 16) DemoText.byte_encoding).
    reflexivity.
Defined.

(** X5 on a tied model. *)
Lemma embedding_initialisation_witness :
  ∃ m h',
    MambaModel_new (import_triton false) Demo.Block_layout
      (Demo.config 8 50 [1] true) None PNone PNone Demo.empty_heap
    = Ok (m, h') ∧
    tensors h' !! p_id (weight (lm_head m)) = Some (Normal (2 # 100)%Q).
Proof.
  destruct (MambaModel_new (import_triton false) Demo.Block_layout
      (Demo.config 8 50 [1] true) None PNone PNone Demo.empty_heap)
    as [[m h']|e] eqn:E; [|vm_compute in E; discriminate].
  exists m, h'. split; [reflexivity|].
  apply (embedding_initialisation _ _ _ _ _ _ _ _ _ E). reflexivity.
Defined.

(** X6 on an untied model built on an empty heap. *)
Lemma untied_lm_head_keeps_default_witness :
  ∃ m h',
    MambaModel_new (import_triton false) Demo.Block_layout
      (Demo.config 8 50 [1] false) None PNone PNone Demo.empty_heap
    = Ok (m, h') ∧
    tensors h' !! p_id (weight (lm_head m)) = None.
Proof.
  destruct (MambaModel_new (import_triton false) Demo.Block_layout
      (Demo.config 8 50 [1] false) None PNone PNone Demo.empty_heap)
    as [[m h']|e] eqn:E; [|vm_compute in E; discriminate].
  exists m, h'. split; [reflexivity|].
  rewrite (untied_lm_head_keeps_default _ _ _ _ _ _ _ _ _ E eq_refl).
  apply lookup_empty.
Defined.

(** X7 on the biased input projection of the attention layer. *)
Lemma linear_biases_after_construction_witness :
  ∃ m h',
    MambaModel_new (import_triton false) Demo.Block_layout
      (Demo.config 8 50 [1] true) None PNone PNone Demo.empty_heap
    = Ok (m, h') ∧
    tensors h' !! 18%nat = Some Zeros.
Proof.
  destruct (MambaModel_new (import_triton false) Demo.Block_layout
      (Demo.config 8 50 [1] true) None PNone PNone Demo.empty_heap)
    as [[m h']|e] eqn:E; [|vm_compute in E; discriminate].
  exists m, h'. split; [reflexivity|].
  apply (linear_biases_after_construction _ _ _ _ _ _ _ _ _ E
           {| weight := {| p_id := 17; p_shape := [12; 4];
                           p_no_reinit := false |};
              bias := Some {| p_id := 18; p_shape := [12];
                              p_no_reinit := false |} |}
           {| p_id := 18; p_shape := [12]; p_no_reinit := false |}).
  - vm_compute in E. injection E as <- _. apply list_elem_of_In.
    vm_compute. repeat first [left; reflexivity | right].
  - reflexivity.
Defined.

(** X8 with the rescaling switched off. *)
Lemma no_rescaling_when_disabled_witness :
  ∃ m h',
    MambaModel_new (import_triton false) Demo.Block_layout
      (Demo.config 8 50 [1] true) (Some DemoText.no_rescale_cfg) PNone PNone
      Demo.empty_heap
    = Ok (m, h') ∧
    ∀ q r, tensors h' !! q ≠ Some (ScaledKaiming r).
Proof.
  destruct (MambaModel_new (import_triton false) Demo.Block_layout
      (Demo.config 8 50 [1] true) (Some DemoText.no_rescale_cfg) PNone PNone
      Demo.empty_heap)
    as [[m h']|e] eqn:E; [|vm_compute in E; discriminate].
  exists m, h'. split; [reflexivity|]. intros q r Hq.
  apply (no_rescaling_when_disabled _ _ _ _ _ _ _ _ _ E eq_refl) in Hq.
  unfold Demo.empty_heap in Hq. cbn [tensors] in Hq.
  rewrite lookup_empty in Hq. discriminate.
Defined.

(** X9 on a state-space block with a state size in its configuration. *)
Lemma create_block_keywords_witness :
  ∃ b h',
    create_block (import_triton false) Demo.Block_layout 4 0
      (Some {[ "layer" := PStr "Mamba2"; "d_state" := PInt 64 ]})
      (Some [1]) None (1 # 100000)%Q false true false (Some 0)
      (PStr "cpu") PNone Demo.empty_heap = Ok (b, h') ∧
    mixer_kwargs (mixer_cls (block_args b)) !! "layer" = None ∧
    mixer_kwargs (mixer_cls (block_args b)) !! "d_state" = Some (PInt 64) ∧
    mixer_kwargs (mixer_cls (block_args b)) !! "device"
    = Some (PStr "cpu").
Proof.
  destruct (create_block (import_triton false) Demo.Block_layout 4 0
      (Some {[ "layer" := PStr "Mamba2"; "d_state" := PInt 64 ]})
      (Some [1]) None (1 # 100000)%Q false true false (Some 0)
      (PStr "cpu") PNone Demo.empty_heap)
    as [[b h']|e] eqn:E; [|vm_compute in E; discriminate].
  exists b, h'. split; [reflexivity|].
  destruct (create_block_keywords _ _ _ _ _ _ _ _ _ _ _ _ _ _ _ _ _ E)
    as (_ & Hdev & _ & Hssm & _).
  destruct (Hssm eq_refl) as [Hlayer Hrest].
  split; [exact Hlayer|]. split; [|exact Hdev].
  rewrite Hrest by discriminate. reflexivity.
Defined.

(** X10 on a state-space configuration that names a device. *)
Lemma create_block_repeated_keyword_witness :
  ∃ k',
    create_block (import_triton false) Demo.Block_layout 4 0
      (Some {[ "device" := PStr "cuda" ]}) None None (1 # 100000)%Q false
      true false (Some 0) PNone PNone Demo.empty_heap
    = Raise (multiple_values k').
Proof.
  destruct (proj1 (create_block_repeated_keyword (import_triton false)
                     Demo.Block_layout 4 0
                     (Some {[ "device" := PStr "cuda" ]}) None None
                     (1 # 100000)%Q false true false (Some 0) PNone PNone
                     Demo.empty_heap "device"
                     ltac:(right; left)))
    as (k' & _ & _ & Hraise).
  - reflexivity.
  - left.
  - eexists. reflexivity.
  - exists k'. exact Hraise.
Defined.

(** X11 on a two-layer backbone with an MLP. *)
Lemma blocks_follow_configuration_witness :
  ∃ m h',
    MixerModel_new (import_triton false) Demo.Block_layout 4 2 8 56
      (Some {[ "layer" := PStr "Mamba2" ]}) (Some [1]) None
      (1 # 100000)%Q false None false true PNone PNone Demo.empty_heap
    = Ok (m, h') ∧
    Forall (λ b, ∃ kw, mlp_cls (block_args b) = GatedMLP 8 4 kw) (layers m).
Proof.
  destruct (MixerModel_new (import_triton false) Demo.Block_layout 4 2 8 56
      (Some {[ "layer" := PStr "Mamba2" ]}) (Some [1]) None
      (1 # 100000)%Q false None false true PNone PNone Demo.empty_heap)
    as [[m h']|e] eqn:E; [|vm_compute in E; discriminate].
  exists m, h'. split; [reflexivity|]. apply Forall_forall. intros b Hb.
  destruct (blocks_follow_configuration _ _ _ _ _ _ _ _ _ _ _ _ _ _ _ _ _
              _ _ E b Hb) as (_ & _ & Hmlp & _).
  apply Hmlp. discriminate.
Defined.

(** X12 on the small-scale default configuration without the import. *)
Lemma rms_norm_requires_import_witness :
  is_ok (MambaModel_new (import_triton false) Demo.Block_layout
           (DemoText.fused_config 8) None PNone PNone Demo.empty_heap)
  = false.
Proof.
  apply (proj2 (rms_norm_requires_import (import_triton false)
                  Demo.Block_layout eq_refl)).
  reflexivity.
Defined.

(** X13 with a padding multiple of zero. *)
Lemma zero_padding_multiple_witness :
  ∃ msg,
    MambaModel_new (import_triton false) Demo.Block_layout
      (DemoText.fused_config 0) None PNone PNone Demo.empty_heap
    = Raise (ZeroDivisionError msg).
Proof.
  apply (zero_padding_multiple (import_triton false) Demo.Block_layout
           (DemoText.fused_config 0) None PNone PNone Demo.empty_heap).
  reflexivity.
Defined.

(** X14 on the small-scale default configuration without the kernels. *)
Lemma MambaModel_fused_add_norm_requires_kernels_witness :
  MambaModel_new (import_triton false) Demo.Block_layout
    (DemoText.fused_config 8) None PNone PNone Demo.empty_heap
  = Raise (ImportError
      "Failed to import Triton LayerNorm / RMSNorm kernels").
Proof.
  apply (MambaModel_fused_add_norm_requires_kernels (import_triton false)
           Demo.Block_layout (DemoText.fused_config 8) None PNone PNone
           Demo.empty_heap 56).
  - reflexivity.
  - left. reflexivity.
  - reflexivity.
  - lia.
  - cbn. lia.
Defined.

(** X15 with an initialiser configuration that sets the number of
    residuals. *)
Lemma initializer_cfg_reserved_keywords_witness :
  is_ok (MambaModel_new (import_triton false) Demo.Block_layout
           (Demo.config 8 50 [1] true) (Some DemoText.two_residuals_cfg)
           PNone PNone Demo.empty_heap)
  = false.
Proof.
  apply (proj2 (initializer_cfg_reserved_keywords (import_triton false)
                  Demo.Block_layout (Some DemoText.two_residuals_cfg)
                  ltac:(right; eexists; reflexivity))).
Defined.

(** X16 on a vocabulary of 50 and multiples of 8. *)
Lemma pad_vocab_size_least_witness :
  pad_vocab_size 56 8 = Ok 56 ∧ ∀ W, (8 | W) → 50 <= W → 56 <= W.
Proof.
  destruct (pad_vocab_size_least 50 8 56 eq_refl) as [Hidem Hleast].
  split; [exact Hidem|]. apply Hleast. lia.
Defined.

(** X17 on sequences of three tokens with five last tokens requested. *)
Lemma num_last_tokens_out_of_range_witness :
  ∃ m h',
    MambaModel_new (import_triton false) Demo.Block_layout
      (Demo.config 0 50 [] true) None PNone PNone Demo.empty_heap
    = Ok (m, h') ∧
    MambaModel_forward Demo.F_embedding Demo.Block_forward (λ a _, a)
      (λ _ a, a) (λ a _ _ _ _, a) Demo.F_linear m [[1; 2; 3]; [4; 5; 6]] 5
    = MambaModel_forward Demo.F_embedding Demo.Block_forward (λ a _, a)
        (λ _ a, a) (λ a _ _ _ _, a) Demo.F_linear m [[1; 2; 3]; [4; 5; 6]] 0.
Proof.
  destruct (MambaModel_new (import_triton false) Demo.Block_layout
      (Demo.config 0 50 [] true) None PNone PNone Demo.empty_heap)
    as [[m h']|e] eqn:E; [|vm_compute in E; discriminate].
  exists m, h'. split; [reflexivity|].
  assert (MixerModel_forward Demo.F_embedding Demo.Block_forward (λ a _, a)
            (λ _ a, a) (λ a _ _ _ _, a) (backbone m) [[1; 2; 3]; [4; 5; 6]]
          = Ok [[1; 2; 3]; [4; 5; 6]]) as Hhs.
  { vm_compute in E. injection E as <- _. vm_compute. reflexivity. }
  rewrite (num_last_tokens_out_of_range _ _ _ _ _ Demo.F_linear m _ 5 _ Hhs)
    by (right; repeat constructor; cbn; lia).
  rewrite (num_last_tokens_out_of_range _ _ _ _ _ Demo.F_linear m _ 0 _ Hhs)
    by (left; lia).
  reflexivity.
Defined.

(** The cache of a constructed two-layer model. *)
Example inference_cache_of_two_layers :
  match MambaModel_new (import_triton false) Demo.Block_layout
          (Demo.config 0 50 [1] true) None PNone PNone Demo.empty_heap with
  | Ok (m, _) =>
      MambaModel_allocate_inference_cache DemoText.layer_cache m 3 128
        PNone ∅
  | Raise _ => ∅
  end
  = {[ 0 := (Some 0, 3, 128); 1 := (Some 1, 3, 128) ]}.
Proof. vm_compute. reflexivity. Qed.

End ScenariosMore.
